(** * Employee-productivity front end: image normaliser and job orchestrator

    A shallow embedding of [streamlit_code.py].  The program is a Streamlit
    page that shrinks an uploaded screenshot to a PNG, base64-encodes it,
    posts it to an API Gateway endpoint and polls the started Step Functions
    execution.

    The libraries the program calls (Pillow, json, requests, boto3,
    streamlit, time) are not part of the repository.  They are taken as
    interfaces: a record of operations for Pillow and one for the remote
    services, and a log of calls for what the program does to the outside
    (library calls, UI messages, sleeps).  The repository's own functions are
    written out in a state-and-exception monad over that log. *)

From Stdlib Require Import ZArith String Ascii List Lia DecimalString.
From Stdlib.Strings Require Import Byte.
From stdpp Require Import base list.

Open Scope string_scope.
Open Scope list_scope.
Open Scope stdpp_scope.
Open Scope Z_scope.

(** ** Python control flow: results, exceptions, state *)

Module Py.

(** The outcome of evaluating a Python expression: a value, or a raised
    exception (only its [str(e)] text is ever read by the program). *)
Inductive Res (A : Type) : Type :=
| Ok (a : A)
| Raise (e : string).
Arguments Ok {A} a.
Arguments Raise {A} e.

(** A computation over a store [S]. *)
Definition M (S A : Type) : Type := S -> Res A * S.

Definition ret {S A} (a : A) : M S A := fun s => (Ok a, s).

Definition bind {S A B} (f : A -> M S B) (m : M S A) : M S B :=
  fun s =>
    match m s with
    | (Ok a, s') => f a s'
    | (Raise e, s') => (Raise e, s')
    end.

Definition raise {S A} (e : string) : M S A := fun s => (Raise e, s).

(** A pure library result brought into the computation. *)
Definition lift {S A} (r : Res A) : M S A := fun s => (r, s).

(** [try: body / except Exception as e: handler e]. *)
Definition try_except {S A} (body : M S A) (handler : string -> M S A) : M S A :=
  fun s =>
    match body s with
    | (Ok a, s') => (Ok a, s')
    | (Raise e, s') => handler e s'
    end.

#[export] Instance M_ret {S} : MRet (M S) := @ret S.
#[export] Instance M_bind {S} : MBind (M S) := @bind S.

(** [str(n)] and [f"{n}"] for a Python int. *)
Definition str_of_int (n : Z) : string := NilZero.string_of_int (Z.to_int n).

(** A Python [str] is represented by its UTF-8 encoding, one [ascii] per
    byte, so that [len(s.encode('utf-8'))] is the number of characters of
    the Rocq string.  (A [str] with a lone surrogate has no encoding and is
    not represented; base64 text is ASCII.) *)
Definition utf8_len (s : string) : Z := Z.of_nat (String.length s).

(** [bytes] values and [len]. *)
Definition bytes : Type := list byte.
Definition blen (b : bytes) : Z := Z.of_nat (length b).

End Py.
Import Py.

(** ** The image normaliser (lines 22-98) *)

Module Normalizer.

(** *** Pillow, as an interface *)

Definition box : Type := Z * Z * Z * Z.

(** The resampling filter passed to [thumbnail]: [Image.LANCZOS], or the
    library's default when the argument is left out. *)
Inductive Resampling : Type := LANCZOS | DefaultFilter.

(** The operations of Pillow the program uses, on the state of an image
    object.  Each one that can raise returns a [Res]. *)
Class Pillow : Type := {
  Img : Type;
  pil_open : bytes -> Res Img;                      (* Image.open(fp) *)
  pil_format : Img -> option string;                (* img.format *)
  pil_mode : Img -> string;                         (* img.mode *)
  pil_convert : string -> Img -> Res Img;           (* img.convert(mode) *)
  pil_getbbox : Img -> Res (option box);            (* img.getbbox() *)
  pil_crop : box -> Img -> Res Img;                 (* img.crop(bbox) *)
  pil_thumbnail : Z * Z -> Resampling -> Img -> Res Img;
                                                    (* img.thumbnail(size, f) *)
  pil_save : string -> bool -> option Z -> Img -> Res bytes
                    (* img.save(buffer, format=, optimize=, quality=) *)
}.

(** *** The object store and the log *)

(** Image objects are mutable ([thumbnail] works in place) and the program
    holds references to them. *)
Definition ref : Type := nat.

Inductive Event : Type :=
| PilOpen (data : bytes)
| PilConvert (r : ref) (mode : string)
| PilGetbbox (r : ref)
| PilCrop (r : ref) (b : box)
| PilCopy (r : ref)
| PilThumbnail (r : ref) (size : Z * Z) (f : Resampling)
| PilSave (r : ref) (format : string) (optimize : bool) (quality : option Z)
| StWarning (msg : string)
| StError (msg : string).

Section WithPillow.
Context {P : Pillow}.

Record World : Type := mkWorld {
  heap : list Img;
  trace : list Event
}.

Definition emit (e : Event) : M World unit :=
  fun w => (Ok tt, mkWorld (heap w) (trace w ++ [e])).

Definition alloc (v : Img) : M World ref :=
  fun w => (Ok (length (heap w)), mkWorld (heap w ++ [v]) (trace w)).

(** Reading through a reference that was never allocated does not happen
    in the program; the model makes it an exception. *)
Definition read (r : ref) : M World Img :=
  fun w =>
    match heap w !! r with
    | Some v => (Ok v, w)
    | None => (Raise "dangling image reference", w)
    end.

Definition write (r : ref) (v : Img) : M World unit :=
  fun w => (Ok tt, mkWorld (<[r := v]> (heap w)) (trace w)).

(** *** Pillow calls on references *)

Definition Image_open (fp : bytes) : M World ref :=
  emit (PilOpen fp);; v ← lift (pil_open fp); alloc v.

Definition img_format (img : ref) : M World (option string) :=
  v ← read img; mret (pil_format v).

Definition img_mode (img : ref) : M World string :=
  v ← read img; mret (pil_mode v).

(** [convert], [crop] and [copy] return a new image object. *)
Definition img_convert (img : ref) (mode : string) : M World ref :=
  emit (PilConvert img mode);;
  v ← read img; v' ← lift (pil_convert mode v); alloc v'.

Definition img_getbbox (img : ref) : M World (option box) :=
  emit (PilGetbbox img);; v ← read img; lift (pil_getbbox v).

Definition img_crop (img : ref) (b : box) : M World ref :=
  emit (PilCrop img b);;
  v ← read img; v' ← lift (pil_crop b v); alloc v'.

Definition img_copy (img : ref) : M World ref :=
  emit (PilCopy img);; v ← read img; alloc v.

(** [thumbnail] modifies the object it is called on. *)
Definition img_thumbnail (img : ref) (size : Z * Z) (f : Resampling)
  : M World unit :=
  emit (PilThumbnail img size f);;
  v ← read img; v' ← lift (pil_thumbnail size f v); write img v'.

(** [img.save(buffer, ...)] into a fresh [BytesIO]; the result is the
    buffer's content. *)
Definition img_save (img : ref) (format : string) (optimize : bool)
    (quality : option Z) : M World bytes :=
  emit (PilSave img format optimize quality);;
  v ← read img; lift (pil_save format optimize quality v).

Definition st_warning (msg : string) : M World unit := emit (StWarning msg).
Definition st_error (msg : string) : M World unit := emit (StError msg).

(** *** The program *)

(** Lines 30-35. *)
Definition auto_crop (img : ref) : M World ref :=
  bbox ← img_getbbox img;
  match bbox with
  | Some b => img_crop img b
  | None => mret img
  end.

(** Lines 37-47: the [for size in [...]] loop, on the sizes left. *)
Fixpoint aggressive_loop (img : ref) (sizes : list (Z * Z))
  : M World (option bytes) :=
  match sizes with
  | [] => mret None
  | size :: rest =>
      img_copy ← img_copy img;
      img_thumbnail img_copy size DefaultFilter;;
      buffer ← img_save img_copy "PNG" true None;
      if blen buffer <=? 250000 then mret (Some buffer)
      else aggressive_loop img rest
  end.

Definition aggressive_compress (img : ref) : M World (option bytes) :=
  aggressive_loop img [(400, 400); (300, 300); (200, 200)].

(** Lines 68-80: colour normalisation, auto-crop, the thumbnail at
    500x500 and the PNG re-encode. *)
Definition resize_to_500 (img : ref) : M World (ref * bytes) :=
  mode ← img_mode img;
  img ← (if (mode =? "RGBA")%string || (mode =? "RGB")%string
         then mret img
         else img_convert img "RGB");
  img ← auto_crop img;
  let MAX_SIZE := (500, 500) in
  img_thumbnail img MAX_SIZE LANCZOS;;
  buffer ← img_save img "PNG" true (Some 85);
  mret (img, buffer).

(** Lines 82-95: what is returned once the 500x500 re-encode is known. *)
Definition enforce_budget (img : ref) (buffer : bytes)
  : M World (option bytes) :=
  let final_size := blen buffer in
  if 250000 <? final_size then
    st_warning "Image is large, attempting further compression...";;
    compressed_buffer ← aggressive_compress img;
    match compressed_buffer with
    | Some b => mret (Some b)
    | None =>
        img ← img_convert img "L";
        buffer ← img_save img "PNG" true (Some 70);
        mret (Some buffer)
    end
  else mret (Some buffer).

(** Lines 57-98.  [uploaded_file] is the uploaded file's content; the
    result is the content of the returned [BytesIO], or [None].  The file
    position is not part of the model: [Image.open] rewinds the file it is
    given, [getvalue] does not depend on the position, and every buffer is
    returned rewound. *)
Definition compress_image (uploaded_file : bytes) : M World (option bytes) :=
  try_except
    (img ← Image_open uploaded_file;
     let original_size := blen uploaded_file in
     format ← img_format img;
     if (original_size <=? 250000)
        && (match format with Some f => (f =? "PNG")%string | None => false end)
     then mret (Some uploaded_file)
     else
       '(img, buffer) ← resize_to_500 img;
       enforce_budget img buffer)
    (fun e =>
       st_error ("Error compressing image: " ++ e)%string;;
       mret None).

(** Lines 22-28.  The result is [img.format], or [None] when opening
    raises. *)
Definition get_image_format (file_bytes : bytes) : M World (option string) :=
  try_except
    (img ← Image_open file_bytes;
     img_format img)
    (fun _ => mret None).

(** Lines 49-55. *)
Definition verify_png_format (buffer : bytes) : M World bool :=
  try_except
    (img ← Image_open buffer;
     format ← img_format img;
     mret (match format with Some f => (f =? "PNG")%string | None => false end))
    (fun _ => mret false).

End WithPillow.
Arguments World P : clear implicits.

End Normalizer.

(** ** The payload validator (lines 110-119) *)

Module Validator.

(** [image_base64] is [None] or a [str]; the result is the returned pair. *)
Definition validate_input (image_base64 : option string) : bool * string :=
  match image_base64 with
  | None => (false, "No image data provided")
  | Some EmptyString => (false, "No image data provided")
  | Some s =>
      let size_in_bytes := utf8_len s in
      if 262000 <? size_in_bytes
      then (false,
            ("Image too large (" ++ str_of_int size_in_bytes
             ++ " bytes). Maximum allowed is 262144 bytes.")%string)
      else (true, "")
  end.

End Validator.

(** ** The job orchestrator (lines 120-167 and 239-294) *)

Module Orchestrator.
Import Validator.

(** *** Python values that cross the JSON boundary *)

(** What [json.loads] can produce.  A float is kept only as the bit that
    Python's truth test reads. *)
#[local] Set Warnings "-register-all".
Inductive pyval : Type :=
| PNone
| PBool (b : bool)
| PInt (n : Z)
| PFloat (nonzero : bool)
| PStr (s : string)
| PList (l : list pyval)
| PDict (d : list (string * pyval)).

(** [bool(x)]. *)
Definition truthy (x : pyval) : bool :=
  match x with
  | PNone => false
  | PBool b => b
  | PInt n => negb (n =? 0)
  | PFloat nonzero => nonzero
  | PStr s => negb (s =? "")%string
  | PList l => match l with [] => false | _ => true end
  | PDict d => match d with [] => false | _ => true end
  end.

Definition type_name (x : pyval) : string :=
  match x with
  | PNone => "NoneType"
  | PBool _ => "bool"
  | PInt _ => "int"
  | PFloat _ => "float"
  | PStr _ => "str"
  | PList _ => "list"
  | PDict _ => "dict"
  end.

(** Lookup in a dict, kept as its items. *)
Fixpoint dict_get (k : string) (d : list (string * pyval)) : option pyval :=
  match d with
  | [] => None
  | (k', x) :: rest => if (k' =? k)%string then Some x else dict_get k rest
  end.

(** [x.get(k, dflt)]: defined on a dict, [AttributeError] on the other
    values [json.loads] produces. *)
Definition py_get (x : pyval) (k : string) (dflt : pyval) : Res pyval :=
  match x with
  | PDict d => Ok (default dflt (dict_get k d))
  | _ => Raise ("'" ++ type_name x ++ "' object has no attribute 'get'")%string
  end.

(** *** The services, as an interface *)

(** The outcome of [json.loads]: the value, a [json.JSONDecodeError], or
    another exception. *)
Inductive Loads : Type :=
| Loaded (x : pyval)
| JSONDecodeError (msg : string)
| LoadsRaises (msg : string).

(** The outcome of [requests.post]: an exception, or a response with its
    [status_code] and [text]. *)
Inductive HttpReply : Type :=
| HttpRaises (e : string)
| HttpResponse (status_code : Z) (text : string).

(** The outcome of [describe_execution]: an exception, or the response
    dict, of which the program reads the keys [status], [output] and
    [error] (each may be missing). *)
Inductive SfnReply : Type :=
| SfnRaises (e : string)
| SfnResponse (status output error : option string).

Class Services : Type := {
  json_loads : string -> Loads;
  (* json.dumps(obj, separators=(',', ':')) *)
  json_dumps : pyval -> string;
  (* requests.post(url, json=payload, headers={'Content-Type': ...}) *)
  requests_post : string -> pyval -> HttpReply;
  (* the reply to the n-th describe_execution(executionArn=arn), n from 0 *)
  describe_execution : pyval -> nat -> SfnReply
}.

Inductive Event : Type :=
| Boto3Client (service region : string)
| DescribeExecution (arn : pyval)
| Sleep (seconds : Z)
| HttpPost (url : string) (payload : pyval)
| StSpinner (msg : string)
| StInfo (msg : string)
| StError (msg : string).

(** The number of status queries made so far, and the log. *)
Record World : Type := mkWorld {
  polls : nat;
  trace : list Event
}.

(** The two shapes of dict [poll_execution_status] returns:
    [{'status': .., 'output': ..}] and [{'status': .., 'error': ..}]. *)
Inductive poll_result : Type :=
| WithOutput (status : string) (output : pyval)
| WithError (status : string) (error : string).

(** [status.get('status')]. *)
Definition status_of (r : poll_result) : string :=
  match r with WithOutput s _ => s | WithError s _ => s end.

(** [status.get('output', {})]. *)
Definition output_of (r : poll_result) : pyval :=
  match r with WithOutput _ o => o | WithError _ _ => PDict [] end.

(** [f"{status.get('error')}"]. *)
Definition error_text (r : poll_result) : string :=
  match r with WithOutput _ _ => "None" | WithError _ e => e end.

Definition API_ENDPOINT : string :=
  "https://wt7zuh1n3f.execute-api.us-east-1.amazonaws.com/prod/track".

Section WithServices.
Context {Sv : Services}.

Definition emit (e : Event) : M World unit :=
  fun w => (Ok tt, mkWorld (polls w) (trace w ++ [e])).

Definition st_error (msg : string) : M World unit := emit (StError msg).
Definition st_info (msg : string) : M World unit := emit (StInfo msg).
Definition st_spinner (msg : string) : M World unit := emit (StSpinner msg).

(** [time.sleep(seconds)]: a negative length raises [ValueError]. *)
Definition time_sleep (seconds : Z) : M World unit :=
  if seconds <? 0 then raise "sleep length must be non-negative"
  else emit (Sleep seconds).

(** [sfn_client.describe_execution(executionArn=arn)]. *)
Definition sfn_describe_execution (arn : pyval)
  : M World (option string * option string * option string) :=
  fun w =>
    let w' := mkWorld (S (polls w)) (trace w ++ [DescribeExecution arn]) in
    match describe_execution arn (polls w) with
    | SfnRaises e => (Raise e, w')
    | SfnResponse status output error => (Ok (status, output, error), w')
    end.

(** [response['status']]. *)
Definition subscript_status (status : option string) : M World string :=
  match status with
  | Some s => mret s
  | None => raise "'status'"
  end.

(** Lines 125-162, one pass of the loop: [Some r] when the pass executes
    [return r], [None] when it runs to the end of the loop body. *)
Definition poll_once (execution_arn : pyval) (delay : Z)
  : M World (option poll_result) :=
  try_except
    ('(r_status, r_output, r_error) ← sfn_describe_execution execution_arn;
     status ← subscript_status r_status;
     if (status =? "SUCCEEDED")%string then
       let output := default "{}"%string r_output in
       match json_loads output with
       | Loaded parsed_output =>
           mret (Some (WithOutput status parsed_output))
       | JSONDecodeError e =>
           st_error ("Error parsing Step Functions output: " ++ e)%string;;
           mret (Some (WithError "ERROR" "Invalid JSON output"))
       | LoadsRaises e => raise e
       end
     else if (status =? "FAILED")%string || (status =? "TIMED_OUT")%string
             || (status =? "ABORTED")%string then
       let error_info := default "Unknown error"%string r_error in
       st_error ("Step Functions execution failed: " ++ error_info)%string;;
       mret (Some (WithError status error_info))
     else
       time_sleep delay;;
       mret None)
    (fun e =>
       st_error ("Error polling Step Functions: " ++ e)%string;;
       mret (Some (WithError "ERROR" e))).

(** Lines 124-167: [for _ in range(max_attempts)] and what follows it. *)
Fixpoint poll_loop (execution_arn : pyval) (attempts : nat) (delay : Z)
  : M World poll_result :=
  match attempts with
  | O => mret (WithError "TIMEOUT" "Maximum polling attempts reached")
  | S attempts' =>
      r ← poll_once execution_arn delay;
      match r with
      | Some result => mret result
      | None => poll_loop execution_arn attempts' delay
      end
  end.

(** Lines 120-167.  Creating the client makes no request and is taken
    not to raise. *)
Definition poll_execution_status (execution_arn : pyval)
    (max_attempts : nat) (delay : Z) : M World poll_result :=
  emit (Boto3Client "stepfunctions" "us-east-1");;
  poll_loop execution_arn max_attempts delay.

(** [requests.post(API_ENDPOINT, json=payload, headers=headers)]. *)
Definition post (url : string) (payload : pyval) : M World (Z * string) :=
  fun w =>
    let w' := mkWorld (polls w) (trace w ++ [HttpPost url payload]) in
    match requests_post url payload with
    | HttpRaises e => (Raise e, w')
    | HttpResponse status_code text => (Ok (status_code, text), w')
    end.

(** [response.json()]. *)
Definition response_json (text : string) : M World pyval :=
  match json_loads text with
  | Loaded x => mret x
  | JSONDecodeError e => raise e
  | LoadsRaises e => raise e
  end.

(** Lines 239-294.  The result is the returned dict, as its items in
    order, or [None]. *)
Definition trigger_analysis (image_base64 : option string)
  : M World (option (list (string * pyval))) :=
  let '(is_valid, error_message) := validate_input image_base64 in
  if negb is_valid then
    st_error error_message;;
    mret None
  else
    try_except
      (let payload :=
         PDict [("input"%string,
                 PStr (json_dumps
                         (PDict [("image_data"%string,
                                  match image_base64 with
                                  | Some s => PStr s
                                  | None => PNone
                                  end)])))] in
       st_spinner "Starting analysis...";;
       '(status_code, text) ← post API_ENDPOINT payload;
       if status_code =? 200 then
         result ← response_json text;
         execution_arn ← lift (py_get result "executionArn" PNone);
         if truthy execution_arn then
           st_info "Analysis started...";;
           status ← poll_execution_status execution_arn 30 2;
           if (status_of status =? "SUCCEEDED")%string then
             let output := output_of status in
             visual_analysis ← lift (py_get output "visual_analysis" (PDict []));
             activity_pattern ← lift (py_get output "activity_pattern" (PDict []));
             productivity_assessment ←
               lift (py_get output "productivity_assessment" (PDict []));
             mret (Some [("visual_analysis"%string, visual_analysis);
                         ("activity_pattern"%string, activity_pattern);
                         ("productivity_assessment"%string,
                          productivity_assessment)])
           else
             st_error ("Analysis failed: " ++ error_text status)%string;;
             mret None
         else
           st_error "No execution ARN received";;
           mret None
       else
         st_error ("API Error: " ++ str_of_int status_code)%string;;
         st_error ("Response: " ++ text)%string;;
         mret None)
      (fun e =>
         st_error ("Error in analysis: " ++ e)%string;;
         mret None).

End WithServices.

End Orchestrator.

(** ** Vocabulary for the statements about the normaliser *)

Module NormalizerSpec.
Import Normalizer.

Section WithPillow.
Context {P : Pillow}.

(** The test of line 64 on the file and the image opened from it. *)
Definition small_png (uploaded_file : bytes) (v : Img) : bool :=
  (blen uploaded_file <=? 250000)
  && (match pil_format v with Some f => (f =? "PNG")%string | None => false end).

(** [compress_image uploaded_file], started in [w], opens the file, does
    not take the early return of line 66, and reaches line 82 in world
    [w1] with [img] the image object and [buffer] its 500x500 re-encode. *)
Definition reaches_budget_check (uploaded_file : bytes) (w : World P)
    (img : ref) (buffer : bytes) (w1 : World P) : Prop :=
  exists v0,
    pil_open uploaded_file = Ok v0 /\
    small_png uploaded_file v0 = false /\
    resize_to_500 (length (heap w))
      (mkWorld (heap w ++ [v0]) (trace w ++ [PilOpen uploaded_file]))
    = (Ok (img, buffer), w1).

(** The library calls of one pass of the loop of [aggressive_compress],
    where [c] is the copy the pass works on. *)
Definition attempt_events (img c : ref) (size : Z * Z) : list Event :=
  [PilCopy img; PilThumbnail c size DefaultFilter; PilSave c "PNG" true None].

(** Thumbnailing [v] at cap [size] gives [v'], whose PNG re-encode is
    [b]: one pass of the loop, on a copy holding [v]. *)
Definition cap_pass (size : Z * Z) (v v' : Img) (b : bytes) : Prop :=
  pil_thumbnail size DefaultFilter v = Ok v' /\
  pil_save "PNG" true None v' = Ok b.

(** The warning of line 84. *)
Definition large_warning : Event :=
  StWarning "Image is large, attempting further compression...".

(** The calls of the grayscale re-encode of lines 90-92, where [g] is the
    converted image. *)
Definition grayscale_events (img g : ref) : list Event :=
  [PilConvert img "L"; PilSave g "PNG" true (Some 70)].
End WithPillow.

End NormalizerSpec.

(** ** Vocabulary for the statements about the validator *)

Module ValidatorSpec.

(** The message of line 117 for a payload of [size] bytes. *)
Definition too_large_message (size : Z) : string :=
  ("Image too large (" ++ str_of_int size
   ++ " bytes). Maximum allowed is 262144 bytes.")%string.

End ValidatorSpec.

(** ** Vocabulary for the statements about the orchestrator *)

Module OrchestratorSpec.
Import Orchestrator.

Section WithServices.
Context {Sv : Services}.

(** The [n] status queries starting with query number [first] are all
    answered with status RUNNING. *)
Definition running_for (arn : pyval) (first n : nat) : Prop :=
  forall i, (i < n)%nat ->
    exists output error,
      describe_execution arn (first + i)
      = SfnResponse (Some "RUNNING"%string) output error.

(** The events of [n] passes of the poll loop that find the execution
    running: a query, then a sleep. *)
Definition running_events (arn : pyval) (n : nat) (delay : Z) : list Event :=
  concat (replicate n [DescribeExecution arn; Sleep delay]).

(** The text [json.loads] is given in line 135. *)
Definition output_text (output : option string) : string :=
  default "{}"%string output.

(** The payload of lines 247-251. *)
Definition submission_payload (image_base64 : string) : pyval :=
  PDict [("input"%string,
          PStr (json_dumps (PDict [("image_data"%string,
                                    PStr image_base64)])))].

(** The calls of a submission that returns a job handle. *)
Definition submit_events (image_base64 : string) : list Event :=
  [StSpinner "Starting analysis...";
   HttpPost API_ENDPOINT (submission_payload image_base64);
   StInfo "Analysis started..."].

(** [output.get(key, {})] on a dict given by its items. *)
Definition section_of (d : list (string * pyval)) (key : string) : pyval :=
  default (PDict []) (dict_get key d).
End WithServices.

(** Line 122. *)
Definition client_event : Event := Boto3Client "stepfunctions" "us-east-1".

(** The number of status queries in a log. *)
Fixpoint status_queries (t : list Event) : nat :=
  match t with
  | [] => 0
  | DescribeExecution _ :: rest => S (status_queries rest)
  | _ :: rest => status_queries rest
  end.

(** The number of sleeps in a log. *)
Fixpoint delays (t : list Event) : nat :=
  match t with
  | [] => 0
  | Sleep _ :: rest => S (delays rest)
  | _ :: rest => delays rest
  end.

End OrchestratorSpec.

(** ** Sample libraries and inputs

    Small instances of the two interfaces, used to run the program on
    concrete inputs. *)

Module Samples.
Import Normalizer Orchestrator.

(** [n] zero bytes. *)
Definition zeros (n : Z) : bytes := repeat x00 (Z.to_nat n).

(** *** A sample imaging library

    An image is its format, mode, size in pixels and the length of the
    colour profile it carries.  The pixels are taken to be incompressible,
    so a PNG has one byte per sample and per row, the profile, and 64 bytes
    of framing.  Every operation keeps the profile, as Pillow does. *)
Record SampleImage : Type := mkSample {
  s_format : option string;
  s_mode : string;
  s_width : Z;
  s_height : Z;
  s_profile : Z
}.

Definition channels (mode : string) : Z :=
  if (mode =? "RGBA")%string then 4
  else if (mode =? "RGB")%string then 3
  else 1.

Definition sample_png_size (v : SampleImage) : Z :=
  64 + s_height v * (s_width v * channels (s_mode v) + 1) + s_profile v.

(** The size [thumbnail] leaves: unchanged when it fits, else scaled down
    to the cap with the aspect ratio kept. *)
Definition fit (cap : Z * Z) (w h : Z) : Z * Z :=
  let '(cw, ch) := cap in
  if (w <=? cw) && (h <=? ch) then (w, h)
  else if h * cw <=? w * ch then (cw, Z.max 1 (h * cw / w))
  else (Z.max 1 (w * ch / h), ch).

(** A sample file: a tag byte (0x89 for PNG, 0xFF for JPEG), the width
    and the height in units of 8 pixels, then the colour profile.  The
    image is RGB. *)
Definition byte_value (x : byte) : Z := Z.of_N (Byte.to_N x).

Definition sample_open (data : bytes) : Res SampleImage :=
  match data with
  | tag :: wb :: hb :: profile =>
      let image format :=
        Ok (mkSample (Some format) "RGB"
              (8 * byte_value wb) (8 * byte_value hb) (blen profile)) in
      match tag with
      | x89 => image "PNG"%string
      | xff => image "JPEG"%string
      | _ => Raise "cannot identify image file"
      end
  | _ => Raise "cannot identify image file"
  end.

#[export] Instance sample_pillow : Pillow := {
  Img := SampleImage;
  pil_open := sample_open;
  pil_format := s_format;
  pil_mode := s_mode;
  pil_convert mode v :=
    Ok (mkSample None mode (s_width v) (s_height v) (s_profile v));
  pil_getbbox v := Ok (Some (0, 0, s_width v, s_height v));
  pil_crop b v :=
    let '(x0, y0, x1, y1) := b in
    Ok (mkSample None (s_mode v) (x1 - x0) (y1 - y0) (s_profile v));
  pil_thumbnail size _ v :=
    let '(w, h) := fit size (s_width v) (s_height v) in
    Ok (mkSample (s_format v) (s_mode v) w h (s_profile v));
  pil_save _ _ _ v := Ok (zeros (sample_png_size v))
}.

(** A JPEG of [8 * wb] by [8 * hb] pixels with a profile of [profile]
    bytes. *)
Definition jpeg_file (wb hb : byte) (profile : Z) : bytes :=
  xff :: wb :: hb :: zeros profile.

(** 800x600 with a 300,000-byte profile; 800x400, 800x600 without a
    profile; 800x600 with a 100,000-byte profile; a 3-byte PNG. *)
Definition profiled_jpeg : bytes := jpeg_file x64 x4b 300000.
Definition wide_jpeg : bytes := jpeg_file x64 x32 0.
Definition plain_jpeg : bytes := jpeg_file x64 x4b 0.
Definition light_profile_jpeg : bytes := jpeg_file x64 x4b 100000.
Definition tiny_png : bytes := [x89; x64; x4b].

Definition empty_world : Normalizer.World sample_pillow :=
  Normalizer.mkWorld [] [].

Definition jpeg (w h profile : Z) : SampleImage :=
  mkSample (Some "JPEG") "RGB" w h profile.
Definition rgb (w h profile : Z) : SampleImage :=
  mkSample None "RGB" w h profile.
Definition gray (w h profile : Z) : SampleImage :=
  mkSample None "L" w h profile.

(** The world in which [compress_image file], started in [empty_world],
    reaches its budget check: the opened image [v0] and its cropped and
    thumbnailed copy [v5]. *)
Definition at_budget_check (file : bytes) (v0 v5 : SampleImage)
  : Normalizer.World sample_pillow :=
  Normalizer.mkWorld [v0; v5]
    [PilOpen file; PilGetbbox 0%nat;
     PilCrop 0%nat (0, 0, s_width v0, s_height v0);
     PilThumbnail 1%nat (500, 500) LANCZOS;
     PilSave 1%nat "PNG" true (Some 85)].

(** The world [compress_image profiled_jpeg] ends in: three copies
    thumbnailed at 400, 300 and 200, then the grayscale conversion. *)
Definition profiled_end : Normalizer.World sample_pillow :=
  Normalizer.mkWorld
    [jpeg 800 600 300000; rgb 500 375 300000; rgb 400 300 300000;
     rgb 300 225 300000; rgb 200 150 300000; gray 500 375 300000]
    [PilOpen profiled_jpeg; PilGetbbox 0%nat;
     PilCrop 0%nat (0, 0, 800, 600);
     PilThumbnail 1%nat (500, 500) LANCZOS;
     PilSave 1%nat "PNG" true (Some 85);
     StWarning "Image is large, attempting further compression...";
     PilCopy 1%nat; PilThumbnail 2%nat (400, 400) DefaultFilter;
     PilSave 2%nat "PNG" true None;
     PilCopy 1%nat; PilThumbnail 3%nat (300, 300) DefaultFilter;
     PilSave 3%nat "PNG" true None;
     PilCopy 1%nat; PilThumbnail 4%nat (200, 200) DefaultFilter;
     PilSave 4%nat "PNG" true None;
     PilConvert 1%nat "L"; PilSave 5%nat "PNG" true (Some 70)].

(** *** Sample services *)

Definition dq : string := String "034"%char EmptyString.

Definition sample_arn : string :=
  "arn:aws:states:us-east-1:123456789012:execution:track:run-1".

(** [{"executionArn":"arn:..."}] *)
Definition body_with_arn : string :=
  ("{" ++ dq ++ "executionArn" ++ dq ++ ":" ++ dq ++ sample_arn ++ dq ++ "}")%string.

(** [{"visual_analysis":{"summary":"ok"}}] *)
Definition output_one_section : string :=
  ("{" ++ dq ++ "visual_analysis" ++ dq ++ ":{" ++ dq ++ "summary" ++ dq
   ++ ":" ++ dq ++ "ok" ++ dq ++ "}}")%string.

(** The texts the samples use, with what [json.loads] returns on them; on
    any other text this sample reports a decode error. *)
Definition sample_loads (text : string) : Loads :=
  if (text =? "{}")%string then Loaded (PDict [])
  else if (text =? "[]")%string then Loaded (PList [])
  else if (text =? body_with_arn)%string
  then Loaded (PDict [("executionArn"%string, PStr sample_arn)])
  else if (text =? output_one_section)%string
  then Loaded (PDict [("visual_analysis"%string,
                       PDict [("summary"%string, PStr "ok")])])
  else JSONDecodeError "Expecting value: line 1 column 1 (char 0)".

Definition sample_dumps (x : pyval) : string :=
  match x with
  | PDict [(k, PStr s)] =>
      ("{" ++ dq ++ k ++ dq ++ ":" ++ dq ++ s ++ dq ++ "}")%string
  | _ => "null"
  end.

(** The endpoint answers 200 with [body]; the state machine answers the
    n-th status query with [script n]. *)
Definition sample_services (body : string) (script : nat -> SfnReply)
  : Services := {|
  json_loads := sample_loads;
  json_dumps := sample_dumps;
  requests_post _ _ := HttpResponse 200 body;
  describe_execution _ n := script n
|}.

Definition running : SfnReply := SfnResponse (Some "RUNNING") None None.

Definition always_running : nat -> SfnReply := fun _ => running.

(** [running, running, succeeded] with the given output. *)
Definition succeeds_third (output : string) : nat -> SfnReply :=
  fun n =>
    match n with
    | O | S O => running
    | _ => SfnResponse (Some "SUCCEEDED") (Some output) None
    end.

Definition start : Orchestrator.World := Orchestrator.mkWorld 0 [].

(** [s] repeated [2 ^ n] times. *)
Fixpoint doubled (n : nat) (s : string) : string :=
  match n with
  | O => s
  | S k => doubled k (s ++ s)%string
  end.

(** Base64 payloads: of 262,144 characters, and of 4. *)
Definition payload_262144 : string := doubled 18 "A".
Definition payload_abc : string := "QUJD".

End Samples.

(** ** The base64 payload (lines 100-108) *)

Module Encoding.
Import Validator.

(** [base64.b64encode]: the standard alphabet of RFC 4648, with padding. *)
Definition b64_alphabet : string :=
  "ABCDEFGHIJKLMNOPQRSTUVWXYZabcdefghijklmnopqrstuvwxyz0123456789+/".

Definition b64_char (i : Z) : ascii :=
  match String.get (Z.to_nat i) b64_alphabet with
  | Some c => c
  | None => "="%char
  end.

Definition byte_value (x : byte) : Z := Z.of_N (Byte.to_N x).

(** The [k]-th 6-bit group, from the left, of a 24-bit group [n]. *)
Definition sextet (n : Z) (k : Z) : ascii :=
  b64_char (Z.land (Z.shiftr n (18 - 6 * k)) 63).

Fixpoint b64encode (data : bytes) : string :=
  match data with
  | [] => EmptyString
  | [a] =>
      let n := Z.shiftl (byte_value a) 16 in
      String (sextet n 0) (String (sextet n 1) "==")
  | [a; b] =>
      let n := Z.lor (Z.shiftl (byte_value a) 16) (Z.shiftl (byte_value b) 8) in
      String (sextet n 0) (String (sextet n 1) (String (sextet n 2) "="))
  | a :: b :: c :: rest =>
      let n := Z.lor (Z.lor (Z.shiftl (byte_value a) 16)
                            (Z.shiftl (byte_value b) 8)) (byte_value c) in
      String (sextet n 0) (String (sextet n 1) (String (sextet n 2)
        (String (sextet n 3) (b64encode rest))))
  end.

(** Lines 100-108.  [file] is the content of the buffer; the store is the
    list of messages shown with [st.error]. *)
Definition get_image_base64 (file : bytes) : M (list string) (option string) :=
  try_except
    (let bytes_data := file in
     let base64_string := b64encode bytes_data in
     mret (Some base64_string))
    (fun e =>
       (fun shown =>
          (Ok tt, shown ++ [("Error converting image to base64: " ++ e)%string]));;
       mret None).

End Encoding.

(** ** The display functions (lines 169-237) *)

Module Display.
Import Orchestrator.

(** What the display functions need of Python and Streamlit beyond the
    values themselves: the texts of the [TypeError]s CPython raises (they
    differ between versions), the characters of a [str], [str.capitalize],
    the two [datetime] calls, [st.progress] and string formatting. *)
Class Rendering : Type := {
  (* str(e) for the TypeError of [k in x], x not a container *)
  contains_error : pyval -> string;
  (* str(e) for the TypeError of [x['k']], x not a dict *)
  subscript_error : pyval -> string;
  (* str(e) for the TypeError of [for y in x], x not iterable *)
  iteration_error : pyval -> string;
  (* the one-character strings [for c in s] yields *)
  str_chars : string -> list string;
  (* s.capitalize() *)
  str_capitalize : string -> string;
  (* datetime.fromisoformat(x).strftime("%B %d, %Y %I:%M %p"), or [None]
     when either call raises *)
  isoformat_to_display : pyval -> option string;
  (* [None] when st.progress(score / 100) returns, else str(e) of what the
     division or the call raises *)
  progress_error : pyval -> option string;
  (* f"{x}" *)
  py_format : pyval -> string
}.

Inductive Ui : Type :=
| StSubheader (text : string)
| StMarkdown (body : pyval)
| StInfo (body : pyval)
| StProgress (score : pyval)
| StMetric (label value : string)
| StError (msg : string)
| StWarning (msg : string).

Definition show (e : Ui) : M (list Ui) unit :=
  fun shown => (Ok tt, shown ++ [e]).

(** [isinstance(x, dict)] and [isinstance(x, list)]. *)
Definition is_dict (x : pyval) : bool :=
  match x with PDict _ => true | _ => false end.
Definition is_list (x : pyval) : bool :=
  match x with PList _ => true | _ => false end.

(** [needle in haystack] for two [str]. *)
Definition str_contains (needle haystack : string) : bool :=
  match String.index 0 needle haystack with Some _ => true | None => false end.

Section WithRendering.
Context {R : Rendering}.

(** [key in x] for a [str] key. *)
Definition py_contains (key : string) (x : pyval) : Res bool :=
  match x with
  | PDict d => Ok (match dict_get key d with Some _ => true | None => false end)
  | PList l =>
      Ok (existsb (fun y => match y with
                            | PStr s => (s =? key)%string
                            | _ => false
                            end) l)
  | PStr s => Ok (str_contains key s)
  | _ => Raise (contains_error x)
  end.

(** [x[key]] for a [str] key; a missing key raises [KeyError(key)]. *)
Definition py_subscript (x : pyval) (key : string) : Res pyval :=
  match x with
  | PDict d =>
      match dict_get key d with
      | Some y => Ok y
      | None => Raise ("'" ++ key ++ "'")%string
      end
  | _ => Raise (subscript_error x)
  end.

(** [x[0]]. *)
Definition py_first (x : pyval) : Res pyval :=
  match x with
  | PList (y :: _) => Ok y
  | PList [] => Raise "list index out of range"
  | _ => Raise (subscript_error x)
  end.

(** [x.capitalize()]. *)
Definition py_capitalize (x : pyval) : Res string :=
  match x with
  | PStr s => Ok (str_capitalize s)
  | _ => Raise ("'" ++ type_name x ++ "' object has no attribute 'capitalize'")%string
  end.

(** The values [for y in x] yields. *)
Definition py_iter (x : pyval) : Res (list pyval) :=
  match x with
  | PList l => Ok l
  | PDict d => Ok (map (fun kv => PStr kv.1) d)
  | PStr s => Ok (map PStr (str_chars s))
  | _ => Raise (iteration_error x)
  end.

(** Lines 169-185. *)
Definition display_visual_analysis (analysis_data : pyval) : M (list Ui) unit :=
  show (StSubheader "📸 Visual Analysis Results");;
  try_except
    (if is_dict analysis_data then
       has_output ← lift (py_contains "output" analysis_data);
       if (has_output : bool) then
         output ← lift (py_subscript analysis_data "output");
         has_message ← lift (py_contains "message" output);
         if (has_message : bool) then
           message ← lift (py_subscript output "message");
           has_content ← lift (py_contains "content" message);
           if (has_content : bool) then
             content ← lift (py_subscript message "content");
             if truthy content && is_list content then
               first ← lift (py_first content);
               analysis_text ← lift (py_get first "text" (PStr ""));
               show (StMarkdown analysis_text)
             else mret tt
           else mret tt
         else mret tt
       else mret tt
     else mret tt)
    (fun e =>
       show (StError ("Error processing visual analysis: " ++ e)%string);;
       show (StWarning "Could not parse visual analysis data structure")).

(** Lines 187-214. *)
Definition display_activity_pattern (pattern_data : pyval) : M (list Ui) unit :=
  show (StSubheader "📊 Activity Pattern Analysis");;
  try_except
    (if is_dict pattern_data then
       has_analysis ← lift (py_contains "productivity_analysis" pattern_data);
       if (has_analysis : bool) then
         analysis ← lift (py_subscript pattern_data "productivity_analysis");
         summary ← lift (py_get analysis "summary" (PStr ""));
         (if truthy summary then
            show (StMarkdown (PStr "### Summary"));;
            show (StMarkdown summary)
          else mret tt);;
         timestamp ← lift (py_get analysis "timestamp" (PStr ""));
         (if truthy timestamp then
            show (StMarkdown (PStr "### Timestamp"));;
            match isoformat_to_display timestamp with
            | Some formatted_time => show (StInfo (PStr formatted_time))
            | None => show (StInfo timestamp)
            end
          else mret tt);;
         status ← lift (py_get analysis "status" (PStr ""));
         if truthy status then
           capitalized ← lift (py_capitalize status);
           show (StMarkdown (PStr ("**Status:** " ++ capitalized)%string))
         else mret tt
       else mret tt
     else mret tt)
    (fun e =>
       show (StError ("Error processing activity pattern: " ++ e)%string)).

(** Lines 230-231: the loop over the factors. *)
Fixpoint show_factors (factors : list pyval) : M (list Ui) unit :=
  match factors with
  | [] => mret tt
  | factor :: rest =>
      show (StMarkdown (PStr ("- " ++ py_format factor)%string));;
      show_factors rest
  end.

(** Lines 216-237. *)
Definition display_productivity_assessment (assessment_data : pyval)
  : M (list Ui) unit :=
  show (StSubheader "📈 Productivity Assessment");;
  try_except
    (if is_dict assessment_data then
       has_score ← lift (py_contains "productivity_score" assessment_data);
       (if (has_score : bool) then
          score ← lift (py_subscript assessment_data "productivity_score");
          show (StMarkdown (PStr "### Overall Score"));;
          match progress_error score with
          | None => show (StProgress score)
          | Some e => raise e
          end;;
          show (StMetric "Productivity Score" (py_format score ++ "%")%string)
        else mret tt);;
       has_factors ← lift (py_contains "factors_considered" assessment_data);
       (if (has_factors : bool) then
          show (StMarkdown (PStr "### 🎯 Factors Considered"));;
          considered ← lift (py_subscript assessment_data "factors_considered");
          factors ← lift (py_iter considered);
          show_factors factors
        else mret tt);;
       has_error ← lift (py_contains "error" assessment_data);
       if (has_error : bool) then
         error ← lift (py_subscript assessment_data "error");
         show (StError ("Assessment Error: " ++ py_format error)%string)
       else mret tt
     else mret tt)
    (fun e =>
       show (StError ("Error processing productivity assessment: " ++ e)%string)).

End WithRendering.

(** An error message is shown, if at all, as the last thing. *)
Definition error_only_last (events : list Ui) : Prop :=
  forall e, In (StError e) events -> last events = Some (StError e).

(** [x] is not a dict, or is a dict with none of the [keys]. *)
Definition lacks (keys : list string) (x : pyval) : Prop :=
  match x with
  | PDict d => Forall (fun key => dict_get key d = None) keys
  | _ => True
  end.

Definition not_error (e : Ui) : Prop :=
  match e with StError _ => False | _ => True end.

End Display.

(** ** The page (lines 296-356) *)

Module App.
Import Validator Normalizer Orchestrator Display Encoding.

(** What [main] needs of Streamlit, [datetime] and [json] beyond the
    calls it only makes: the formatting of a size in KB, whether [st.image]
    accepts a buffer, the clock and the serialisation of the report. *)
Class Page : Type := {
  (* f"{n / 1024:.2f}" for a length n *)
  format_kb : Z -> string;
  (* [None] when st.image(buffer, ...) returns, else str(e) of what it
     raises *)
  st_image_error : bytes -> option string;
  (* datetime.now().isoformat() *)
  now_isoformat : string;
  (* json.dumps({'timestamp': t, 'analysis_results': r}, indent=2) *)
  report_text : string -> list (string * pyval) -> string
}.

(** One log for the whole page: the calls of the normaliser, of the
    orchestrator and of the display functions, the message of
    [get_image_base64], and the Streamlit calls [main] makes itself. *)
Inductive Event : Type :=
| Imaging (e : Normalizer.Event)
| Remote (e : Orchestrator.Event)
| Shown (e : Display.Ui)
| Base64Error (msg : string)
| StTitle (text : string)
| StWarning (text : string)
| StFileUploader (label : string)
| StInfo (text : string)
| StSuccess (text : string)
| StImage (data : bytes) (caption : string)
| StButton (label : string)
| StSpinner (text : string)
| StError (text : string)
| StDownloadButton (label data file_name mime : string).

Section WithLibraries.
Context {P : Pillow} {Sv : Services} {R : Rendering} {Pg : Page}.

Record World : Type := mkWorld {
  heap : list Img;
  polls : nat;
  log : list Event
}.

Definition say (e : Event) : M World unit :=
  fun w => (Ok tt, mkWorld (heap w) (polls w) (log w ++ [e])).

(** A call into the normaliser: it works on the page's image objects, and
    what it logs goes to the page's log.  (No function reads a log, so it
    can be run on an empty one.) *)
Definition imaging {A} (m : M (Normalizer.World P) A) : M World A :=
  fun w =>
    let '(r, iw) := m (Normalizer.mkWorld (heap w) []) in
    (r, mkWorld (Normalizer.heap iw) (polls w)
          (log w ++ map Imaging (Normalizer.trace iw))).

(** A call into the orchestrator. *)
Definition remote {A} (m : M Orchestrator.World A) : M World A :=
  fun w =>
    let '(r, ow) := m (Orchestrator.mkWorld (polls w) []) in
    (r, mkWorld (heap w) (Orchestrator.polls ow)
          (log w ++ map Remote (Orchestrator.trace ow))).

(** A call of a display function. *)
Definition showing {A} (m : M (list Ui) A) : M World A :=
  fun w =>
    let '(r, shown) := m [] in
    (r, mkWorld (heap w) (polls w) (log w ++ map Shown shown)).

(** The call of [get_image_base64]. *)
Definition encoding {A} (m : M (list string) A) : M World A :=
  fun w =>
    let '(r, shown) := m [] in
    (r, mkWorld (heap w) (polls w) (log w ++ map Base64Error shown)).

(** [st.image(buffer, caption=..., use_container_width=True)]. *)
Definition st_image (data : bytes) (caption : string) : M World unit :=
  match st_image_error data with
  | None => say (StImage data caption)
  | Some e => raise e
  end.

(** [f"{original_format}"] for [None] or a [str]. *)
Definition format_name (format : option string) : string :=
  match format with Some f => f | None => "None" end.

(** [result.get(key)] on the dict [trigger_analysis] returned. *)
Definition section (result : list (string * pyval)) (key : string) : pyval :=
  default PNone (dict_get key result).

(** Lines 296-356, for one run of the script: [uploaded_file] is what
    [st.file_uploader] returns and [pressed] what [st.button] returns.
    The two sizes compared in line 316 are the lengths divided by 1024,
    which compare as the lengths do. *)
Definition main (uploaded_file : option bytes) (pressed : bool)
  : M World unit :=
  say (StTitle "🎯 Employee Productivity Tracking System");;
  say (StWarning "Please note: Images will be compressed and converted to PNG format. For best results, use images under 1MB.");;
  say (StFileUploader "Upload Screenshot");;
  match uploaded_file with
  | None => mret tt
  | Some uploaded_file =>
      let file_size := blen uploaded_file in
      original_format ← imaging (get_image_format uploaded_file);
      say (StInfo ("Original file size: " ++ format_kb file_size ++ " KB ("
                   ++ format_name original_format ++ " format)")%string);;
      compressed_file ← imaging (compress_image uploaded_file);
      match compressed_file with
      | None => mret tt
      | Some compressed_file =>
          let compressed_size := blen compressed_file in
          (if file_size <=? compressed_size then
             say (StInfo ("Converted to PNG: " ++ format_kb compressed_size
                          ++ " KB")%string)
           else
             say (StSuccess ("Compressed and converted to PNG: "
                             ++ format_kb compressed_size ++ " KB")%string));;
          st_image compressed_file "Uploaded Screenshot";;
          say (StButton "🔍 Analyze Productivity");;
          if pressed then
            image_base64 ← encoding (get_image_base64 compressed_file);
            match image_base64 with
            | Some ((String _ _) as image_base64) =>
                let base64_size := utf8_len image_base64 in
                if 262000 <? base64_size then
                  say (StError ("Base64 encoded size ("
                                ++ str_of_int base64_size
                                ++ " bytes) exceeds limit")%string)
                else
                  say (StSpinner "Analyzing...");;
                  result ← remote (trigger_analysis (Some image_base64));
                  match result with
                  | Some ((_ :: _) as result) =>
                      showing (display_visual_analysis
                                 (section result "visual_analysis"));;
                      showing (display_activity_pattern
                                 (section result "activity_pattern"));;
                      showing (display_productivity_assessment
                                 (section result "productivity_assessment"));;
                      let report := report_text now_isoformat result in
                      say (StDownloadButton "📥 Download Analysis Report"
                             report "productivity_report.json"
                             "application/json")
                  | _ => say (StError "Failed to process the analysis")
                  end
            | _ => say (StError "Failed to process the image")
            end
          else mret tt
      end
  end.

End WithLibraries.
Arguments World P : clear implicits.

End App.

(** ** More vocabulary for the normaliser and the orchestrator *)

Module NormalizerMoreSpec.
Import Normalizer.

Section WithPillow.
Context {P : Pillow}.

(** What Pillow saves as PNG, it opens again and reports as PNG. *)
Definition reads_back_as_png : Prop :=
  forall v optimize quality b,
    pil_save "PNG" optimize quality v = Ok b ->
    exists v', pil_open b = Ok v' /\ pil_format v' = Some "PNG"%string.
End WithPillow.

End NormalizerMoreSpec.

Module OrchestratorMoreSpec.
Import Orchestrator OrchestratorSpec.

Definition result_statuses : list string :=
  ["SUCCEEDED"; "FAILED"; "TIMED_OUT"; "ABORTED"; "ERROR"; "TIMEOUT"]%string.

(** The events [poll_execution_status] can log. *)
Definition poll_event (e : Event) : Prop :=
  match e with
  | Boto3Client _ _ | DescribeExecution _ | Sleep _ | StError _ => True
  | _ => False
  end.

(** The number of HTTP requests in a log. *)
Fixpoint posts (t : list Event) : nat :=
  match t with
  | [] => 0
  | HttpPost _ _ :: rest => S (posts rest)
  | _ :: rest => posts rest
  end.

(** The keys of the dict [trigger_analysis] returns. *)
Definition section_keys : list string :=
  ["visual_analysis"; "activity_pattern"; "productivity_assessment"]%string.

(** Any event but an HTTP request. *)
Definition not_post (e : Event) : Prop :=
  match e with HttpPost _ _ => False | _ => True end.

Section WithServices.
Context {Sv : Services}.


(** What holds of every call of [trigger_analysis image] that starts after
    [p] status queries, returns [r] after [p'] and logs [events]. *)
Definition trigger_shape (image : option string) (p : nat)
    (r : option (list (string * pyval))) (p' : nat) (events : list Event)
  : Prop :=
  (p <= p' <= p + 30)%nat
  /\ (forall d, r = Some d -> map fst d = section_keys)
  /\ (r = None -> exists message, last events = Some (StError message))
  /\ (posts events <= 1)%nat
  /\ (forall url payload,
        In (HttpPost url payload) events ->
        url = API_ENDPOINT
        /\ exists s, image = Some s /\ payload = submission_payload s
                     /\ 0 < utf8_len s <= 262000)
  /\ (forall s,
        image = Some s -> 0 < utf8_len s <= 262000 ->
        exists tail,
          events = StSpinner "Starting analysis..."
                   :: HttpPost API_ENDPOINT (submission_payload s) :: tail
          /\ Forall not_post tail).
End WithServices.

End OrchestratorMoreSpec.

(** ** Vocabulary for the page *)

Module AppSpec.
Import Py Validator Normalizer Orchestrator Display Encoding App
  OrchestratorSpec OrchestratorMoreSpec.

(** Any event but a call of the orchestrator. *)
Definition not_remote (e : App.Event) : Prop :=
  match e with Remote _ => False | _ => True end.

(** The two messages about the size after compression. *)
Definition size_notice (e : App.Event) : Prop :=
  match e with StInfo _ | StSuccess _ => True | _ => False end.

(** The message of line 329 for a buffer: the size shown is that of its
    base64 text. *)
Definition exceeds_message (buffer : bytes) : string :=
  ("Base64 encoded size (" ++ str_of_int (4 * ((blen buffer + 2) / 3))
   ++ " bytes) exceeds limit")%string.

(** The three subheaders of the display functions, as the page logs them. *)
Definition section_headers : list App.Event :=
  [Shown (StSubheader "📸 Visual Analysis Results");
   Shown (StSubheader "📊 Activity Pattern Analysis");
   Shown (StSubheader "📈 Productivity Assessment")].

Section WithLibraries.
Context {P : Pillow} {Sv : Services} {R : Rendering} {Pg : Page}.

(** The world in which [main] calls [compress_image]: the image objects
    [get_image_format] left, and nothing logged yet. *)
Definition after_format (file : bytes) (w : App.World P)
  : Normalizer.World P :=
  Normalizer.mkWorld
    (Normalizer.heap
       (get_image_format file (Normalizer.mkWorld (App.heap w) [])).2)
    [].

(** The events from the display of the buffer to the HTTP request that
    carries it. *)
Definition submission (buffer : bytes) : list App.Event :=
  [StImage buffer "Uploaded Screenshot";
   StButton "🔍 Analyze Productivity";
   StSpinner "Analyzing...";
   Remote (Orchestrator.StSpinner "Starting analysis...");
   Remote (HttpPost API_ENDPOINT (submission_payload (b64encode buffer)))].

(** How far one run of [main] gets: it raises only what [st.image] raises
    on the buffer [compress_image] returned, and when [st.image] accepts
    the buffer, the buffer is shown and, the button pressed and the buffer
    of 1 to 196,500 bytes, submitted. *)
Definition page_progress (u : option bytes) (pressed : bool)
    (w : App.World P) (r : Res unit) (events : list App.Event) : Prop :=
  (forall e,
      r = Raise e ->
      exists file buffer iw',
        u = Some file
        /\ compress_image file (after_format file w) = (Ok (Some buffer), iw')
        /\ st_image_error buffer = Some e)
  /\ (forall file buffer iw',
        u = Some file ->
        compress_image file (after_format file w) = (Ok (Some buffer), iw') ->
        match st_image_error buffer with
        | Some e => r = Raise e /\ Forall not_remote events
        | None =>
            r = Ok tt
            /\ In (StImage buffer "Uploaded Screenshot") events
            /\ (pressed = true -> 0 < blen buffer <= 196500 ->
                exists before tail,
                  events = before ++ submission buffer ++ tail)
        end).

(** What one run of [main] with button state [pressed] logs. *)
Definition page_shape (pressed : bool) (r : Res unit)
    (events : list App.Event) : Prop :=
  (pressed = false -> Forall not_remote events)
  /\ (forall url payload,
        In (Remote (HttpPost url payload)) events ->
        url = API_ENDPOINT
        /\ exists buffer,
             In (StImage buffer "Uploaded Screenshot") events
             /\ payload = submission_payload (b64encode buffer)
             /\ 0 < blen buffer <= 196500)
  /\ (forall buffer caption,
        In (StImage buffer caption) events ->
        pressed = true ->
        196500 < blen buffer ->
        r = Ok tt
        /\ Forall not_remote events
        /\ last events = Some (StError (exceeds_message buffer)))
  /\ (In (StError "Failed to process the image") events ->
      In (StImage [] "Uploaded Screenshot") events
      /\ Forall not_remote events)
  /\ (In (StSpinner "Analyzing...") events ->
      exists buffer,
        0 < blen buffer <= 196500
        /\ exists before tail,
             events = before ++ submission buffer ++ tail)
  /\ (In (StError "Failed to process the analysis") events ->
      exists message before,
        events = before ++ [Remote (Orchestrator.StError message);
                            StError "Failed to process the analysis"])
  /\ (forall label data file_name mime,
        In (StDownloadButton label data file_name mime) events ->
        last events = Some (StDownloadButton label data file_name mime)
        /\ (exists result,
              map fst result = section_keys
              /\ data = report_text now_isoformat result)
        /\ (forall h, In h section_headers -> In h events)).
End WithLibraries.
End AppSpec.

(** ** More sample libraries and inputs *)

Module MoreSamples.
Import Normalizer Orchestrator Display Samples.

(** *** A second sample imaging library

    An image is the content of its file: a tag byte (0x89 for PNG, 0xFF for
    JPEG) and the data.  Saving as PNG replaces the tag; the other
    operations leave the image as it is. *)
Definition echo_open (data : bytes) : Res bytes :=
  match data with
  | x89 :: _ => Ok data
  | xff :: _ => Ok data
  | _ => Raise "cannot identify image file"
  end.

Definition echo_format (v : bytes) : option string :=
  match v with
  | x89 :: _ => Some "PNG"%string
  | xff :: _ => Some "JPEG"%string
  | _ => None
  end.

Definition echo_pillow : Pillow := {|
  Img := bytes;
  pil_open := echo_open;
  pil_format := echo_format;
  pil_mode _ := "RGB"%string;
  pil_convert _ v := Ok v;
  pil_getbbox _ := Ok None;
  pil_crop _ v := Ok v;
  pil_thumbnail _ _ v := Ok v;
  pil_save _ _ _ v := Ok (x89 :: tail v)
|}.

(** A 3-byte JPEG for [echo_pillow]; an 80x80 JPEG and a file that is no
    image for [sample_pillow]. *)
Definition echo_jpeg : bytes := [xff; x01; x02].

Definition echo_start : Normalizer.World echo_pillow :=
  Normalizer.mkWorld (P := echo_pillow) [] [].

(** The world [compress_image echo_jpeg] ends in. *)
Definition echo_end : Normalizer.World echo_pillow :=
  Normalizer.mkWorld (P := echo_pillow) [echo_jpeg]
    [PilOpen echo_jpeg; PilGetbbox 0%nat;
     PilThumbnail 0%nat (500, 500) LANCZOS;
     PilSave 0%nat "PNG" true (Some 85)].
Definition small_jpeg : bytes := jpeg_file x0a x0a 0.
Definition not_an_image : bytes := [x00].

(** *** More sample services *)

(** As [sample_services], with any reply of the endpoint. *)
Definition sample_services_replying (reply : HttpReply)
    (script : nat -> SfnReply) : Services := {|
  json_loads := sample_loads;
  json_dumps := sample_dumps;
  requests_post _ _ := reply;
  describe_execution _ n := script n
|}.


(** [running], then the given reply. *)
Definition then_replies (reply : SfnReply) : nat -> SfnReply :=
  fun n => match n with O => running | _ => reply end.

Definition task_failed : SfnReply :=
  SfnResponse (Some "FAILED"%string) None (Some "States.TaskFailed"%string).

(** *** A sample rendering *)

Definition sample_format (x : pyval) : string :=
  match x with
  | PNone => "None"
  | PBool true => "True"
  | PBool false => "False"
  | PInt n => str_of_int n
  | PStr s => s
  | _ => "..."
  end.

Definition sample_rendering : Rendering := {|
  contains_error x :=
    ("argument of type '" ++ type_name x ++ "' is not iterable")%string;
  subscript_error x :=
    ("'" ++ type_name x ++ "' object is not subscriptable")%string;
  iteration_error x :=
    ("'" ++ type_name x ++ "' object is not iterable")%string;
  str_chars s := map (fun c => String c EmptyString) (list_ascii_of_string s);
  str_capitalize s := s;
  isoformat_to_display _ := None;
  progress_error x :=
    match x with
    | PInt n =>
        if (0 <=? n) && (n <=? 100) then None
        else Some "Progress Value has invalid value [0.0, 1.0]"%string
    | _ => Some "unsupported operand type(s) for /"%string
    end;
  py_format := sample_format
|}.

(** [{"output": {"message": {"content": [{"text": "All good"}]}}}] *)
Definition visual_section : list (string * pyval) :=
  [("output"%string,
    PDict [("message"%string,
            PDict [("content"%string,
                    PList [PDict [("text"%string, PStr "All good")]])])])].

(** [{"productivity_score": 150, "factors_considered": ["focus"]}] *)
Definition assessment_section : list (string * pyval) :=
  [("productivity_score"%string, PInt 150);
   ("factors_considered"%string, PList [PStr "focus"])].

End MoreSamples.

(** ** Sample pages *)

Module PageSamples.
Import Py Normalizer Orchestrator Display App Samples MoreSamples.

(** *** A sample page

    Sizes are shown as Python's [.2f] shows them: in hundredths, rounded
    half to even.  [st.image] accepts every buffer. *)
Definition two_digits (n : Z) : string :=
  if n <? 10 then ("0" ++ str_of_int n)%string else str_of_int n.

Definition sample_format_kb (n : Z) : string :=
  let q := n * 100 / 1024 in
  let rest := n * 100 mod 1024 in
  let hundredths :=
    if rest <? 512 then q
    else if 512 <? rest then q + 1
    else if Z.even q then q else q + 1 in
  (str_of_int (hundredths / 100) ++ "." ++ two_digits (hundredths mod 100))%string.

Definition sample_page : Page := {|
  format_kb := sample_format_kb;
  st_image_error _ := None;
  now_isoformat := "2024-05-01T12:00:00";
  report_text timestamp _ :=
    ("{" ++ dq ++ "timestamp" ++ dq ++ ": " ++ dq ++ timestamp ++ dq ++ "}")%string
|}.

(** A page whose [st.image] refuses every buffer. *)
Definition refusing_page : Page := {|
  format_kb := sample_format_kb;
  st_image_error _ := Some "cannot identify image file"%string;
  now_isoformat := "2024-05-01T12:00:00";
  report_text _ _ := "{}"%string
|}.

(** An 80x80 JPEG with a 200,000-byte profile: its PNG re-encode has
    219,344 bytes. *)
Definition heavy_jpeg : bytes := jpeg_file x0a x0a 200000.

Definition page_start : App.World sample_pillow := App.mkWorld [] 0 [].

End PageSamples.

Module NormalizerFacts.
Import Normalizer NormalizerSpec.

Section Runs.
Context {P : Pillow}.
Implicit Types (w : World P) (img r : ref) (v : Img) (b : bytes).

Lemma lookup_fresh (h : list Img) v : (h ++ [v]) !! length h = Some v.
Proof. by apply list_lookup_middle. Qed.

Lemma insert_fresh (h : list Img) v v' :
  <[length h := v']> (h ++ [v]) = h ++ [v'].
Proof.
  rewrite insert_app_r_alt by lia.
  by rewrite Nat.sub_diag.
Qed.

Lemma lookup_old (h : list Img) v' r v :
  h !! r = Some v -> (h ++ [v']) !! r = Some v.
Proof. intros H. by apply lookup_app_l_Some. Qed.

Ltac unfold_calls :=
  cbv [Image_open img_format img_mode img_convert img_getbbox img_crop
       img_copy img_thumbnail img_save st_warning st_error
       mbind mret M_bind M_ret bind ret lift try_except
       emit alloc read write heap trace].

Lemma loop_pass img size rest h t v v' b :
  h !! img = Some v ->
  pil_thumbnail size DefaultFilter v = Ok v' ->
  pil_save "PNG" true None v' = Ok b ->
  blen b <= 250000 ->
  aggressive_loop img (size :: rest) (mkWorld h t) =
    (Ok (Some b),
     mkWorld (h ++ [v']) (t ++ attempt_events img (length h) size)).
Proof.
  intros Hv Ht Hs Hb. apply Z.leb_le in Hb.
  cbn [aggressive_loop]. unfold_calls.
  rewrite Hv, lookup_fresh, Ht, insert_fresh, lookup_fresh, Hs, Hb.
  unfold attempt_events. by rewrite <- !app_assoc.
Qed.

Lemma loop_fail img size rest h t v v' b :
  h !! img = Some v ->
  pil_thumbnail size DefaultFilter v = Ok v' ->
  pil_save "PNG" true None v' = Ok b ->
  250000 < blen b ->
  aggressive_loop img (size :: rest) (mkWorld h t) =
    aggressive_loop img rest
      (mkWorld (h ++ [v']) (t ++ attempt_events img (length h) size)).
Proof.
  intros Hv Ht Hs Hb. apply Z.leb_gt in Hb.
  cbn [aggressive_loop]. unfold_calls.
  rewrite Hv, lookup_fresh, Ht, insert_fresh, lookup_fresh, Hs, Hb.
  unfold attempt_events. by rewrite <- !app_assoc.
Qed.

(** The loop only appends to the object store: every image object that
    existed before it, the argument included, is left as it was. *)
Lemma aggressive_loop_frame img sizes w :
  heap w `prefix_of` heap (aggressive_loop img sizes w).2.
Proof.
  revert w. induction sizes as [|size rest IH]; intros [h t].
  - done.
  - cbn [aggressive_loop]. unfold_calls.
    destruct (h !! img) as [v|] eqn:Hv; [|done].
    rewrite lookup_fresh.
    destruct (pil_thumbnail size DefaultFilter v) as [v'|e];
      [|by apply prefix_app_r].
    rewrite insert_fresh, lookup_fresh.
    destruct (pil_save "PNG" true None v') as [b|e];
      [|by apply prefix_app_r].
    destruct (blen b <=? 250000); [by apply prefix_app_r|].
    etrans; [|apply IH]. by apply prefix_app_r.
Qed.

(** Past the early return, [compress_image] is the budget stage run in
    the world the resize stage left, under the same handler. *)
Lemma compress_image_slow f w img b w1 :
  reaches_budget_check f w img b w1 ->
  compress_image f w =
    try_except (enforce_budget img b)
      (fun e => st_error ("Error compressing image: " ++ e)%string;;
                mret None) w1.
Proof.
  intros (v0 & Ho & Hfast & Hr). destruct w as [h t].
  unfold small_png in Hfast. cbn [heap trace] in Hr.
  unfold compress_image.
  cbv [Image_open img_format mbind mret M_bind M_ret bind ret lift
       try_except emit alloc read heap trace].
  rewrite Ho, lookup_fresh, Hfast, Hr. done.
Qed.

Lemma length_snoc (h : list Img) v : length (h ++ [v]) = S (length h).
Proof. rewrite length_app. simpl. lia. Qed.

Ltac enter_aggressive Hbig :=
  unfold enforce_budget, aggressive_compress;
  apply Z.ltb_lt in Hbig; rewrite Hbig;
  cbv [mbind mret M_bind M_ret bind ret st_warning emit heap trace].

Ltac tidy_trace :=
  unfold large_warning, attempt_events, grayscale_events;
  rewrite ?length_snoc; rewrite <- ?app_assoc; simpl app.

(** The budget stage when the 400x400 pass fits. *)
Lemma budget_400 img b500 h t v v4 b4 :
  h !! img = Some v -> 250000 < blen b500 ->
  pil_thumbnail (400, 400) DefaultFilter v = Ok v4 ->
  pil_save "PNG" true None v4 = Ok b4 -> blen b4 <= 250000 ->
  enforce_budget img b500 (mkWorld h t) =
    (Ok (Some b4),
     mkWorld (h ++ [v4])
       (t ++ large_warning :: attempt_events img (length h) (400, 400))).
Proof.
  intros Hv Hbig T4 S4 L4. enter_aggressive Hbig.
  rewrite (loop_pass _ _ _ _ _ _ _ _ Hv T4 S4 L4).
  by tidy_trace.
Qed.

(** ... when 400x400 is too large and 300x300 fits. *)
Lemma budget_300 img b500 h t v v4 b4 v3 b3 :
  h !! img = Some v -> 250000 < blen b500 ->
  pil_thumbnail (400, 400) DefaultFilter v = Ok v4 ->
  pil_save "PNG" true None v4 = Ok b4 -> 250000 < blen b4 ->
  pil_thumbnail (300, 300) DefaultFilter v = Ok v3 ->
  pil_save "PNG" true None v3 = Ok b3 -> blen b3 <= 250000 ->
  enforce_budget img b500 (mkWorld h t) =
    (Ok (Some b3),
     mkWorld (h ++ [v4; v3])
       (t ++ large_warning
          :: attempt_events img (length h) (400, 400)
          ++ attempt_events img (S (length h)) (300, 300))).
Proof.
  intros Hv Hbig T4 S4 L4 T3 S3 L3. enter_aggressive Hbig.
  rewrite (loop_fail _ _ _ _ _ _ _ _ Hv T4 S4 L4).
  rewrite (loop_pass _ _ _ _ _ _ _ _ (lookup_old _ v4 _ _ Hv) T3 S3 L3).
  by tidy_trace.
Qed.

(** ... when 400x400 and 300x300 are too large and 200x200 fits. *)
Lemma budget_200 img b500 h t v v4 b4 v3 b3 v2 b2 :
  h !! img = Some v -> 250000 < blen b500 ->
  pil_thumbnail (400, 400) DefaultFilter v = Ok v4 ->
  pil_save "PNG" true None v4 = Ok b4 -> 250000 < blen b4 ->
  pil_thumbnail (300, 300) DefaultFilter v = Ok v3 ->
  pil_save "PNG" true None v3 = Ok b3 -> 250000 < blen b3 ->
  pil_thumbnail (200, 200) DefaultFilter v = Ok v2 ->
  pil_save "PNG" true None v2 = Ok b2 -> blen b2 <= 250000 ->
  enforce_budget img b500 (mkWorld h t) =
    (Ok (Some b2),
     mkWorld (h ++ [v4; v3; v2])
       (t ++ large_warning
          :: attempt_events img (length h) (400, 400)
          ++ attempt_events img (S (length h)) (300, 300)
          ++ attempt_events img (S (S (length h))) (200, 200))).
Proof.
  intros Hv Hbig T4 S4 L4 T3 S3 L3 T2 S2 L2. enter_aggressive Hbig.
  pose proof (lookup_old _ v4 _ _ Hv) as Hv1.
  pose proof (lookup_old _ v3 _ _ Hv1) as Hv2.
  rewrite (loop_fail _ _ _ _ _ _ _ _ Hv T4 S4 L4).
  rewrite (loop_fail _ _ _ _ _ _ _ _ Hv1 T3 S3 L3).
  rewrite (loop_pass _ _ _ _ _ _ _ _ Hv2 T2 S2 L2).
  by tidy_trace.
Qed.

(** The loop when no pass fits. *)
Lemma loop_exhausted img h t v v4 b4 v3 b3 v2 b2 :
  h !! img = Some v ->
  pil_thumbnail (400, 400) DefaultFilter v = Ok v4 ->
  pil_save "PNG" true None v4 = Ok b4 -> 250000 < blen b4 ->
  pil_thumbnail (300, 300) DefaultFilter v = Ok v3 ->
  pil_save "PNG" true None v3 = Ok b3 -> 250000 < blen b3 ->
  pil_thumbnail (200, 200) DefaultFilter v = Ok v2 ->
  pil_save "PNG" true None v2 = Ok b2 -> 250000 < blen b2 ->
  aggressive_compress img (mkWorld h t) =
    (Ok None,
     mkWorld (h ++ [v4; v3; v2])
       (t ++ attempt_events img (length h) (400, 400)
          ++ attempt_events img (S (length h)) (300, 300)
          ++ attempt_events img (S (S (length h))) (200, 200))).
Proof.
  intros Hv T4 S4 L4 T3 S3 L3 T2 S2 L2. unfold aggressive_compress.
  pose proof (lookup_old _ v4 _ _ Hv) as Hv1.
  pose proof (lookup_old _ v3 _ _ Hv1) as Hv2.
  rewrite (loop_fail _ _ _ _ _ _ _ _ Hv T4 S4 L4).
  rewrite (loop_fail _ _ _ _ _ _ _ _ Hv1 T3 S3 L3).
  rewrite (loop_fail _ _ _ _ _ _ _ _ Hv2 T2 S2 L2).
  cbn [aggressive_loop]. unfold mret, M_ret, ret.
  by tidy_trace.
Qed.

(** The budget stage once [aggressive_compress] has returned [None]:
    one conversion of [img] to mode L and one save, whose buffer is
    returned whatever its size. *)
Lemma budget_grayscale img b500 w w3 v vL bL :
  250000 < blen b500 ->
  aggressive_compress img
    (mkWorld (heap w) (trace w ++ [large_warning])) = (Ok None, w3) ->
  heap w3 !! img = Some v ->
  pil_convert "L" v = Ok vL ->
  pil_save "PNG" true (Some 70) vL = Ok bL ->
  enforce_budget img b500 w =
    (Ok (Some bL),
     mkWorld (heap w3 ++ [vL])
       (trace w3 ++ grayscale_events img (length (heap w3)))).
Proof.
  intros Hbig Ha Hv Hc Hs. destruct w as [h t], w3 as [h3 t3].
  cbn [heap trace] in *.
  unfold enforce_budget. apply Z.ltb_lt in Hbig. rewrite Hbig.
  cbv [mbind mret M_bind M_ret bind ret st_warning emit heap trace].
  unfold large_warning in Ha. rewrite Ha.
  unfold_calls.
  rewrite Hv, Hc, lookup_fresh, Hs.
  by tidy_trace.
Qed.

(** What the resize stage leaves: the returned reference holds the
    outcome of a [thumbnail] at 500x500, and the buffer is its PNG
    re-encode. *)
Lemma resize_to_500_result r0 w0 img b w1 :
  resize_to_500 r0 w0 = (Ok (img, b), w1) ->
  exists pre v,
    pil_thumbnail (500, 500) LANCZOS pre = Ok v /\
    heap w1 !! img = Some v /\
    pil_save "PNG" true (Some 85) v = Ok b.
Proof.
  destruct w0 as [h t]. unfold resize_to_500, auto_crop. unfold_calls.
  intros H.
  repeat (case_match; simplify_eq; try rewrite lookup_fresh in *).
  all: cbn [heap].
  all: match goal with
       | Hl : <[?i:=?x]> ?l !! ?i = Some ?y |- _ =>
           assert (i < length l)%nat as Hlt
             by first [ rewrite !length_app; simpl; lia
                      | eapply lookup_lt_Some; eassumption ];
           rewrite (list_lookup_insert_eq _ _ _ Hlt) in Hl;
           simplify_eq
       end.
  all: eexists _, _; split; [eassumption|]; split; [|eassumption].
  all: by apply list_lookup_insert_eq.
Qed.

Lemma compress_image_via_budget f w img b w1 x w' :
  reaches_budget_check f w img b w1 ->
  enforce_budget img b w1 = (Ok x, w') ->
  compress_image f w = (Ok x, w').
Proof.
  intros Hr Hb. rewrite (compress_image_slow _ _ _ _ _ Hr).
  unfold try_except. by rewrite Hb.
Qed.

(** When no pass of the loop fits, [compress_image] returns the
    grayscale re-encode of the image the loop was given. *)
Lemma compress_image_grayscale f w img b500 w1 v v4 b4 v3 b3 v2 b2 vL bL :
  reaches_budget_check f w img b500 w1 ->
  heap w1 !! img = Some v ->
  250000 < blen b500 ->
  cap_pass (400, 400) v v4 b4 -> 250000 < blen b4 ->
  cap_pass (300, 300) v v3 b3 -> 250000 < blen b3 ->
  cap_pass (200, 200) v v2 b2 -> 250000 < blen b2 ->
  pil_convert "L" v = Ok vL ->
  pil_save "PNG" true (Some 70) vL = Ok bL ->
  compress_image f w =
    (Ok (Some bL),
     mkWorld (heap w1 ++ [v4; v3; v2; vL])
       (trace w1 ++ large_warning
          :: attempt_events img (length (heap w1)) (400, 400)
          ++ attempt_events img (S (length (heap w1))) (300, 300)
          ++ attempt_events img (S (S (length (heap w1)))) (200, 200)
          ++ grayscale_events img (S (S (S (length (heap w1))))))).
Proof.
  intros Hr Hv Hbig [T4 S4] L4 [T3 S3] L3 [T2 S2] L2 Hc Hs.
  apply (compress_image_via_budget _ _ _ _ _ _ _ Hr).
  destruct w1 as [h t]. cbn [heap trace] in *.
  erewrite budget_grayscale; [..|exact Hc|exact Hs]; cycle 1.
  - exact Hbig.
  - cbn [heap trace].
    apply (loop_exhausted _ _ _ _ _ _ _ _ _ _ Hv T4 S4 L4 T3 S3 L3 T2 S2 L2).
  - cbn [heap]. by apply lookup_app_l_Some.
  - cbn [heap trace]. f_equal. f_equal.
    + by rewrite <- app_assoc.
    + rewrite length_app. cbn [length]. rewrite Nat.add_comm. cbn [Nat.add].
      unfold large_warning, attempt_events, grayscale_events.
      rewrite <- !app_assoc. done.
Qed.

(** One way to the budget check: a mode that needs no conversion and a
    bounding box to crop to. *)
Lemma reaches_via_crop f h t v0 bb v1 v b :
  pil_open f = Ok v0 ->
  small_png f v0 = false ->
  (pil_mode v0 =? "RGBA")%string || (pil_mode v0 =? "RGB")%string = true ->
  pil_getbbox v0 = Ok (Some bb) ->
  pil_crop bb v0 = Ok v1 ->
  pil_thumbnail (500, 500) LANCZOS v1 = Ok v ->
  pil_save "PNG" true (Some 85) v = Ok b ->
  reaches_budget_check f (mkWorld h t) (S (length h)) b
    (mkWorld (h ++ [v0; v])
       (t ++ [PilOpen f; PilGetbbox (length h); PilCrop (length h) bb;
              PilThumbnail (S (length h)) (500, 500) LANCZOS;
              PilSave (S (length h)) "PNG" true (Some 85)])).
Proof.
  intros Ho Hf Hm Hb Hc Ht Hs. exists v0. split; [done|]. split; [done|].
  cbn [heap trace]. unfold resize_to_500, auto_crop. unfold_calls.
  repeat (cbv beta iota;
          first [ rewrite lookup_fresh | rewrite insert_fresh
                | rewrite Hm | rewrite Hb | rewrite Hc
                | rewrite Ht | rewrite Hs ]).
  by rewrite length_snoc, <- !app_assoc.
Qed.

(** C8.  An upload that Pillow identifies as PNG and that has at most
    250,000 bytes is returned byte for byte: the only library call is
    the [Image.open] that identifies it, and no conversion, crop,
    thumbnail or save takes place. *)
Theorem small_png_returned_unchanged f w v :
  pil_open f = Ok v ->
  pil_format v = Some "PNG"%string ->
  blen f <= 250000 ->
  compress_image f w =
    (Ok (Some f), mkWorld (heap w ++ [v]) (trace w ++ [PilOpen f])).
Proof.
  intros Ho Hf Hl. destruct w as [h t]. apply Z.leb_le in Hl.
  unfold compress_image.
  cbv [Image_open img_format mbind mret M_bind M_ret bind ret lift
       try_except emit alloc read heap trace].
  by rewrite Ho, lookup_fresh, Hf, Hl.
Qed.

(** The order of the caps.  Once the 500x500 re-encode is over 250,000
    bytes, the caps are tried in the order 400x400, 300x300, 200x200, each
    on a copy of the image, and the first re-encode of at most 250,000
    bytes is returned with no further library call; when none fits, the
    image is converted to mode L once and saved once, that is the last
    call made, and its buffer is returned whatever its size. *)
Theorem aggressive_caps_in_order f w img b500 w1 v :
  reaches_budget_check f w img b500 w1 ->
  heap w1 !! img = Some v ->
  250000 < blen b500 ->
  let c := length (heap w1) in
  (forall v4 b4,
      cap_pass (400, 400) v v4 b4 -> blen b4 <= 250000 ->
      compress_image f w =
        (Ok (Some b4),
         mkWorld (heap w1 ++ [v4])
           (trace w1 ++ large_warning
              :: attempt_events img c (400, 400))))
  /\ (forall v4 b4 v3 b3,
      cap_pass (400, 400) v v4 b4 -> 250000 < blen b4 ->
      cap_pass (300, 300) v v3 b3 -> blen b3 <= 250000 ->
      compress_image f w =
        (Ok (Some b3),
         mkWorld (heap w1 ++ [v4; v3])
           (trace w1 ++ large_warning
              :: attempt_events img c (400, 400)
              ++ attempt_events img (S c) (300, 300))))
  /\ (forall v4 b4 v3 b3 v2 b2,
      cap_pass (400, 400) v v4 b4 -> 250000 < blen b4 ->
      cap_pass (300, 300) v v3 b3 -> 250000 < blen b3 ->
      cap_pass (200, 200) v v2 b2 -> blen b2 <= 250000 ->
      compress_image f w =
        (Ok (Some b2),
         mkWorld (heap w1 ++ [v4; v3; v2])
           (trace w1 ++ large_warning
              :: attempt_events img c (400, 400)
              ++ attempt_events img (S c) (300, 300)
              ++ attempt_events img (S (S c)) (200, 200))))
  /\ (forall v4 b4 v3 b3 v2 b2 vL bL,
      cap_pass (400, 400) v v4 b4 -> 250000 < blen b4 ->
      cap_pass (300, 300) v v3 b3 -> 250000 < blen b3 ->
      cap_pass (200, 200) v v2 b2 -> 250000 < blen b2 ->
      pil_convert "L" v = Ok vL ->
      pil_save "PNG" true (Some 70) vL = Ok bL ->
      compress_image f w =
        (Ok (Some bL),
         mkWorld (heap w1 ++ [v4; v3; v2; vL])
           (trace w1 ++ large_warning
              :: attempt_events img c (400, 400)
              ++ attempt_events img (S c) (300, 300)
              ++ attempt_events img (S (S c)) (200, 200)
              ++ grayscale_events img (S (S (S c)))))).
Proof.
  intros Hr Hv Hbig c. subst c.
  repeat split.
  - intros v4 b4 [T4 S4] L4.
    apply (compress_image_via_budget _ _ _ _ _ _ _ Hr).
    destruct w1 as [h t].
    exact (budget_400 _ _ _ _ _ _ _ Hv Hbig T4 S4 L4).
  - intros v4 b4 v3 b3 [T4 S4] L4 [T3 S3] L3.
    apply (compress_image_via_budget _ _ _ _ _ _ _ Hr).
    destruct w1 as [h t].
    exact (budget_300 _ _ _ _ _ _ _ _ _ Hv Hbig T4 S4 L4 T3 S3 L3).
  - intros v4 b4 v3 b3 v2 b2 [T4 S4] L4 [T3 S3] L3 [T2 S2] L2.
    apply (compress_image_via_budget _ _ _ _ _ _ _ Hr).
    destruct w1 as [h t].
    exact (budget_200 _ _ _ _ _ _ _ _ _ _ _
             Hv Hbig T4 S4 L4 T3 S3 L3 T2 S2 L2).
  - intros. by eapply compress_image_grayscale.
Qed.

(** C10.  [aggressive_compress] only adds image objects to the store:
    every object that existed before the call, its argument included,
    holds the value it held.  So when it returns [None] from the budget
    stage, the object converted to grayscale still holds the outcome of
    the 500x500 thumbnail, and the buffer returned is the re-encode of
    that value in mode L. *)
Theorem aggressive_compress_keeps_image f w img b500 w1 :
  (forall r w', heap w' `prefix_of` heap (aggressive_compress r w').2)
  /\ (reaches_budget_check f w img b500 w1 ->
      250000 < blen b500 ->
      exists pre v,
        pil_thumbnail (500, 500) LANCZOS pre = Ok v /\
        heap w1 !! img = Some v /\
        forall w3,
          aggressive_compress img
            (mkWorld (heap w1) (trace w1 ++ [large_warning]))
          = (Ok None, w3) ->
          heap w3 !! img = Some v /\
          forall vL bL,
            pil_convert "L" v = Ok vL ->
            pil_save "PNG" true (Some 70) vL = Ok bL ->
            compress_image f w =
              (Ok (Some bL),
               mkWorld (heap w3 ++ [vL])
                 (trace w3 ++ grayscale_events img (length (heap w3))))).
Proof.
  split.
  - intros r w'. apply aggressive_loop_frame.
  - intros Hr Hbig.
    pose proof Hr as (v0 & _ & _ & Hrun).
    destruct (resize_to_500_result _ _ _ _ _ Hrun) as (pre & v & Ht & Hv & _).
    exists pre, v. split; [done|]. split; [done|].
    intros w3 Ha.
    assert (heap w3 !! img = Some v) as Hv3.
    { pose proof (aggressive_loop_frame img
                    [(400, 400); (300, 300); (200, 200)]
                    (mkWorld (heap w1) (trace w1 ++ [large_warning]))) as Hp.
      fold (aggressive_compress img) in Hp. rewrite Ha in Hp.
      cbn [snd heap] in Hp.
      by eapply prefix_lookup_Some. }
    split; [done|].
    intros vL bL Hc Hs.
    apply (compress_image_via_budget _ _ _ _ _ _ _ Hr).
    by eapply budget_grayscale.
Qed.
End Runs.

(** *** Runs on the sample library *)

Section SampleRuns.
Import Samples.

Lemma blen_zeros n : 0 <= n -> blen (zeros n) = n.
Proof.
  intros H. unfold blen, zeros. rewrite repeat_length. lia.
Qed.

Lemma open_jpeg wb hb p :
  0 <= p ->
  sample_open (jpeg_file wb hb p) =
    Ok (mkSample (Some "JPEG") "RGB"
          (8 * byte_value wb) (8 * byte_value hb) p).
Proof.
  intros H. unfold jpeg_file, sample_open. by rewrite blen_zeros.
Qed.

Lemma jpeg_not_small_png wb hb p v :
  s_format v = Some "JPEG"%string ->
  small_png (jpeg_file wb hb p) v = false.
Proof.
  intros H. unfold small_png. cbn [pil_format sample_pillow].
  rewrite H. apply andb_false_r.
Qed.

Lemma jpeg_reaches wb hb p w h w5 h5 n :
  0 <= p ->
  8 * byte_value wb = w -> 8 * byte_value hb = h ->
  fit (500, 500) w h = (w5, h5) ->
  sample_png_size (rgb w5 h5 p) = n ->
  reaches_budget_check (jpeg_file wb hb p) empty_world 1%nat (zeros n)
    (at_budget_check (jpeg_file wb hb p) (jpeg w h p) (rgb w5 h5 p)).
Proof.
  intros Hp Hw Hh Hfit Hn.
  apply (reaches_via_crop (P := sample_pillow)
           (jpeg_file wb hb p) [] [] (jpeg w h p)
           (0, 0, w, h) (rgb w h p)).
  - rewrite (open_jpeg _ _ _ Hp), Hw, Hh. done.
  - by apply jpeg_not_small_png.
  - done.
  - done.
  - change (Ok (rgb (w - 0) (h - 0) p) = Ok (rgb w h p)).
    by rewrite !Z.sub_0_r.
  - change ((let '(w', h') := fit (500, 500) w h in Ok (rgb w' h' p))
            = Ok (rgb w5 h5 p)).
    by rewrite Hfit.
  - change (Ok (zeros (sample_png_size (rgb w5 h5 p))) = Ok (zeros n)).
    by rewrite Hn.
Qed.

Lemma sample_cap_pass size v w h n :
  fit size (s_width v) (s_height v) = (w, h) ->
  sample_png_size (mkSample (s_format v) (s_mode v) w h (s_profile v)) = n ->
  cap_pass size v (mkSample (s_format v) (s_mode v) w h (s_profile v))
    (zeros n).
Proof.
  intros Hfit Hn. split.
  - change ((let '(w', h') := fit size (s_width v) (s_height v) in
             Ok (mkSample (s_format v) (s_mode v) w' h' (s_profile v)))
            = Ok (mkSample (s_format v) (s_mode v) w h (s_profile v))).
    by rewrite Hfit.
  - change (Ok (zeros (sample_png_size
                         (mkSample (s_format v) (s_mode v) w h (s_profile v))))
            = Ok (zeros n)).
    by rewrite Hn.
Qed.

Lemma zeros_fit n : 0 <= n <= 250000 -> blen (zeros n) <= 250000.
Proof. intros H. rewrite blen_zeros; lia. Qed.

Lemma zeros_large n : 250000 < n -> 250000 < blen (zeros n).
Proof. intros H. rewrite blen_zeros; lia. Qed.

(** C8, on the 3-byte PNG. *)
Lemma small_png_returned_unchanged_witness :
  compress_image tiny_png empty_world =
    (Ok (Some tiny_png),
     mkWorld [mkSample (Some "PNG") "RGB" 800 600 0] [PilOpen tiny_png]).
Proof.
  apply (small_png_returned_unchanged (P := sample_pillow)
           tiny_png empty_world
           (mkSample (Some "PNG") "RGB" 800 600 0)).
  - reflexivity.
  - reflexivity.
  - vm_compute. discriminate.
Defined.

Lemma wide_reaches :
  reaches_budget_check wide_jpeg empty_world 1%nat (zeros 375314)
    (at_budget_check wide_jpeg (jpeg 800 400 0) (rgb 500 250 0)).
Proof. by apply jpeg_reaches. Qed.

Lemma plain_reaches :
  reaches_budget_check plain_jpeg empty_world 1%nat (zeros 562939)
    (at_budget_check plain_jpeg (jpeg 800 600 0) (rgb 500 375 0)).
Proof. by apply jpeg_reaches. Qed.

Lemma light_profile_reaches :
  reaches_budget_check light_profile_jpeg empty_world 1%nat (zeros 662939)
    (at_budget_check light_profile_jpeg
       (jpeg 800 600 100000) (rgb 500 375 100000)).
Proof. by apply jpeg_reaches. Qed.

Lemma profiled_reaches :
  reaches_budget_check profiled_jpeg empty_world 1%nat (zeros 862939)
    (at_budget_check profiled_jpeg
       (jpeg 800 600 300000) (rgb 500 375 300000)).
Proof. by apply jpeg_reaches. Qed.

(** On four sample files: the first fits at 400x400, the second at
    300x300, the third at 200x200, the fourth at no cap. *)
Lemma aggressive_caps_in_order_witness :
  (exists w', compress_image wide_jpeg empty_world
              = (Ok (Some (zeros 240264)), w'))
  /\ (exists w', compress_image plain_jpeg empty_world
                 = (Ok (Some (zeros 202789)), w'))
  /\ (exists w', compress_image light_profile_jpeg empty_world
                 = (Ok (Some (zeros 190214)), w'))
  /\ (exists w', compress_image profiled_jpeg empty_world
                 = (Ok (Some (zeros 487939)), w')).
Proof.
  repeat split.
  - destruct (aggressive_caps_in_order (P := sample_pillow)
                wide_jpeg empty_world 1%nat (zeros 375314) _
                (rgb 500 250 0) wide_reaches eq_refl
                (zeros_large 375314 eq_refl)) as (H4 & _).
    eexists. apply (H4 (rgb 400 200 0)).
    + by apply (sample_cap_pass (400, 400) (rgb 500 250 0)).
    + apply zeros_fit. lia.
  - destruct (aggressive_caps_in_order (P := sample_pillow)
                plain_jpeg empty_world 1%nat (zeros 562939) _
                (rgb 500 375 0) plain_reaches eq_refl
                (zeros_large 562939 eq_refl)) as (_ & H3 & _).
    eexists. apply (H3 (rgb 400 300 0) (zeros 360364) (rgb 300 225 0)).
    + by apply (sample_cap_pass (400, 400) (rgb 500 375 0)).
    + apply zeros_large. lia.
    + by apply (sample_cap_pass (300, 300) (rgb 500 375 0)).
    + apply zeros_fit. lia.
  - destruct (aggressive_caps_in_order (P := sample_pillow)
                light_profile_jpeg empty_world 1%nat (zeros 662939) _
                (rgb 500 375 100000) light_profile_reaches eq_refl
                (zeros_large 662939 eq_refl)) as (_ & _ & H2 & _).
    eexists.
    apply (H2 (rgb 400 300 100000) (zeros 460364)
              (rgb 300 225 100000) (zeros 302789)
              (rgb 200 150 100000)).
    + by apply (sample_cap_pass (400, 400) (rgb 500 375 100000)).
    + apply zeros_large. lia.
    + by apply (sample_cap_pass (300, 300) (rgb 500 375 100000)).
    + apply zeros_large. lia.
    + by apply (sample_cap_pass (200, 200) (rgb 500 375 100000)).
    + apply zeros_fit. lia.
  - destruct (aggressive_caps_in_order (P := sample_pillow)
                profiled_jpeg empty_world 1%nat (zeros 862939) _
                (rgb 500 375 300000) profiled_reaches eq_refl
                (zeros_large 862939 eq_refl)) as (_ & _ & _ & HL).
    eexists.
    apply (HL (rgb 400 300 300000) (zeros 660364)
              (rgb 300 225 300000) (zeros 502789)
              (rgb 200 150 300000) (zeros 390214)
              (gray 500 375 300000)).
    + by apply (sample_cap_pass (400, 400) (rgb 500 375 300000)).
    + apply zeros_large. lia.
    + by apply (sample_cap_pass (300, 300) (rgb 500 375 300000)).
    + apply zeros_large. lia.
    + by apply (sample_cap_pass (200, 200) (rgb 500 375 300000)).
    + apply zeros_large. lia.
    + reflexivity.
    + reflexivity.
Defined.

Lemma profiled_loop_exhausted :
  aggressive_compress 1%nat
    (mkWorld
       (heap (at_budget_check profiled_jpeg
                (jpeg 800 600 300000) (rgb 500 375 300000)))
       (trace (at_budget_check profiled_jpeg
                 (jpeg 800 600 300000) (rgb 500 375 300000))
        ++ [large_warning]))
  = (Ok None,
     mkWorld
       [jpeg 800 600 300000; rgb 500 375 300000; rgb 400 300 300000;
        rgb 300 225 300000; rgb 200 150 300000]
       (firstn 15 (trace profiled_end))).
Proof.
  etrans.
  - apply (loop_exhausted (P := sample_pillow) 1%nat _ _
             (rgb 500 375 300000)
             (rgb 400 300 300000) (zeros 660364)
             (rgb 300 225 300000) (zeros 502789)
             (rgb 200 150 300000) (zeros 390214)).
    all: first [ apply zeros_large; lia | reflexivity ].
  - reflexivity.
Qed.

(** C10, on the JPEG with the 300,000-byte profile: the store before the
    loop is a prefix of the store after it, and the buffer returned is
    the grayscale re-encode of the 500x375 image. *)
Lemma aggressive_compress_keeps_image_witness :
  heap (at_budget_check profiled_jpeg
          (jpeg 800 600 300000) (rgb 500 375 300000))
    `prefix_of`
    heap (aggressive_compress 1%nat
            (at_budget_check profiled_jpeg
               (jpeg 800 600 300000) (rgb 500 375 300000))).2
  /\ compress_image profiled_jpeg empty_world
     = (Ok (Some (zeros (sample_png_size (gray 500 375 300000)))),
        profiled_end).
Proof.
  destruct (aggressive_compress_keeps_image (P := sample_pillow)
              profiled_jpeg empty_world 1%nat (zeros 862939)
              (at_budget_check profiled_jpeg
                 (jpeg 800 600 300000) (rgb 500 375 300000)))
    as [Hframe Hgray].
  split; [apply Hframe|].
  destruct (Hgray profiled_reaches (zeros_large 862939 eq_refl))
    as (pre & v & _ & Hv & Hrest).
  injection Hv as <-.
  destruct (Hrest _ profiled_loop_exhausted) as [_ Hfinal].
  apply (Hfinal (gray 500 375 300000)); reflexivity.
Defined.

(** C1 (what the program does).  On the JPEG with the 300,000-byte
    profile every re-encode is over 250,000 bytes, and [compress_image]
    returns the grayscale one, of 487,939 bytes, instead of [None]. *)
Theorem oversized_grayscale_is_returned :
  compress_image profiled_jpeg empty_world
  = (Ok (Some (zeros 487939)), profiled_end)
  /\ blen (zeros 487939) = 487939
  /\ 250000 < blen (zeros 487939).
Proof.
  split; [|split; [by apply blen_zeros | by apply zeros_large]].
  apply (compress_image_grayscale (P := sample_pillow)
           profiled_jpeg empty_world 1%nat (zeros 862939) _
           (rgb 500 375 300000)
           (rgb 400 300 300000) (zeros 660364)
           (rgb 300 225 300000) (zeros 502789)
           (rgb 200 150 300000) (zeros 390214)
           (gray 500 375 300000) (zeros 487939) profiled_reaches).
  all: first [ apply zeros_large; lia
             | by apply (sample_cap_pass _ (rgb 500 375 300000))
             | reflexivity ].
Qed.

Lemma profiled_grayscale_run :
  compress_image profiled_jpeg empty_world
  = (Ok (Some (zeros 487939)), profiled_end).
Proof.
  apply (compress_image_grayscale (P := sample_pillow)
           profiled_jpeg empty_world 1%nat (zeros 862939) _
           (rgb 500 375 300000)
           (rgb 400 300 300000) (zeros 660364)
           (rgb 300 225 300000) (zeros 502789)
           (rgb 200 150 300000) (zeros 390214)
           (gray 500 375 300000) (zeros 487939) profiled_reaches).
  all: first [ apply zeros_large; lia
             | by apply (sample_cap_pass _ (rgb 500 375 300000))
             | reflexivity ].
Qed.

(** C2 (what the program does).  On the JPEG with the 300,000-byte
    profile the 500x500 re-encode is over 250,000 bytes; the caps 400x400,
    300x300 and 200x200 are tried in that order, each on a copy, and none
    fits; the image is then converted to mode L once and saved once.  That
    re-encode is over 250,000 bytes as well, and [compress_image] returns
    it: after the one grayscale attempt the call does not fail. *)
Theorem grayscale_attempt_is_not_followed_by_failure :
  exists w',
    compress_image profiled_jpeg empty_world
    = (Ok (Some (zeros 487939)), w')
    /\ trace w'
       = trace (at_budget_check profiled_jpeg
                  (jpeg 800 600 300000) (rgb 500 375 300000))
         ++ large_warning
            :: attempt_events 1%nat 2%nat (400, 400)
            ++ attempt_events 1%nat 3%nat (300, 300)
            ++ attempt_events 1%nat 4%nat (200, 200)
            ++ grayscale_events 1%nat 5%nat
    /\ 250000 < blen (zeros 487939)
    /\ (compress_image profiled_jpeg empty_world).1 <> Ok None.
Proof.
  exists profiled_end. rewrite profiled_grayscale_run.
  split; [done|]. split; [reflexivity|].
  split; [by apply zeros_large | done].
Qed.
End SampleRuns.
End NormalizerFacts.

(** ** The payload validator: facts *)

Module ValidatorFacts.
Import Validator ValidatorSpec Samples.

Lemma validate_nonempty s :
  s <> EmptyString ->
  validate_input (Some s) =
    if 262000 <? utf8_len s then (false, too_large_message (utf8_len s))
    else (true, EmptyString).
Proof. destruct s; [congruence | reflexivity]. Qed.

Lemma utf8_len_empty s : 0 < utf8_len s -> s <> EmptyString.
Proof. intros H ->. unfold utf8_len in H. simpl in H. lia. Qed.

Lemma validate_oversized s :
  262000 < utf8_len s ->
  validate_input (Some s) = (false, too_large_message (utf8_len s)).
Proof.
  intros H. rewrite validate_nonempty by (apply utf8_len_empty; lia).
  apply Z.ltb_lt in H. by rewrite H.
Qed.

Lemma utf8_len_append s1 s2 :
  utf8_len (s1 ++ s2)%string = utf8_len s1 + utf8_len s2.
Proof.
  unfold utf8_len.
  induction s1 as [|a s1 IH]; cbn [String.append String.length].
  - lia.
  - rewrite !Nat2Z.inj_succ. lia.
Qed.

Lemma utf8_len_doubled n s :
  utf8_len (doubled n s) = 2 ^ Z.of_nat n * utf8_len s.
Proof.
  revert s. induction n as [|n IH]; intros s.
  - simpl. lia.
  - cbn [doubled]. rewrite IH, utf8_len_append, Nat2Z.inj_succ, Z.pow_succ_r; lia.
Qed.

Lemma utf8_len_payload : utf8_len payload_262144 = 262144.
Proof. unfold payload_262144. by rewrite utf8_len_doubled. Qed.

(** C7.  [validate_input] is a function of its argument alone.  It
    rejects [None] and the empty string with "No image data provided";
    it rejects a payload of more than 262,000 bytes with a message that
    carries the size in decimal; it accepts every other payload. *)
Theorem validate_input_cases :
  validate_input None = (false, "No image data provided"%string)
  /\ validate_input (Some EmptyString) = (false, "No image data provided"%string)
  /\ (forall s,
        262000 < utf8_len s ->
        validate_input (Some s) =
          (false,
           ("Image too large (" ++ str_of_int (utf8_len s)
            ++ " bytes). Maximum allowed is 262144 bytes.")%string))
  /\ (forall s,
        s <> EmptyString -> utf8_len s <= 262000 ->
        validate_input (Some s) = (true, EmptyString)).
Proof.
  repeat split.
  - apply validate_oversized.
  - intros s Hs Hl. rewrite (validate_nonempty _ Hs).
    apply Z.ltb_ge in Hl. by rewrite Hl.
Qed.

(** C7, on the 262,144-character payload and on a 4-character one. *)
Lemma validate_input_cases_witness :
  validate_input (Some payload_262144) =
    (false,
     "Image too large (262144 bytes). Maximum allowed is 262144 bytes."%string)
  /\ validate_input (Some payload_abc) = (true, EmptyString).
Proof.
  destruct validate_input_cases as (_ & _ & Hbig & Hok).
  split.
  - rewrite (Hbig payload_262144) by (rewrite utf8_len_payload; lia).
    rewrite utf8_len_payload. reflexivity.
  - apply Hok; [discriminate | vm_compute; discriminate].
Defined.

(** C9.  A payload of more than 262,000 and at most 262,144 bytes is
    rejected, and the message it is rejected with names 262144 bytes as
    the maximum. *)
Theorem rejected_below_announced_maximum s :
  262000 < utf8_len s <= 262144 ->
  validate_input (Some s) =
    (false,
     ("Image too large (" ++ str_of_int (utf8_len s)
      ++ " bytes). Maximum allowed is 262144 bytes.")%string).
Proof. intros [H _]. by apply validate_oversized. Qed.

(** C9, on a payload of exactly 262,144 characters. *)
Lemma rejected_below_announced_maximum_witness :
  validate_input (Some payload_262144) =
    (false,
     ("Image too large (" ++ str_of_int (utf8_len payload_262144)
      ++ " bytes). Maximum allowed is 262144 bytes.")%string).
Proof.
  apply rejected_below_announced_maximum.
  rewrite utf8_len_payload. lia.
Defined.

End ValidatorFacts.

(** ** The job orchestrator: facts *)

Module OrchestratorFacts.
Import Validator Orchestrator OrchestratorSpec.

Section Runs.
Context {Sv : Services}.
Implicit Types (w : World) (arn : pyval) (t : list Event).

Ltac unfold_calls :=
  cbv [poll_once sfn_describe_execution subscript_status post
       response_json st_error st_info st_spinner time_sleep emit
       mbind mret M_bind M_ret bind ret raise lift try_except
       polls trace].

(** A pass that finds the execution running. *)
Lemma poll_once_running arn delay p t output error :
  0 <= delay ->
  describe_execution arn p = SfnResponse (Some "RUNNING"%string) output error ->
  poll_once arn delay (mkWorld p t) =
    (Ok None, mkWorld (S p) (t ++ [DescribeExecution arn; Sleep delay])).
Proof.
  intros Hd H. apply Z.ltb_ge in Hd. unfold_calls. rewrite H. cbn.
  rewrite Hd. by rewrite <- app_assoc.
Qed.

(** A pass that finds it succeeded, by what [json.loads] makes of the
    output. *)
Lemma poll_once_succeeded arn delay p t output error :
  describe_execution arn p
  = SfnResponse (Some "SUCCEEDED"%string) output error ->
  poll_once arn delay (mkWorld p t) =
    match json_loads (output_text output) with
    | Loaded x =>
        (Ok (Some (WithOutput "SUCCEEDED" x)),
         mkWorld (S p) (t ++ [DescribeExecution arn]))
    | JSONDecodeError e =>
        (Ok (Some (WithError "ERROR" "Invalid JSON output")),
         mkWorld (S p)
           (t ++ [DescribeExecution arn;
                  StError ("Error parsing Step Functions output: " ++ e)%string]))
    | LoadsRaises e =>
        (Ok (Some (WithError "ERROR" e)),
         mkWorld (S p)
           (t ++ [DescribeExecution arn;
                  StError ("Error polling Step Functions: " ++ e)%string]))
    end.
Proof.
  intros H. unfold_calls. rewrite H. cbn. unfold output_text.
  destruct (json_loads (default "{}"%string output)); cbn;
    by rewrite <- ?app_assoc.
Qed.

Lemma running_for_tail arn first n :
  running_for arn first (S n) ->
  (exists output error,
      describe_execution arn first
      = SfnResponse (Some "RUNNING"%string) output error)
  /\ running_for arn (S first) n.
Proof.
  intros H. split.
  - destruct (H 0%nat) as (o & e & Hd); [lia|].
    rewrite Nat.add_0_r in Hd. eauto.
  - intros i Hi. destruct (H (S i)) as (o & e & Hd); [lia|].
    rewrite Nat.add_succ_r in Hd. eauto.
Qed.

(** [n] passes that find the execution running leave the loop with the
    attempts that remain, [n] queries and [n] sleeps later. *)
Lemma poll_loop_running arn delay n : forall k p t,
  0 <= delay ->
  running_for arn p n ->
  poll_loop arn (n + k) delay (mkWorld p t) =
    poll_loop arn k delay
      (mkWorld (p + n) (t ++ running_events arn n delay)).
Proof.
  induction n as [|n IH]; intros k p t Hdelay Hrun.
  - unfold running_events. cbn. by rewrite Nat.add_0_r, app_nil_r.
  - apply running_for_tail in Hrun as [(o & e & Hd) Hrest].
    cbn [Nat.add poll_loop]. unfold mbind, M_bind, bind.
    rewrite (poll_once_running _ _ _ _ _ _ Hdelay Hd).
    rewrite (IH _ _ _ Hdelay Hrest).
    unfold running_events. cbn [replicate concat].
    rewrite <- app_assoc.
    by replace (S p + n)%nat with (p + S n)%nat by lia.
Qed.

Lemma status_queries_running arn n delay :
  status_queries (running_events arn n delay) = n.
Proof.
  unfold running_events. induction n as [|n IH]; cbn; [done|].
  by rewrite IH.
Qed.

(** After [n] passes that find the execution running, the outcome is
    that of the next pass. *)
Lemma poll_status_after_running arn delay n k p t :
  0 <= delay ->
  running_for arn p n ->
  poll_execution_status arn (n + S k) delay (mkWorld p t) =
    match poll_once arn delay
            (mkWorld (p + n)
               (t ++ client_event :: running_events arn n delay)) with
    | (Ok (Some result), w') => (Ok result, w')
    | (Ok None, w') => poll_loop arn k delay w'
    | (Raise e, w') => (Raise e, w')
    end.
Proof.
  intros Hdelay Hrun. unfold poll_execution_status.
  cbv [mbind M_bind bind emit polls trace].
  rewrite (poll_loop_running _ _ _ _ _ _ Hdelay Hrun).
  cbn [poll_loop]. cbv [mbind M_bind bind].
  rewrite <- app_assoc. cbn [app]. fold client_event.
  destruct (poll_once _ _ _) as [[[r|]|e] w']; done.
Qed.

Lemma poll_status_succeeded arn delay n k p t output error x :
  0 <= delay ->
  running_for arn p n ->
  describe_execution arn (p + n)
  = SfnResponse (Some "SUCCEEDED"%string) output error ->
  json_loads (output_text output) = Loaded x ->
  poll_execution_status arn (n + S k) delay (mkWorld p t) =
    (Ok (WithOutput "SUCCEEDED" x),
     mkWorld (S (p + n))
       (t ++ client_event :: running_events arn n delay
          ++ [DescribeExecution arn])).
Proof.
  intros Hdelay Hrun Hd Hl.
  rewrite (poll_status_after_running _ _ _ _ _ _ Hdelay Hrun).
  rewrite (poll_once_succeeded _ _ _ _ _ _ Hd), Hl.
  by rewrite <- app_assoc.
Qed.

(** C3.  When the first 30 status queries all report RUNNING,
    [poll_execution_status] with its default arguments makes exactly
    those 30 queries (each followed by a 2-second sleep) and returns the
    exhausted-budget result, which the program spells status "TIMEOUT"
    with the message "Maximum polling attempts reached". *)
Theorem poll_exhausted_after_30 arn w :
  running_for arn (polls w) 30 ->
  exists events,
    poll_execution_status arn 30 2 w =
      (Ok (WithError "TIMEOUT" "Maximum polling attempts reached"),
       mkWorld (polls w + 30) (trace w ++ events))
    /\ events = client_event :: running_events arn 30 2
    /\ status_queries events = 30%nat.
Proof.
  intros Hrun. exists (client_event :: running_events arn 30 2).
  split; [|split; [done|]].
  - destruct w as [p t]. cbn [polls trace] in *.
    unfold poll_execution_status.
    cbv [mbind M_bind bind emit polls trace].
    rewrite (poll_loop_running arn 2 30 0 _ _ ltac:(lia) Hrun).
    cbn [poll_loop]. unfold mret, M_ret, ret.
    by rewrite <- app_assoc.
  - cbn [status_queries client_event].
    apply status_queries_running.
Qed.

(** C4.  When the execution is reported SUCCEEDED (after any number of
    RUNNING reports, within the attempt budget) and [json.loads] rejects
    its output, the result has status "ERROR": with the message
    "Invalid JSON output" for a decode error, with the exception text
    for any other exception.  It is never a SUCCEEDED result. *)
Theorem unparseable_output_is_error arn delay n k w output error :
  0 <= delay ->
  running_for arn (polls w) n ->
  describe_execution arn (polls w + n)
  = SfnResponse (Some "SUCCEEDED"%string) output error ->
  (forall e,
      json_loads (output_text output) = JSONDecodeError e ->
      poll_execution_status arn (n + S k) delay w =
        (Ok (WithError "ERROR" "Invalid JSON output"),
         mkWorld (S (polls w + n))
           (trace w ++ client_event :: running_events arn n delay
              ++ [DescribeExecution arn;
                  StError ("Error parsing Step Functions output: "
                           ++ e)%string])))
  /\ (forall e,
      json_loads (output_text output) = LoadsRaises e ->
      poll_execution_status arn (n + S k) delay w =
        (Ok (WithError "ERROR" e),
         mkWorld (S (polls w + n))
           (trace w ++ client_event :: running_events arn n delay
              ++ [DescribeExecution arn;
                  StError ("Error polling Step Functions: "
                           ++ e)%string])))
  /\ ((forall x, json_loads (output_text output) <> Loaded x) ->
      exists message w',
        poll_execution_status arn (n + S k) delay w
        = (Ok (WithError "ERROR" message), w')).
Proof.
  intros Hdelay Hrun Hd. destruct w as [p t]. cbn [polls trace] in *.
  pose proof (poll_status_after_running arn delay n k p t Hdelay Hrun) as Hp.
  rewrite (poll_once_succeeded _ _ _ _ _ _ Hd) in Hp.
  repeat split.
  - intros e He. rewrite Hp, He. by rewrite <- app_assoc.
  - intros e He. rewrite Hp, He. by rewrite <- app_assoc.
  - intros Hno. rewrite Hp.
    destruct (json_loads (output_text output)) as [x|e|e]; [|eauto..].
    by destruct (Hno x).
Qed.

Ltac unfold_trigger :=
  unfold trigger_analysis;
  cbv [post response_json st_error st_info st_spinner emit py_get
       mbind mret M_bind M_ret bind ret raise lift try_except
       polls trace].

(** C6.  A 200 response whose body is a JSON object without the key
    [executionArn] ends the call with the error "No execution ARN
    received" and the result [None]; no client is created and no status
    query is made. *)
Theorem no_handle_no_polling image w text body :
  validate_input (Some image) = (true, EmptyString) ->
  requests_post API_ENDPOINT (submission_payload image)
  = HttpResponse 200 text ->
  json_loads text = Loaded (PDict body) ->
  dict_get "executionArn" body = None ->
  exists events,
    trigger_analysis (Some image) w =
      (Ok None, mkWorld (polls w) (trace w ++ events))
    /\ events = [StSpinner "Starting analysis...";
                 HttpPost API_ENDPOINT (submission_payload image);
                 StError "No execution ARN received"]
    /\ status_queries events = 0%nat.
Proof.
  intros Hvalid Hpost Hjson Hkey. eexists. split; [|split; [done|done]].
  destruct w as [p t]. unfold_trigger. rewrite Hvalid. cbn [negb].
  fold (submission_payload image).
  repeat (cbv beta iota;
          first [ rewrite Hpost | rewrite Hjson | rewrite Hkey ]).
  cbn. by rewrite <- !app_assoc.
Qed.

(** C5, as amended.  With a job handle returned, two RUNNING reports and
    then SUCCEEDED with an output that parses to a JSON object,
    [poll_execution_status] returns the SUCCEEDED result after exactly
    two sleeps, and [trigger_analysis] returns a dict with exactly the
    keys [visual_analysis], [activity_pattern] and
    [productivity_assessment], each bound to the section of that name or,
    when the output has none, to the empty dict. *)
Theorem three_sections_after_two_delays
    image w text body arn output error d :
  validate_input (Some image) = (true, EmptyString) ->
  requests_post API_ENDPOINT (submission_payload image)
  = HttpResponse 200 text ->
  json_loads text = Loaded (PDict body) ->
  dict_get "executionArn" body = Some arn ->
  truthy arn = true ->
  running_for arn (polls w) 2 ->
  describe_execution arn (polls w + 2)
  = SfnResponse (Some "SUCCEEDED"%string) output error ->
  json_loads (output_text output) = Loaded (PDict d) ->
  let polling :=
    client_event :: running_events arn 2 2 ++ [DescribeExecution arn] in
  poll_execution_status arn 30 2 w =
    (Ok (WithOutput "SUCCEEDED" (PDict d)),
     mkWorld (S (polls w + 2)) (trace w ++ polling))
  /\ delays polling = 2%nat
  /\ trigger_analysis (Some image) w =
       (Ok (Some [("visual_analysis"%string, section_of d "visual_analysis");
                  ("activity_pattern"%string, section_of d "activity_pattern");
                  ("productivity_assessment"%string,
                   section_of d "productivity_assessment")]),
        mkWorld (S (polls w + 2))
          (trace w ++ submit_events image ++ polling)).
Proof.
  intros Hvalid Hpost Hjson Hkey Harn Hrun Hd Hout polling.
  destruct w as [p t]. cbn [polls trace] in *.
  pose proof (fun t' =>
    poll_status_succeeded arn 2 2 27 p t' output error _
      ltac:(lia) Hrun Hd Hout)
    as Hpoll.
  split; [apply Hpoll|]. split; [done|].
  unfold_trigger. rewrite Hvalid. cbn [negb].
  fold (submission_payload image).
  repeat (cbv beta iota;
          first [ rewrite Hpost | rewrite Hjson | rewrite Hkey ]).
  cbn -[poll_execution_status]. rewrite Harn.
  change (poll_execution_status arn 30 2)
    with (poll_execution_status arn (2 + S 27) 2).
  rewrite Hpoll. cbn [status_of output_of].
  rewrite String.eqb_refl. unfold section_of, submit_events, polling.
  by rewrite <- !app_assoc.
Qed.
End Runs.

(** *** Runs on the sample services *)

Section SampleRuns.
Import Samples.

Lemma always_running_for sv_body arn first n :
  running_for (Sv := sample_services sv_body always_running) arn first n.
Proof. intros i _. by exists None, None. Qed.

(** C3, on a state machine that always reports RUNNING. *)
Lemma poll_exhausted_after_30_witness :
  exists events,
    poll_execution_status
      (Sv := sample_services body_with_arn always_running)
      (PStr sample_arn) 30 2 start =
      (Ok (WithError "TIMEOUT" "Maximum polling attempts reached"),
       mkWorld 30 events)
    /\ status_queries events = 30%nat.
Proof.
  destruct (poll_exhausted_after_30
              (Sv := sample_services body_with_arn always_running)
              (PStr sample_arn) start
              (always_running_for _ _ _ _)) as (events & Hrun & _ & Hn).
  exists events. split; [exact Hrun | exact Hn].
Defined.

Lemma succeeds_third_running body output arn :
  running_for (Sv := sample_services body (succeeds_third output)) arn 0 2.
Proof.
  intros i Hi. exists None, None.
  destruct i as [|[|i]]; [done | done | lia].
Qed.

(** C4, on [running, running, succeeded] with the output [oops]. *)
Lemma unparseable_output_is_error_witness :
  poll_execution_status
    (Sv := sample_services body_with_arn (succeeds_third "oops"))
    (PStr sample_arn) 30 2 start =
    (Ok (WithError "ERROR" "Invalid JSON output"),
     mkWorld 3
       [client_event;
        DescribeExecution (PStr sample_arn); Sleep 2;
        DescribeExecution (PStr sample_arn); Sleep 2;
        DescribeExecution (PStr sample_arn);
        StError "Error parsing Step Functions output: Expecting value: line 1 column 1 (char 0)"]).
Proof.
  destruct (unparseable_output_is_error
              (Sv := sample_services body_with_arn (succeeds_third "oops"))
              (PStr sample_arn) 2 2 27 start (Some "oops"%string) None
              ltac:(lia) (succeeds_third_running _ _ _) eq_refl)
    as (Hdecode & _ & _).
  exact (Hdecode _ eq_refl).
Defined.

(** C5 as amended, on [running, running, succeeded] with the output
    [{"visual_analysis":{"summary":"ok"}}]. *)
Lemma three_sections_after_two_delays_witness :
  exists w',
    trigger_analysis
      (Sv := sample_services body_with_arn
               (succeeds_third output_one_section))
      (Some payload_abc) start =
      (Ok (Some [("visual_analysis"%string,
                  PDict [("summary"%string, PStr "ok")]);
                 ("activity_pattern"%string, PDict []);
                 ("productivity_assessment"%string, PDict [])]),
       w')
    /\ delays (trace w') = 2%nat.
Proof.
  destruct (three_sections_after_two_delays
              (Sv := sample_services body_with_arn
                       (succeeds_third output_one_section))
              payload_abc start body_with_arn
              [("executionArn"%string, PStr sample_arn)]
              (PStr sample_arn) (Some output_one_section) None
              [("visual_analysis"%string,
                PDict [("summary"%string, PStr "ok")])]
              eq_refl eq_refl eq_refl eq_refl eq_refl
              (succeeds_third_running _ _ _) eq_refl eq_refl)
    as (_ & _ & Hrun).
  eexists. split; [exact Hrun | reflexivity].
Defined.

(** C5 as first stated fails: the output [[]] is parseable, the poll
    returns SUCCEEDED after two sleeps, and [trigger_analysis] returns
    [None], because a list has no [get]. *)
Lemma parseable_list_output_gives_none :
  json_loads (Services := sample_services body_with_arn (succeeds_third "[]"))
    "[]" = Loaded (PList [])
  /\ poll_execution_status
       (Sv := sample_services body_with_arn (succeeds_third "[]"))
       (PStr sample_arn) 30 2 start =
       (Ok (WithOutput "SUCCEEDED" (PList [])),
        mkWorld 3
          [client_event;
           DescribeExecution (PStr sample_arn); Sleep 2;
           DescribeExecution (PStr sample_arn); Sleep 2;
           DescribeExecution (PStr sample_arn)])
  /\ trigger_analysis
       (Sv := sample_services body_with_arn (succeeds_third "[]"))
       (Some payload_abc) start =
       (Ok None,
        mkWorld 3
          (submit_events
             (Sv := sample_services body_with_arn (succeeds_third "[]"))
             payload_abc
           ++ [client_event;
               DescribeExecution (PStr sample_arn); Sleep 2;
               DescribeExecution (PStr sample_arn); Sleep 2;
               DescribeExecution (PStr sample_arn);
               StError "Error in analysis: 'list' object has no attribute 'get'"])).
Proof. repeat split; vm_compute; reflexivity. Qed.

(** C6, on an endpoint that answers 200 with the body [{}]. *)
Lemma no_handle_no_polling_witness :
  trigger_analysis
    (Sv := sample_services "{}" always_running)
    (Some payload_abc) start =
    (Ok None,
     mkWorld 0
       [StSpinner "Starting analysis...";
        HttpPost API_ENDPOINT
          (submission_payload
             (Sv := sample_services "{}" always_running) payload_abc);
        StError "No execution ARN received"]).
Proof.
  destruct (no_handle_no_polling
              (Sv := sample_services "{}" always_running)
              payload_abc start "{}" [] eq_refl eq_refl eq_refl eq_refl)
    as (events & Hrun & -> & _).
  exact Hrun.
Defined.
End SampleRuns.
End OrchestratorFacts.

(** ** The normaliser: further facts *)

Module NormalizerMore.
Import Normalizer NormalizerSpec NormalizerMoreSpec.

Section Runs.
Context {P : Pillow}.
Implicit Types (w : World P) (img r : ref) (v : Img) (b : bytes).

Ltac unfold_calls :=
  cbv [Image_open img_format img_mode img_convert img_getbbox img_crop
       img_copy img_thumbnail img_save st_warning st_error
       mbind mret M_bind M_ret bind ret lift try_except
       emit alloc read write heap trace].

Lemma aggressive_loop_some img sizes w b w' :
  aggressive_loop img sizes w = (Ok (Some b), w') ->
  blen b <= 250000 /\ exists v, pil_save "PNG" true None v = Ok b.
Proof.
  revert w. induction sizes as [|size rest IH]; intros [h t].
  - cbn. unfold mret, M_ret, ret. intros H. simplify_eq.
  - cbn [aggressive_loop]. unfold_calls. intros H.
    repeat (case_match; simplify_eq).
    + split; [by apply Z.leb_le | eauto].
    + eauto.
Qed.

Lemma enforce_budget_some img b0 w b w' :
  enforce_budget img b0 w = (Ok (Some b), w') ->
  (b = b0 /\ blen b <= 250000)
  \/ (exists v opt q,
        pil_save "PNG" opt q v = Ok b /\
        (blen b <= 250000
         \/ exists g, last (trace w') = Some (PilSave g "PNG" true (Some 70)))).
Proof.
  destruct w as [h t]. unfold enforce_budget.
  destruct (250000 <? blen b0) eqn:Hbig.
  - cbv [mbind mret M_bind M_ret bind ret st_warning emit heap trace].
    destruct (aggressive_compress img _) as [[[b1|]|e] w1] eqn:Ha.
    + intros H. simplify_eq.
      apply aggressive_loop_some in Ha as [Hle (v & Hs)].
      right. exists v, true, None. split; [done | by left].
    + destruct w1 as [h1 t1]. unfold_calls. intros H.
      repeat (case_match; simplify_eq).
      right. eexists _, true, (Some 70). split; [done|].
      right. eexists. by rewrite last_snoc.
    + intros H. simplify_eq.
  - unfold mret, M_ret, ret. intros H. simplify_eq.
    apply Z.ltb_ge in Hbig. by left.
Qed.

Lemma resize_to_500_saved r0 w0 img b w1 :
  resize_to_500 r0 w0 = (Ok (img, b), w1) ->
  exists v, pil_save "PNG" true (Some 85) v = Ok b.
Proof.
  intros H.
  destruct (NormalizerFacts.resize_to_500_result _ _ _ _ _ H)
    as (pre & v & _ & _ & Hs).
  eauto.
Qed.

Lemma compress_image_some f w b w' :
  compress_image f w = (Ok (Some b), w') ->
  (b = f /\ blen f <= 250000
   /\ exists v, pil_open f = Ok v /\ pil_format v = Some "PNG"%string)
  \/ (exists v opt q,
        pil_save "PNG" opt q v = Ok b /\
        (blen b <= 250000
         \/ exists g, last (trace w') = Some (PilSave g "PNG" true (Some 70)))).
Proof.
  destruct w as [h t]. unfold compress_image.
  cbv [Image_open img_format mbind mret M_bind M_ret bind ret lift
       try_except emit alloc read st_error heap trace].
  destruct (pil_open f) as [v0|e] eqn:Ho; [|intros H; simplify_eq].
  rewrite NormalizerFacts.lookup_fresh.
  assert (forall w0,
    match
      (let (r, s') := resize_to_500 (length h) w0 in
       match r with
       | Ok a => (let '(img, buffer) := a in enforce_budget img buffer) s'
       | Raise e => (Raise e, s')
       end)
    with
    | (Ok a, s') => (Ok a, s')
    | (Raise e, s') =>
        (Ok None,
         mkWorld (heap s')
           (trace s' ++ [StError ("Error compressing image: " ++ e)%string]))
    end = (Ok (Some b), w') ->
    exists v opt q,
      pil_save "PNG" opt q v = Ok b /\
      (blen b <= 250000
       \/ exists g, last (trace w') = Some (PilSave g "PNG" true (Some 70))))
    as Hslow.
  { intros w0.
    destruct (resize_to_500 (length h) w0) as [[[img b0]|e] w1] eqn:Hr;
      [|intros H; simplify_eq].
    destruct (enforce_budget img b0 w1) as [[r|e] w2] eqn:He;
      intros H; simplify_eq.
    apply enforce_budget_some in He as [[-> Hle]|Hsaved]; [|done].
    apply resize_to_500_saved in Hr as [v Hs].
    exists v, true, (Some 85). split; [done | by left]. }
  destruct (blen f <=? 250000) eqn:Hsize; cbn [andb].
  - destruct (pil_format v0) as [fmt|] eqn:Hf.
    + destruct (fmt =? "PNG")%string eqn:Hp.
      * intros H. simplify_eq. left.
        apply String.eqb_eq in Hp as ->. apply Z.leb_le in Hsize. eauto.
      * intros H. right. by eapply Hslow.
    + intros H. right. by eapply Hslow.
  - intros H. right. by eapply Hslow.
Qed.

Lemma enforce_budget_not_none img b0 w w' :
  enforce_budget img b0 w <> (Ok None, w').
Proof.
  destruct w as [h t]. unfold enforce_budget.
  destruct (250000 <? blen b0); [|done].
  cbv [mbind mret M_bind M_ret bind ret st_warning emit heap trace].
  destruct (aggressive_compress img _) as [[[b1|]|e] [h1 t1]]; [done| |done].
  unfold_calls. repeat (case_match; simplify_eq); done.
Qed.

(** A buffer of more than 250,000 bytes can only come out of the grayscale
    re-encode: whenever [compress_image] returns such a buffer, the last
    library call it made is the save with [quality=70] of line 92. *)
Theorem over_budget_only_from_grayscale f w b w' :
  compress_image f w = (Ok (Some b), w') ->
  250000 < blen b ->
  exists g, last (trace w') = Some (PilSave g "PNG" true (Some 70)).
Proof.
  intros Hrun Hbig.
  destruct (compress_image_some _ _ _ _ Hrun)
    as [(-> & Hle & _)|(v & opt & q & _ & [Hle|Hlast])]; [lia | lia | done].
Qed.

Lemma compress_image_returns f w :
  exists result w',
    compress_image f w = (Ok result, w')
    /\ (result = None ->
        exists e,
          last (trace w')
          = Some (StError ("Error compressing image: " ++ e)%string)).
Proof.
  destruct w as [h t]. unfold compress_image.
  cbv [Image_open img_format mbind mret M_bind M_ret bind ret lift
       try_except emit alloc read st_error heap trace].
  destruct (pil_open f) as [v0|e] eqn:Ho.
  2: { eexists _, _. split; [done|]. intros _. exists e.
       cbn [trace]. by rewrite last_snoc. }
  rewrite NormalizerFacts.lookup_fresh.
  assert (forall w0,
    exists result w',
    match
      (let (r0, s') := resize_to_500 (length h) w0 in
       match r0 with
       | Ok a => (let '(img, buffer) := a in enforce_budget img buffer) s'
       | Raise e => (Raise e, s')
       end)
    with
    | (Ok a, s') => (Ok a, s')
    | (Raise e, s') =>
        (Ok None,
         mkWorld (heap s')
           (trace s' ++ [StError ("Error compressing image: " ++ e)%string]))
    end = (Ok result, w')
    /\ (result = None ->
        exists e,
          last (trace w')
          = Some (StError ("Error compressing image: " ++ e)%string)))
    as Hslow.
  { intros w0.
    destruct (resize_to_500 (length h) w0) as [[[img b0]|e] w1] eqn:Hr.
    - destruct (enforce_budget img b0 w1) as [[[b|]|e] w2] eqn:He.
      + eexists _, _. split; [done|]. done.
      + by apply enforce_budget_not_none in He.
      + eexists _, _. split; [done|]. intros _. exists e.
        cbn [trace]. by rewrite last_snoc.
    - eexists _, _. split; [done|]. intros _. exists e.
      cbn [trace]. by rewrite last_snoc. }
  destruct (blen f <=? 250000); cbn [andb]; [|apply Hslow].
  destruct (pil_format v0) as [fmt|]; [|apply Hslow].
  destruct (fmt =? "PNG")%string; [|apply Hslow].
  eexists _, _. split; [done|]. done.
Qed.

(** [compress_image] never raises, and a [None] result always comes with
    an error message: the last thing logged is then the [st.error] of
    line 97. *)
Theorem compress_image_failure_is_reported f w :
  exists result w',
    compress_image f w = (Ok result, w')
    /\ (result = None ->
        exists e,
          last (trace w')
          = Some (StError ("Error compressing image: " ++ e)%string)).
Proof. apply compress_image_returns. Qed.

(** An upload that Pillow cannot open: [compress_image] returns [None]
    after showing the exception text, [get_image_format] returns [None] and
    [verify_png_format] returns [False]; none of them creates an image
    object or makes another library call. *)
Theorem undecodable_upload f w e :
  pil_open f = Raise e ->
  compress_image f w =
    (Ok None,
     mkWorld (heap w)
       (trace w ++ [PilOpen f;
                    StError ("Error compressing image: " ++ e)%string]))
  /\ get_image_format f w =
      (Ok None, mkWorld (heap w) (trace w ++ [PilOpen f]))
  /\ verify_png_format f w =
      (Ok false, mkWorld (heap w) (trace w ++ [PilOpen f])).
Proof.
  intros Ho. destruct w as [h t].
  unfold compress_image, get_image_format, verify_png_format.
  unfold_calls. rewrite Ho. by rewrite <- app_assoc.
Qed.

(** [verify_png_format] answers exactly whether [get_image_format] is
    ['PNG']: on every file the two leave the same store and log, and the
    first returns [True] if and only if the second returns ['PNG']. *)
Theorem verify_agrees_with_get_format f w :
  exists format w',
    get_image_format f w = (Ok format, w')
    /\ verify_png_format f w
       = (Ok (match format with
              | Some fmt => (fmt =? "PNG")%string
              | None => false
              end), w').
Proof.
  destruct w as [h t]. unfold get_image_format, verify_png_format.
  unfold_calls. destruct (pil_open f) as [v|e]; [|by eexists _, _].
  rewrite NormalizerFacts.lookup_fresh. by eexists _, _.
Qed.

(** When the 500x500 re-encode has at most 250,000 bytes it is what
    [compress_image] returns: no warning is shown, no copy is made and
    nothing is converted to grayscale. *)
Theorem within_budget_returned_directly f w img b w1 :
  reaches_budget_check f w img b w1 ->
  blen b <= 250000 ->
  compress_image f w = (Ok (Some b), w1).
Proof.
  intros Hr Hle. apply (NormalizerFacts.compress_image_via_budget _ _ _ _ _ _ _ Hr).
  unfold enforce_budget. apply Z.ltb_ge in Hle. by rewrite Hle.
Qed.

(** Every buffer [compress_image] returns passes the program's own
    [verify_png_format], provided Pillow reads back as PNG what it saved as
    PNG. *)
Theorem returned_buffer_verifies f w b w' :
  reads_back_as_png ->
  compress_image f w = (Ok (Some b), w') ->
  exists v,
    verify_png_format b w' =
      (Ok true, mkWorld (heap w' ++ [v]) (trace w' ++ [PilOpen b])).
Proof.
  intros Hback Hrun.
  assert (exists v, pil_open b = Ok v /\ pil_format v = Some "PNG"%string)
    as (v & Ho & Hf).
  { destruct (compress_image_some _ _ _ _ Hrun)
      as [(-> & _ & Hpng)|(v & opt & q & Hs & _)]; [done|].
    by eapply Hback. }
  exists v. destruct w' as [h t]. unfold verify_png_format. unfold_calls.
  by rewrite Ho, NormalizerFacts.lookup_fresh, Hf.
Qed.

Lemma resize_to_500_frame (h : list Img) v0 t :
  take (length h) (heap (resize_to_500 (length h) (mkWorld (h ++ [v0]) t)).2) = h.
Proof.
  unfold resize_to_500, auto_crop. unfold_calls.
  rewrite NormalizerFacts.lookup_fresh.
  repeat (case_match; simplify_eq; cbn [snd heap] in * );
    cbn [snd heap];
    rewrite ?take_insert_ge by (rewrite ?length_app; cbn [length]; lia);
    rewrite <- ?app_assoc; by rewrite take_app_length.
Qed.

Lemma enforce_budget_frame img b0 w :
  heap w `prefix_of` heap (enforce_budget img b0 w).2.
Proof.
  destruct w as [h t]. unfold enforce_budget.
  destruct (250000 <? blen b0); [|done].
  cbv [mbind mret M_bind M_ret bind ret st_warning emit heap trace].
  pose proof (NormalizerFacts.aggressive_loop_frame img
                [(400, 400); (300, 300); (200, 200)]
                (mkWorld h (t ++ [StWarning
                   "Image is large, attempting further compression..."])))
    as Hp.
  fold (aggressive_compress img) in Hp.
  destruct (aggressive_compress img _) as [[[b1|]|e] [h1 t1]];
    cbn [snd heap] in *; [done| |done].
  unfold_calls.
  repeat (case_match; simplify_eq; cbn [snd heap] in * ); try done.
  all: by apply prefix_app_r.
Qed.

(** [compress_image] leaves every image object that existed before the
    call as it was: the store it ends with extends the store it started
    with.  (The objects it thumbnails in place are ones it created.) *)
Theorem compress_image_frame f w :
  heap w `prefix_of` heap (compress_image f w).2.
Proof.
  destruct w as [h t]. unfold compress_image.
  cbv [Image_open img_format mbind mret M_bind M_ret bind ret lift
       try_except emit alloc read st_error heap trace].
  destruct (pil_open f) as [v0|e] eqn:Ho; [|done].
  rewrite NormalizerFacts.lookup_fresh.
  assert (forall t0,
    h `prefix_of`
    heap (match
      (let (r0, s') := resize_to_500 (length h) (mkWorld (h ++ [v0]) t0) in
       match r0 with
       | Ok a => (let '(img, buffer) := a in enforce_budget img buffer) s'
       | Raise e => (Raise e, s')
       end)
    with
    | (Ok a, s') => (Ok a, s')
    | (Raise e, s') =>
        (Ok None,
         mkWorld (heap s')
           (trace s' ++ [StError ("Error compressing image: " ++ e)%string]))
    end).2) as Hslow.
  { intros t0. pose proof (resize_to_500_frame h v0 t0) as Hr.
    destruct (resize_to_500 (length h) _) as [[[img b0]|e] w1];
      cbn [snd] in Hr.
    - pose proof (enforce_budget_frame img b0 w1) as He.
      assert (h `prefix_of` heap w1) as Hh
        by (rewrite <- Hr at 1; apply prefix_take).
      destruct (enforce_budget img b0 w1) as [[r|e] w2]; cbn [snd heap] in *;
        by etrans.
    - cbn [snd heap]. rewrite <- Hr at 1. apply prefix_take. }
  destruct (blen f <=? 250000); cbn [andb]; [|apply Hslow].
  destruct (pil_format v0) as [fmt|]; [|apply Hslow].
  destruct (fmt =? "PNG")%string; [|apply Hslow].
  cbn [snd heap]. by apply prefix_app_r.
Qed.
End Runs.

(** *** Runs on the sample libraries *)

Section SampleRuns.
Import Samples MoreSamples.

Lemma profiled_run :
  compress_image profiled_jpeg empty_world
  = (Ok (Some (zeros 487939)), profiled_end).
Proof.
  apply (NormalizerFacts.compress_image_grayscale (P := sample_pillow)
           profiled_jpeg empty_world 1%nat (zeros 862939) _
           (rgb 500 375 300000)
           (rgb 400 300 300000) (zeros 660364)
           (rgb 300 225 300000) (zeros 502789)
           (rgb 200 150 300000) (zeros 390214)
           (gray 500 375 300000) (zeros 487939)
           NormalizerFacts.profiled_reaches).
  all: first [ apply NormalizerFacts.zeros_large; lia
             | by apply (NormalizerFacts.sample_cap_pass _ (rgb 500 375 300000))
             | reflexivity ].
Qed.

(** On the JPEG with the 300,000-byte profile the buffer returned has
    487,939 bytes, and the last call is the grayscale save. *)
Lemma over_budget_only_from_grayscale_witness :
  exists g, last (trace profiled_end) = Some (PilSave g "PNG" true (Some 70)).
Proof.
  apply (over_budget_only_from_grayscale (P := sample_pillow)
           profiled_jpeg empty_world (zeros 487939) profiled_end profiled_run).
  apply NormalizerFacts.zeros_large. lia.
Defined.

Lemma not_an_image_raises :
  pil_open (Pillow := sample_pillow) not_an_image
  = Raise "cannot identify image file".
Proof. reflexivity. Qed.

(** On a file that is no image. *)
Lemma undecodable_upload_witness :
  compress_image not_an_image empty_world =
    (Ok None,
     mkWorld []
       [PilOpen not_an_image;
        StError "Error compressing image: cannot identify image file"])
  /\ get_image_format not_an_image empty_world =
      (Ok None, mkWorld [] [PilOpen not_an_image])
  /\ verify_png_format not_an_image empty_world =
      (Ok false, mkWorld [] [PilOpen not_an_image]).
Proof.
  exact (undecodable_upload (P := sample_pillow)
           not_an_image empty_world _ not_an_image_raises).
Defined.

(** On a file that is no image the result is [None] and the last event is
    the error message. *)
Lemma compress_image_failure_is_reported_witness :
  exists result w',
    compress_image not_an_image empty_world = (Ok result, w')
    /\ (result = None ->
        exists e,
          last (trace w')
          = Some (StError ("Error compressing image: " ++ e)%string)).
Proof.
  exact (compress_image_failure_is_reported (P := sample_pillow)
           not_an_image empty_world).
Defined.

Lemma small_jpeg_reaches :
  reaches_budget_check small_jpeg empty_world 1%nat (zeros 19344)
    (at_budget_check small_jpeg (jpeg 80 80 0) (rgb 80 80 0)).
Proof. by apply NormalizerFacts.jpeg_reaches. Qed.

(** On an 80x80 JPEG, whose PNG re-encode has 19,344 bytes. *)
Lemma within_budget_returned_directly_witness :
  compress_image small_jpeg empty_world =
    (Ok (Some (zeros 19344)),
     at_budget_check small_jpeg (jpeg 80 80 0) (rgb 80 80 0)).
Proof.
  apply (within_budget_returned_directly (P := sample_pillow)
           small_jpeg empty_world 1%nat (zeros 19344) _ small_jpeg_reaches).
  apply NormalizerFacts.zeros_fit. lia.
Defined.

Lemma echo_reads_back : reads_back_as_png (P := echo_pillow).
Proof.
  intros v optimize quality b [= <-]. by exists (x89 :: tail v).
Qed.

Lemma echo_run :
  compress_image (P := echo_pillow) echo_jpeg echo_start =
    (Ok (Some [x89; x01; x02]), echo_end).
Proof. reflexivity. Qed.

(** On the second sample library: the JPEG comes back re-tagged as PNG and
    passes [verify_png_format]. *)
Lemma returned_buffer_verifies_witness :
  exists v,
    verify_png_format (P := echo_pillow) [x89; x01; x02] echo_end
    = (Ok true,
       mkWorld (P := echo_pillow) (heap echo_end ++ [v])
         (trace echo_end ++ [PilOpen [x89; x01; x02]])).
Proof.
  exact (returned_buffer_verifies (P := echo_pillow)
           echo_jpeg echo_start _ _ echo_reads_back echo_run).
Defined.
End SampleRuns.
End NormalizerMore.

(** ** The base64 payload: facts *)

Module EncodingFacts.
Import Validator Encoding.

Example b64_Man : b64encode [x4d; x61; x6e] = "TWFu"%string.
Proof. reflexivity. Qed.
Example b64_Ma : b64encode [x4d; x61] = "TWE="%string.
Proof. reflexivity. Qed.
Example b64_M : b64encode [x4d] = "TQ=="%string.
Proof. reflexivity. Qed.
Example b64_ff : b64encode [xff; xfe; xfd; xfb] = "//79+w=="%string.
Proof. reflexivity. Qed.

Lemma by_threes (Q : bytes -> Prop) :
  Q [] -> (forall a, Q [a]) -> (forall a b, Q [a; b]) ->
  (forall a b c rest, Q rest -> Q (a :: b :: c :: rest)) ->
  forall data, Q data.
Proof.
  intros H0 H1 H2 H3 data.
  assert (Q data /\ (forall a, Q (a :: data)) /\ (forall a b, Q (a :: b :: data)))
    as [H _]; [|exact H].
  induction data as [|c rest (IH0 & IH1 & IH2)]; [by auto|].
  split; [apply IH1|]. split; [intros a; apply IH2|].
  intros a b. by apply H3.
Qed.

Lemma b64encode_length data :
  utf8_len (b64encode data) = 4 * ((blen data + 2) / 3).
Proof.
  induction data as [|a|a b|a b c rest IH] using by_threes.
  - reflexivity.
  - reflexivity.
  - reflexivity.
  - cbn [b64encode]. unfold utf8_len in *. cbn [String.length].
    rewrite !Nat2Z.inj_succ, IH. unfold blen. cbn [length].
    rewrite !Nat2Z.inj_succ.
    replace (Z.succ (Z.succ (Z.succ (Z.of_nat (length rest)))) + 2)
      with ((Z.of_nat (length rest) + 2) + 1 * 3) by lia.
    rewrite Z.div_add by lia. lia.
Qed.

Lemma b64encode_empty data : b64encode data = EmptyString <-> data = [].
Proof.
  split; [|by intros ->].
  destruct data as [|a [|b [|c rest]]]; done.
Qed.

Lemma b64encode_gate file :
  (validate_input (Some (b64encode file)) = (true, EmptyString)
   <-> 0 < blen file <= 196500)
  /\ (196500 < blen file ->
      validate_input (Some (b64encode file)) =
        (false,
         ("Image too large (" ++ str_of_int (4 * ((blen file + 2) / 3))
          ++ " bytes). Maximum allowed is 262144 bytes.")%string)).
Proof.
  pose proof (b64encode_length file) as Hlen.
  pose proof (Z.div_mod (blen file + 2) 3 ltac:(lia)) as Hdm.
  pose proof (Z.mod_pos_bound (blen file + 2) 3 ltac:(lia)) as Hmod.
  assert (0 <= blen file) as Hnn by (unfold blen; lia).
  split; [split|].
  - intros Hv.
    destruct (b64encode file) as [|a s] eqn:He; [done|].
    cbn [validate_input] in Hv.
    destruct (262000 <? utf8_len (String a s)) eqn:Hl; [done|].
    apply Z.ltb_ge in Hl.
    assert (blen file <> 0).
    { intros H0. destruct file; [done|]. unfold blen in H0. cbn in H0. lia. }
    lia.
  - intros Hb.
    destruct (b64encode file) as [|a s] eqn:He.
    { apply b64encode_empty in He as ->. unfold blen in Hb. cbn in Hb. lia. }
    cbn [validate_input].
    destruct (262000 <? utf8_len (String a s)) eqn:Hl; [|done].
    apply Z.ltb_lt in Hl. lia.
  - intros Hb.
    rewrite ValidatorFacts.validate_oversized by lia.
    by rewrite Hlen.
Qed.

(** [get_image_base64] always returns a payload and shows no error; the
    payload has 4 characters for every 3 bytes of the buffer begun, and it
    passes [validate_input] exactly when the buffer has between 1 and
    196,500 bytes.  So a buffer that meets the 250,000-byte budget of
    [compress_image] but has more than 196,500 bytes is rejected as too
    large. *)
Theorem payload_accepted_iff file shown :
  exists payload,
    get_image_base64 file shown = (Ok (Some payload), shown)
    /\ utf8_len payload = 4 * ((blen file + 2) / 3)
    /\ (validate_input (Some payload) = (true, EmptyString)
        <-> 0 < blen file <= 196500)
    /\ (196500 < blen file ->
        validate_input (Some payload) =
          (false,
           ("Image too large (" ++ str_of_int (utf8_len payload)
            ++ " bytes). Maximum allowed is 262144 bytes.")%string)).
Proof.
  exists (b64encode file). split; [done|].
  split; [apply b64encode_length|].
  rewrite b64encode_length. apply b64encode_gate.
Qed.

Lemma get_in n s c :
  String.get n s = Some c -> In c (list_ascii_of_string s).
Proof.
  revert n. induction s as [|a s IH]; intros n; [done|].
  destruct n as [|n]; cbn.
  - intros [= ->]. by left.
  - intros H. right. by eapply IH.
Qed.

Lemma b64_char_in i :
  In (b64_char i) (list_ascii_of_string (b64_alphabet ++ "=")).
Proof.
  unfold b64_char.
  destruct (String.get (Z.to_nat i) b64_alphabet) as [c|] eqn:Hg.
  - apply get_in in Hg.
    change (list_ascii_of_string (b64_alphabet ++ "="))
      with (list_ascii_of_string b64_alphabet ++ ["="%char]).
    apply in_app_iff. by left.
  - change (list_ascii_of_string (b64_alphabet ++ "="))
      with (list_ascii_of_string b64_alphabet ++ ["="%char]).
    apply in_app_iff. right. by left.
Qed.

(** The payload consists of the 64 characters of the base64 alphabet and
    the padding character only, so it is ASCII and one byte per character
    in UTF-8. *)
Lemma b64encode_ascii file :
  Forall (fun c => In c (list_ascii_of_string (b64_alphabet ++ "=")))
    (list_ascii_of_string (b64encode file)).
Proof.
  assert (In "="%char (list_ascii_of_string (b64_alphabet ++ "="))) as Hpad.
  { change (list_ascii_of_string (b64_alphabet ++ "="))
      with (list_ascii_of_string b64_alphabet ++ ["="%char]).
    apply in_app_iff. right. by left. }
  induction file as [|a|a b|a b c rest IH] using by_threes;
    cbn [b64encode list_ascii_of_string];
    repeat (constructor; [first [apply b64_char_in | exact Hpad]|]);
    first [done | by constructor].
Qed.
Lemma blen_zeros_250000 : blen (Samples.zeros 250000) = 250000.
Proof. by apply NormalizerFacts.blen_zeros. Qed.

(** On a buffer of exactly 250,000 bytes, the largest [compress_image] is
    meant to return: its payload has 333,336 characters and is rejected. *)
Lemma payload_accepted_iff_witness :
  exists payload,
    get_image_base64 (Samples.zeros 250000) []
    = (Ok (Some payload), [])
    /\ utf8_len payload = 333336
    /\ validate_input (Some payload) =
         (false,
          "Image too large (333336 bytes). Maximum allowed is 262144 bytes."%string).
Proof.
  destruct (payload_accepted_iff (Samples.zeros 250000) [])
    as (payload & Hrun & Hlen & _ & Hbig).
  rewrite blen_zeros_250000 in Hlen, Hbig.
  exists payload. split; [exact Hrun|]. split; [exact Hlen|].
  rewrite Hbig by lia. by rewrite Hlen.
Defined.

End EncodingFacts.

(** ** The orchestrator: further facts *)

Module OrchestratorMore.
Import Validator Orchestrator OrchestratorSpec OrchestratorMoreSpec.

Section Runs.
Context {Sv : Services}.
Implicit Types (w : World) (arn : pyval) (t : list Event).

Ltac unfold_calls :=
  cbv [poll_once sfn_describe_execution subscript_status post
       response_json st_error st_info st_spinner time_sleep emit
       mbind mret M_bind M_ret bind ret raise lift try_except
       polls trace].

Lemma status_queries_app t1 t2 :
  status_queries (t1 ++ t2) = (status_queries t1 + status_queries t2)%nat.
Proof.
  induction t1 as [|e t1 IH]; [done|].
  destruct e; cbn; rewrite ?IH; done.
Qed.

Lemma delays_app t1 t2 : delays (t1 ++ t2) = (delays t1 + delays t2)%nat.
Proof.
  induction t1 as [|e t1 IH]; [done|].
  destruct e; cbn; rewrite ?IH; done.
Qed.

Lemma posts_app t1 t2 : posts (t1 ++ t2) = (posts t1 + posts t2)%nat.
Proof.
  induction t1 as [|e t1 IH]; [done|].
  destruct e; cbn; rewrite ?IH; done.
Qed.

Lemma poll_events_no_post t :
  Forall poll_event t -> posts t = 0%nat /\ forall url p, ~ In (HttpPost url p) t.
Proof.
  induction 1 as [|e t He Ht [IH1 IH2]]; [split; [done | by intros ? ? []]|].
  destruct e; try done; cbn; (split; [done|]);
    intros url p [?|?]; try done; by eapply IH2.
Qed.

(** One pass of the loop, whatever the service answers: it does not raise,
    makes one query and at most one sleep, and returns only with one of
    five statuses. *)
Lemma poll_once_shape arn delay p t :
  exists r events,
    poll_once arn delay (mkWorld p t) = (Ok r, mkWorld (S p) (t ++ events))
    /\ Forall poll_event events
    /\ status_queries events = 1%nat
    /\ (delays events <= 1)%nat
    /\ match r with
       | Some result =>
           In (status_of result)
             ["SUCCEEDED"; "FAILED"; "TIMED_OUT"; "ABORTED"; "ERROR"]%string
           /\ (forall s o, result = WithOutput s o -> s = "SUCCEEDED"%string)
       | None => True
       end.
Proof.
  unfold_calls.
  destruct (describe_execution arn p) as [e|[s|] output error].
  - eexists _, _. split; [by rewrite <- app_assoc|].
    repeat split; [repeat constructor | cbn; lia | cbn; auto 10 | done].
  - destruct (s =? "SUCCEEDED")%string eqn:Hs.
    + apply String.eqb_eq in Hs as ->.
      destruct (json_loads _) as [x|e|e].
      * eexists _, _. split; [done|].
        repeat split; [repeat constructor | cbn; lia | cbn; auto 10 |].
        by intros ? ? [= <- _].
      * eexists _, _. split; [by rewrite <- app_assoc|].
        repeat split; [repeat constructor | cbn; lia | cbn; auto 10 | done].
      * eexists _, _. split; [by rewrite <- app_assoc|].
        repeat split; [repeat constructor | cbn; lia | cbn; auto 10 | done].
    + destruct ((s =? "FAILED")%string || (s =? "TIMED_OUT")%string
                || (s =? "ABORTED")%string) eqn:Ht.
      * eexists _, _. split; [by rewrite <- app_assoc|].
        repeat split; [repeat constructor | cbn; lia | | done].
        cbn [status_of].
        repeat (apply orb_prop in Ht as [Ht|Ht]);
          apply String.eqb_eq in Ht as ->; cbn; auto 10.
      * destruct (delay <? 0).
        -- eexists _, _. split; [by rewrite <- app_assoc|].
           repeat split;
             [repeat constructor | cbn; lia | cbn; auto 10 | done].
        -- eexists _, _. split; [by rewrite <- app_assoc|].
           repeat split; [repeat constructor | cbn; lia ].
  - eexists _, _. split; [by rewrite <- app_assoc|].
    repeat split; [repeat constructor | cbn; lia | cbn; auto 10 | done].
Qed.

Lemma poll_loop_shape arn delay n : forall p t,
  exists r p' events,
    poll_loop arn n delay (mkWorld p t) = (Ok r, mkWorld p' (t ++ events))
    /\ Forall poll_event events
    /\ status_queries events = (p' - p)%nat
    /\ (p <= p' <= p + n)%nat
    /\ (delays events <= status_queries events)%nat
    /\ In (status_of r) result_statuses
    /\ (forall s o, r = WithOutput s o -> s = "SUCCEEDED"%string)
    /\ (status_of r = "TIMEOUT"%string -> p' = (p + n)%nat).
Proof.
  induction n as [|n IH]; intros p t.
  - exists (WithError "TIMEOUT" "Maximum polling attempts reached"), p, [].
    cbn [poll_loop]. unfold mret, M_ret, ret. rewrite app_nil_r.
    repeat split; try done; try (cbn; lia). cbn; auto 10.
  - destruct (poll_once_shape arn delay p t)
      as (r & ev1 & Hrun & Hev & Hq & Hd & Hr).
    cbn [poll_loop]. unfold mbind, M_bind, bind. rewrite Hrun.
    destruct r as [result|].
    + exists result, (S p), ev1. unfold mret, M_ret, ret.
      destruct Hr as [Hin Hout].
      repeat split; try done; try lia.
      * cbn in Hin |- *. intuition.
      * intros Ht. rewrite Ht in Hin. cbn in Hin.
        intuition discriminate.
    + destruct (IH (S p) (t ++ ev1))
        as (r & p' & ev2 & Hrun2 & Hev2 & Hq2 & Hp & Hd2 & Hin & Hout & Ht).
      exists r, p', (ev1 ++ ev2). rewrite Hrun2, <- app_assoc.
      repeat split; try done; try lia.
      * by apply Forall_app.
      * rewrite status_queries_app. lia.
      * rewrite delays_app, status_queries_app. lia.
      * intros H. specialize (Ht H). lia.
Qed.

Lemma poll_status_shape arn max_attempts delay p t :
  exists r p' events,
    poll_execution_status arn max_attempts delay (mkWorld p t)
    = (Ok r, mkWorld p' (t ++ client_event :: events))
    /\ Forall poll_event events
    /\ status_queries events = (p' - p)%nat
    /\ (p <= p' <= p + max_attempts)%nat
    /\ (delays events <= status_queries events)%nat
    /\ In (status_of r) result_statuses
    /\ (forall s o, r = WithOutput s o -> s = "SUCCEEDED"%string)
    /\ (status_of r = "TIMEOUT"%string -> p' = (p + max_attempts)%nat).
Proof.
  unfold poll_execution_status.
  cbv [mbind M_bind bind emit polls trace].
  destruct (poll_loop_shape arn delay max_attempts p (t ++ [client_event]))
    as (r & p' & ev & Hrun & Hrest).
  exists r, p', ev. unfold client_event in *. rewrite Hrun.
  by rewrite <- app_assoc.
Qed.

(** Whatever the service answers, [poll_execution_status] returns (it does
    not raise), makes at most [max_attempts] status queries and never more
    sleeps than queries, returns one of six statuses, an output only with
    SUCCEEDED, and TIMEOUT only after all [max_attempts] queries. *)
Theorem poll_execution_status_bounded arn max_attempts delay w :
  exists r w' events,
    poll_execution_status arn max_attempts delay w = (Ok r, w')
    /\ trace w' = trace w ++ client_event :: events
    /\ status_queries events = (polls w' - polls w)%nat
    /\ (status_queries events <= max_attempts)%nat
    /\ (delays events <= status_queries events)%nat
    /\ In (status_of r) result_statuses
    /\ (forall s o, r = WithOutput s o -> s = "SUCCEEDED"%string)
    /\ (status_of r = "TIMEOUT"%string -> status_queries events = max_attempts).
Proof.
  destruct w as [p t].
  destruct (poll_status_shape arn max_attempts delay p t)
    as (r & p' & ev & Hrun & Hev & Hq & Hp & Hd & Hin & Hout & Ht).
  exists r, (mkWorld p' (t ++ client_event :: ev)), ev.
  cbn [polls trace].
  repeat split; try done; try lia.
  intros H. specialize (Ht H). lia.
Qed.











Ltac unfold_trigger :=
  unfold trigger_analysis;
  cbv [post response_json st_error st_info st_spinner emit py_get
       mbind mret M_bind M_ret bind ret raise lift try_except
       polls trace].

Lemma validate_true image message :
  validate_input image = (true, message) ->
  exists s, image = Some s /\ 0 < utf8_len s <= 262000.
Proof.
  destruct image as [s|]; [|done].
  destruct s as [|a s]; [done|]. cbn [validate_input].
  destruct (262000 <? utf8_len (String a s)) eqn:Hl; [done|].
  intros _. exists (String a s). split; [done|].
  apply Z.ltb_ge in Hl. split; [|done].
  unfold utf8_len. cbn [String.length]. lia.
Qed.

(** A payload that [validate_input] rejects is never sent: the call shows
    the validation message, returns [None], and makes no HTTP request and
    no status query. *)
Theorem invalid_payload_never_submitted image w :
  (validate_input image).1 = false ->
  trigger_analysis image w =
    (Ok None,
     mkWorld (polls w) (trace w ++ [StError (validate_input image).2])).
Proof.
  intros H. destruct w as [p t]. unfold_trigger.
  destruct (validate_input image) as [valid message].
  cbn [fst snd] in *. by subst valid.
Qed.

(** When the submission itself fails, the result is [None] and no status
    query is made: an exception from [requests.post] and a body that is not
    JSON are reported as "Error in analysis", a status code other than 200
    with the code and the response text. *)
Theorem submission_failure_gives_none image w :
  validate_input (Some image) = (true, EmptyString) ->
  let sent := [StSpinner "Starting analysis...";
               HttpPost API_ENDPOINT (submission_payload image)] in
  (forall e,
      requests_post API_ENDPOINT (submission_payload image) = HttpRaises e ->
      trigger_analysis (Some image) w =
        (Ok None,
         mkWorld (polls w)
           (trace w ++ sent ++ [StError ("Error in analysis: " ++ e)%string])))
  /\ (forall status_code text,
      requests_post API_ENDPOINT (submission_payload image)
      = HttpResponse status_code text ->
      status_code <> 200 ->
      trigger_analysis (Some image) w =
        (Ok None,
         mkWorld (polls w)
           (trace w ++ sent
              ++ [StError ("API Error: " ++ str_of_int status_code)%string;
                  StError ("Response: " ++ text)%string])))
  /\ (forall text e,
      requests_post API_ENDPOINT (submission_payload image)
      = HttpResponse 200 text ->
      json_loads text = JSONDecodeError e ->
      trigger_analysis (Some image) w =
        (Ok None,
         mkWorld (polls w)
           (trace w ++ sent ++ [StError ("Error in analysis: " ++ e)%string]))).
Proof.
  intros Hvalid sent. destruct w as [p t]. subst sent.
  repeat split.
  - intros e Hpost. unfold_trigger. rewrite Hvalid. cbn [negb].
    fold (submission_payload image). rewrite Hpost.
    by rewrite <- !app_assoc.
  - intros code text Hpost Hcode. unfold_trigger. rewrite Hvalid. cbn [negb].
    fold (submission_payload image). rewrite Hpost.
    apply Z.eqb_neq in Hcode. rewrite Hcode.
    by rewrite <- !app_assoc.
  - intros text e Hpost Hjson. unfold_trigger. rewrite Hvalid. cbn [negb].
    fold (submission_payload image). rewrite Hpost.
    cbn. rewrite Hjson.
    by rewrite <- !app_assoc.
Qed.

(** When polling ends with any status other than SUCCEEDED, the result is
    [None] and the last message shown is "Analysis failed:" with the error
    of the poll result; no section is extracted. *)
Theorem failed_job_gives_none image w text result arn r w2 :
  validate_input (Some image) = (true, EmptyString) ->
  requests_post API_ENDPOINT (submission_payload image)
  = HttpResponse 200 text ->
  json_loads text = Loaded result ->
  py_get result "executionArn" PNone = Ok arn ->
  truthy arn = true ->
  poll_execution_status arn 30 2
    (mkWorld (polls w) (trace w ++ submit_events image)) = (Ok r, w2) ->
  status_of r <> "SUCCEEDED"%string ->
  trigger_analysis (Some image) w =
    (Ok None,
     mkWorld (polls w2)
       (trace w2 ++ [StError ("Analysis failed: " ++ error_text r)%string])).
Proof.
  intros Hvalid Hpost Hjson Hkey Harn Hpoll Hs.
  destruct w as [p t], w2 as [p2 t2]. cbn [polls trace] in *.
  unfold trigger_analysis. rewrite Hvalid. cbn [negb].
  cbv [post response_json st_error st_info st_spinner emit
       mbind mret M_bind M_ret bind ret raise lift try_except
       polls trace].
  fold (submission_payload image). rewrite Hpost. cbn -[poll_execution_status py_get].
  rewrite Hjson. cbn -[poll_execution_status py_get].
  rewrite Hkey. cbn -[poll_execution_status py_get]. rewrite Harn.
  unfold submit_events in Hpoll. rewrite <- !app_assoc in *. cbn [app] in *.
  rewrite Hpoll. apply String.eqb_neq in Hs. by rewrite Hs.
Qed.

Lemma poll_event_not_post e : poll_event e -> not_post e.
Proof. by destruct e. Qed.

Lemma not_post_count t : Forall not_post t -> posts t = 0%nat.
Proof.
  induction 1 as [|e t He Ht IH]; [done|]. by destruct e.
Qed.

Lemma shape_rejected image message p :
  validate_input image = (false, message) ->
  trigger_shape image p None p [StError message].
Proof.
  intros Hv. split; [lia|]. split; [done|]. split; [eauto|].
  split; [cbn; lia|]. split; [by intros url payload [?|[]]|].
  intros s -> [Hpos Hle]. exfalso.
  destruct s as [|a s]; [done|]. cbn [validate_input] in Hv.
  apply Z.ltb_ge in Hle. by rewrite Hle in Hv.
Qed.

Lemma shape_sent s p p' r tail :
  0 < utf8_len s <= 262000 ->
  Forall not_post tail ->
  (p <= p' <= p + 30)%nat ->
  (forall d, r = Some d -> map fst d = section_keys) ->
  (r = None -> exists message, last tail = Some (StError message)) ->
  trigger_shape (Some s) p r p'
    (StSpinner "Starting analysis..."
     :: HttpPost API_ENDPOINT (submission_payload s) :: tail).
Proof.
  intros Hlen Htail Hp Hkeys Hnone.
  split; [done|]. split; [done|]. split; [|split].
  - intros Hr. destruct (Hnone Hr) as [message Hlast].
    exists message. destruct tail as [|e tail]; [done|]. exact Hlast.
  - cbn [posts]. rewrite (not_post_count _ Htail). lia.
  - split.
    + intros url payload [?|[[= <- <-]|Hin]]; [done|eauto|].
      rewrite List.Forall_forall in Htail. by apply Htail in Hin.
    + intros s0 [= <-] _. eauto.
Qed.

Lemma py_get_cases x k dflt :
  (exists d, x = PDict d /\ py_get x k dflt = Ok (default dflt (dict_get k d)))
  \/ (exists e, py_get x k dflt = Raise e).
Proof. destruct x; cbn; eauto. Qed.

Ltac close_branch Hlen :=
  eexists _, _, _; (split; [reflexivity|]); cbn [polls trace];
  (split; [rewrite <- ?app_assoc; cbn [app]; reflexivity|]);
  apply shape_sent; [exact Hlen | | lia | done | eauto].

Ltac close_failed Hlen Hfail :=
  eexists _, _, _; (split; [reflexivity|]); cbn [polls trace];
  (split; [rewrite <- ?app_assoc; cbn [app]; reflexivity|]);
  apply shape_sent; [exact Hlen | apply Hfail | lia | done
                    | intros _; apply Hfail].

(** What [trigger_analysis] does in every case. *)
Lemma trigger_analysis_shape image w :
  exists r w' events,
    trigger_analysis image w = (Ok r, w')
    /\ trace w' = trace w ++ events
    /\ trigger_shape image (polls w) r (polls w') events.
Proof.
  destruct w as [p t].
  destruct (validate_input image) as [valid message] eqn:Hv.
  destruct valid; cycle 1.
  { eexists _, _, _. unfold_trigger. rewrite Hv. cbn [negb].
    split; [reflexivity|]. cbn [polls trace]. split; [reflexivity|].
    by apply shape_rejected. }
  destruct (validate_true _ _ Hv) as (s & -> & Hlen).
  unfold trigger_analysis. rewrite Hv. cbn [negb].
  cbv [post response_json st_error st_info st_spinner emit
       mbind mret M_bind M_ret bind ret raise lift try_except
       polls trace].
  fold (submission_payload s).
  destruct (requests_post _ _) as [e|code text].
  { close_branch Hlen. repeat constructor. }
  destruct (code =? 200).
  2: { close_branch Hlen. repeat constructor. }
  destruct (json_loads text) as [result|e|e].
  2,3: (close_branch Hlen; repeat constructor).
  destruct (py_get result "executionArn" PNone) as [arn|e] eqn:Hget.
  2: { close_branch Hlen. repeat constructor. }
  destruct (truthy arn).
  2: { close_branch Hlen. repeat constructor. }
  match goal with
  | |- context [poll_execution_status arn 30 2 (mkWorld p ?t0)] =>
      destruct (poll_status_shape arn 30 2 p t0)
        as (r & p' & ev & Hrun & Hev & _ & Hp & _ & _ & Hout & _);
      rewrite Hrun
  end.
  assert (Forall not_post ev) as Hnp
    by (eapply Forall_impl; [exact Hev | exact poll_event_not_post]).
  assert (forall msg,
    Forall not_post
      (StInfo "Analysis started..." :: client_event :: ev ++ [StError msg])
    /\ exists m, last (StInfo "Analysis started..." :: client_event
                       :: ev ++ [StError msg]) = Some (StError m))
    as Hfail.
  { intros msg. split.
    - do 2 (constructor; [done|]).
      apply Forall_app_2; [done | by repeat constructor].
    - exists msg.
      change (StInfo "Analysis started..." :: client_event
              :: ev ++ [StError msg])
        with ((StInfo "Analysis started..." :: client_event :: ev)
              ++ [StError msg]).
      apply last_snoc. }
  destruct (status_of r =? "SUCCEEDED")%string eqn:Hs.
  2: { close_failed Hlen Hfail. }
  cbn beta iota.
  destruct (py_get_cases (output_of r) "visual_analysis" (PDict []))
    as [(d & Hd & ->)|[e ->]].
  2: { close_failed Hlen Hfail. }
  destruct (py_get_cases (output_of r) "activity_pattern" (PDict []))
    as [(d2 & Hd2 & ->)|[e ->]].
  2: { close_failed Hlen Hfail. }
  destruct (py_get_cases (output_of r) "productivity_assessment" (PDict []))
    as [(d3 & Hd3 & ->)|[e ->]].
  2: { close_failed Hlen Hfail. }
  eexists _, _, _. split; [reflexivity|]. cbn [polls trace].
  split; [rewrite <- ?app_assoc; cbn [app]; reflexivity|].
  apply shape_sent; [exact Hlen | | lia | | done].
  - by do 2 (constructor; [done|]).
  - by intros ? [= <-].
Qed.

(** [trigger_analysis] never raises.  When it returns a dict, the dict has
    exactly the keys [visual_analysis], [activity_pattern] and
    [productivity_assessment], in that order; when it returns [None], the
    last thing it did was to show an error message. *)
Theorem trigger_analysis_result_shape image w :
  exists r w' events,
    trigger_analysis image w = (Ok r, w')
    /\ trace w' = trace w ++ events
    /\ (forall d, r = Some d -> map fst d = section_keys)
    /\ (r = None -> exists message, last events = Some (StError message)).
Proof.
  destruct (trigger_analysis_shape image w)
    as (r & w' & events & Hrun & Htrace & _ & Hkeys & Hnone & _).
  by exists r, w', events.
Qed.

(** Whatever the services answer, one call of [trigger_analysis] makes at
    most one HTTP request and at most 30 status queries, and the request it
    makes goes to [API_ENDPOINT] and carries a payload that is not empty and
    has at most 262,000 bytes. *)
Theorem trigger_analysis_network_discipline image w :
  exists r w' events,
    trigger_analysis image w = (Ok r, w')
    /\ trace w' = trace w ++ events
    /\ (polls w <= polls w' <= polls w + 30)%nat
    /\ (posts events <= 1)%nat
    /\ (forall url payload,
          In (HttpPost url payload) events ->
          url = API_ENDPOINT
          /\ exists s, image = Some s /\ payload = submission_payload s
                       /\ 0 < utf8_len s <= 262000).
Proof.
  destruct (trigger_analysis_shape image w)
    as (r & w' & events & Hrun & Htrace & Hp & _ & _ & Hposts & Hpost & _).
  by exists r, w', events.
Qed.
End Runs.

(** *** Runs on the sample services *)

Section SampleRuns.
Import Samples MoreSamples.

(** On a state machine that always reports RUNNING: the result is TIMEOUT
    and there were 30 queries. *)
Lemma poll_execution_status_bounded_witness :
  exists r w' events,
    poll_execution_status
      (Sv := sample_services body_with_arn always_running)
      (PStr sample_arn) 30 2 start = (Ok r, w')
    /\ trace w' = client_event :: events
    /\ (status_queries events <= 30)%nat
    /\ (delays events <= status_queries events)%nat
    /\ In (status_of r) result_statuses.
Proof.
  destruct (poll_execution_status_bounded
              (Sv := sample_services body_with_arn always_running)
              (PStr sample_arn) 30 2 start)
    as (r & w' & events & Hrun & Htrace & _ & Hq & Hd & Hin & _).
  exists r, w', events.
  split; [exact Hrun|]. split; [exact Htrace|]. split; [exact Hq|].
  split; [exact Hd | exact Hin].
Defined.







(** On no payload at all. *)
Lemma invalid_payload_never_submitted_witness :
  trigger_analysis (Sv := sample_services body_with_arn always_running)
    None start =
    (Ok None, mkWorld 0 [StError "No image data provided"]).
Proof.
  exact (invalid_payload_never_submitted
           (Sv := sample_services body_with_arn always_running)
           None start eq_refl).
Defined.

(** On an endpoint that is unreachable, and on one that answers 502. *)
Lemma submission_failure_gives_none_witness :
  (exists w',
      trigger_analysis
        (Sv := sample_services_replying (HttpRaises "Connection refused")
                 always_running)
        (Some payload_abc) start = (Ok None, w')
      /\ polls w' = 0%nat
      /\ last (trace w') = Some (StError "Error in analysis: Connection refused"))
  /\ (exists w',
      trigger_analysis
        (Sv := sample_services_replying (HttpResponse 502 "Bad Gateway")
                 always_running)
        (Some payload_abc) start = (Ok None, w')
      /\ polls w' = 0%nat
      /\ last (trace w') = Some (StError "Response: Bad Gateway")).
Proof.
  split.
  - destruct (submission_failure_gives_none
                (Sv := sample_services_replying
                         (HttpRaises "Connection refused") always_running)
                payload_abc start eq_refl) as (Hraise & _ & _).
    eexists. split; [exact (Hraise _ eq_refl)|]. by split.
  - destruct (submission_failure_gives_none
                (Sv := sample_services_replying
                         (HttpResponse 502 "Bad Gateway") always_running)
                payload_abc start eq_refl) as (_ & Hcode & _).
    eexists. split; [apply (Hcode 502 "Bad Gateway"%string eq_refl); lia|].
    by split.
Defined.

Lemma failed_poll_run :
  poll_execution_status
    (Sv := sample_services body_with_arn (then_replies task_failed))
    (PStr sample_arn) 30 2
    (mkWorld 0
       (submit_events
          (Sv := sample_services body_with_arn (then_replies task_failed))
          payload_abc)) =
    (Ok (WithError "FAILED" "States.TaskFailed"),
     mkWorld 2
       (submit_events
          (Sv := sample_services body_with_arn (then_replies task_failed))
          payload_abc
        ++ [client_event;
            DescribeExecution (PStr sample_arn); Sleep 2;
            DescribeExecution (PStr sample_arn);
            StError "Step Functions execution failed: States.TaskFailed"])).
Proof. vm_compute. reflexivity. Qed.

(** On [running, failed]: no sections, and the error of the job shown. *)
Lemma failed_job_gives_none_witness :
  exists w',
    trigger_analysis
      (Sv := sample_services body_with_arn (then_replies task_failed))
      (Some payload_abc) start = (Ok None, w')
    /\ last (trace w')
       = Some (StError "Analysis failed: States.TaskFailed").
Proof.
  eexists. split.
  - apply (failed_job_gives_none
             (Sv := sample_services body_with_arn (then_replies task_failed))
             payload_abc start body_with_arn
             (PDict [("executionArn"%string, PStr sample_arn)])
             (PStr sample_arn) _ _ eq_refl eq_refl eq_refl eq_refl eq_refl
             failed_poll_run).
    discriminate.
  - reflexivity.
Defined.

(** On [running, failed]: the call returns [None] after an error message. *)
Lemma trigger_analysis_result_shape_witness :
  exists r w' events,
    trigger_analysis
      (Sv := sample_services body_with_arn (then_replies task_failed))
      (Some payload_abc) start = (Ok r, w')
    /\ trace w' = events
    /\ (forall d, r = Some d -> map fst d = section_keys)
    /\ (r = None -> exists message, last events = Some (StError message)).
Proof.
  exact (trigger_analysis_result_shape
           (Sv := sample_services body_with_arn (then_replies task_failed))
           (Some payload_abc) start).
Defined.

(** On an empty payload: nothing is sent. *)
Lemma trigger_analysis_network_discipline_witness :
  exists r w' events,
    trigger_analysis
      (Sv := sample_services body_with_arn always_running)
      (Some EmptyString) start = (Ok r, w')
    /\ trace w' = events
    /\ (posts events <= 1)%nat
    /\ (forall url payload, ~ In (HttpPost url payload) events).
Proof.
  destruct (trigger_analysis_network_discipline
              (Sv := sample_services body_with_arn always_running)
              (Some EmptyString) start)
    as (r & w' & events & Hrun & Htrace & _ & Hposts & Hpost).
  exists r, w', events.
  split; [exact Hrun|]. split; [exact Htrace|]. split; [exact Hposts|].
  intros url payload Hin.
  destruct (Hpost url payload Hin) as (_ & s & [= <-] & _ & Hlen).
  unfold utf8_len in Hlen. cbn in Hlen. lia.
Defined.
End SampleRuns.
End OrchestratorMore.

(** ** The display functions: facts *)

Module DisplayFacts.
Import Orchestrator Display.

Section Runs.
Context {R : Rendering}.
Implicit Types (x : pyval) (shown : list Ui).

Ltac unfold_display :=
  cbv [show mbind mret M_bind M_ret bind ret raise lift try_except].

Lemma show_factors_run factors shown :
  show_factors factors shown =
    (Ok tt,
     shown ++ map (fun factor =>
                     StMarkdown (PStr ("- " ++ py_format factor)%string))
                  factors).
Proof.
  revert shown. induction factors as [|factor rest IH]; intros shown.
  - cbn. unfold mret, M_ret, ret. by rewrite app_nil_r.
  - cbn [show_factors map]. unfold_display. rewrite IH.
    by rewrite <- app_assoc.
Qed.

Lemma display_visual_analysis_shape x shown :
  exists events,
    display_visual_analysis x shown =
      (Ok tt, shown ++ StSubheader "📸 Visual Analysis Results" :: events)
    /\ (events = []
        \/ (exists text, events = [StMarkdown text])
        \/ (exists e,
              events = [StError ("Error processing visual analysis: " ++ e)%string;
                        StWarning "Could not parse visual analysis data structure"])).
Proof.
  unfold display_visual_analysis. unfold_display.
  repeat case_match; simplify_eq;
    eexists; (split; [rewrite <- ?app_assoc; cbn [app]; reflexivity|]);
    eauto.
Qed.

(** [display_visual_analysis] returns normally on every value.  After the
    subheader it shows nothing, or one markdown block, or an error message
    followed by the warning of line 185; never anything else. *)
Theorem display_visual_analysis_outcomes x shown :
  exists events,
    display_visual_analysis x shown =
      (Ok tt, shown ++ StSubheader "📸 Visual Analysis Results" :: events)
    /\ (events = []
        \/ (exists text, events = [StMarkdown text])
        \/ (exists e,
              events = [StError ("Error processing visual analysis: " ++ e)%string;
                        StWarning "Could not parse visual analysis data structure"])).
Proof. apply display_visual_analysis_shape. Qed.

Lemma no_error_only_last events :
  Forall not_error events -> error_only_last events.
Proof.
  intros H e Hin. rewrite List.Forall_forall in H. by apply H in Hin.
Qed.

Lemma last_error_only_last events e :
  Forall not_error events -> error_only_last (events ++ [e]).
Proof.
  intros H e' Hin. apply in_app_iff in Hin as [Hin|[<-|[]]].
  - rewrite List.Forall_forall in H. by apply H in Hin.
  - apply last_snoc.
Qed.

Lemma factors_not_error factors :
  Forall not_error
    (map (fun factor => StMarkdown (PStr ("- " ++ py_format factor)%string))
       factors).
Proof. induction factors; by constructor. Qed.

Ltac no_errors :=
  repeat first [ apply Forall_nil_2
               | apply factors_not_error
               | apply Forall_app_2
               | apply Forall_cons_2; [done|] ].

Ltac close_display :=
  first
    [ by exists []; split; [rewrite app_nil_r | intros ? []]
    | eexists; (split; [rewrite <- ?app_assoc; reflexivity|]);
      first [ apply no_error_only_last; cbn [app]; by no_errors
            | by apply (last_error_only_last [])
            | rewrite ?app_assoc; apply last_error_only_last;
              rewrite <- ?app_assoc; cbn [app]; by no_errors ] ].

Lemma display_errors_last_shape x shown :
  (exists events,
      display_activity_pattern x shown =
        (Ok tt, (shown ++ [StSubheader "📊 Activity Pattern Analysis"]) ++ events)
      /\ error_only_last events)
  /\ (exists events,
      display_productivity_assessment x shown =
        (Ok tt, (shown ++ [StSubheader "📈 Productivity Assessment"]) ++ events)
      /\ error_only_last events).
Proof.
  split.
  - unfold display_activity_pattern. unfold_display.
    generalize (shown ++ [StSubheader "📊 Activity Pattern Analysis"]).
    intros s0.
    repeat (case_match; simplify_eq); close_display.
  - unfold display_productivity_assessment. unfold_display.
    generalize (shown ++ [StSubheader "📈 Productivity Assessment"]).
    intros s0.
    repeat (case_match; simplify_eq; rewrite ?show_factors_run in * );
      simplify_eq; close_display.
Qed.

(** [display_activity_pattern] and [display_productivity_assessment]
    return normally on every value, show their subheader first, and show
    an error message, if at all, as the last thing. *)
Theorem display_errors_come_last x shown :
  (exists events,
      display_activity_pattern x shown =
        (Ok tt, (shown ++ [StSubheader "📊 Activity Pattern Analysis"]) ++ events)
      /\ error_only_last events)
  /\ (exists events,
      display_productivity_assessment x shown =
        (Ok tt, (shown ++ [StSubheader "📈 Productivity Assessment"]) ++ events)
      /\ error_only_last events).
Proof. apply display_errors_last_shape. Qed.

(** A section without data is shown as its subheader alone, with no error:
    each display function shows nothing else when its argument is not a
    dict or is a dict without the keys the function looks for (the empty
    dict that [trigger_analysis] puts in for a missing section is one). *)
Theorem absent_section_is_silent x shown :
  (lacks ["output"]%string x ->
   display_visual_analysis x shown =
     (Ok tt, shown ++ [StSubheader "📸 Visual Analysis Results"]))
  /\ (lacks ["productivity_analysis"]%string x ->
      display_activity_pattern x shown =
        (Ok tt, shown ++ [StSubheader "📊 Activity Pattern Analysis"]))
  /\ (lacks ["productivity_score"; "factors_considered"; "error"]%string x ->
      display_productivity_assessment x shown =
        (Ok tt, shown ++ [StSubheader "📈 Productivity Assessment"])).
Proof.
  repeat split; intros H.
  - unfold display_visual_analysis. unfold_display.
    destruct x; try done. cbn in H |- *.
    apply Forall_cons_1 in H as [-> _]. done.
  - unfold display_activity_pattern. unfold_display.
    destruct x; try done. cbn in H |- *.
    apply Forall_cons_1 in H as [-> _]. done.
  - unfold display_productivity_assessment. unfold_display.
    destruct x; try done. cbn in H |- *.
    apply Forall_cons_1 in H as [-> H].
    apply Forall_cons_1 in H as [-> H].
    apply Forall_cons_1 in H as [-> _]. done.
Qed.

(** On data of the expected shape, a dict whose [output.message.content]
    is a list that starts with a dict, [display_visual_analysis] shows the
    [text] of that first item, or the empty string when the item has no
    [text]; the rest of the list is not shown. *)
Theorem display_visual_analysis_text d output message first rest shown :
  dict_get "output" d = Some (PDict output) ->
  dict_get "message" output = Some (PDict message) ->
  dict_get "content" message = Some (PList (PDict first :: rest)) ->
  display_visual_analysis (PDict d) shown =
    (Ok tt,
     shown ++ [StSubheader "📸 Visual Analysis Results";
               StMarkdown (default (PStr "") (dict_get "text" first))]).
Proof.
  intros Ho Hm Hc. unfold display_visual_analysis. unfold_display.
  cbn. rewrite Ho. cbn. rewrite Hm. cbn. rewrite Hc. cbn.
  by rewrite <- app_assoc.
Qed.

(** A score that [st.progress] does not accept stops the assessment
    display: after the "Overall Score" heading only the error message is
    shown, and the factors and the [error] entry of the assessment are not
    shown even when they are present. *)
Theorem bad_score_hides_the_rest d score e shown :
  dict_get "productivity_score" d = Some score ->
  progress_error score = Some e ->
  display_productivity_assessment (PDict d) shown =
    (Ok tt,
     shown ++ [StSubheader "📈 Productivity Assessment";
               StMarkdown (PStr "### Overall Score");
               StError ("Error processing productivity assessment: "
                        ++ e)%string]).
Proof.
  intros Hs He. unfold display_productivity_assessment. unfold_display.
  cbn. rewrite Hs. cbn. rewrite He.
  by rewrite <- !app_assoc.
Qed.
End Runs.

(** *** Runs on the sample rendering *)

Section SampleRuns.
Import MoreSamples.

(** On the empty dict that [trigger_analysis] puts in for a missing
    section. *)
Lemma absent_section_is_silent_witness :
  display_visual_analysis (R := sample_rendering) (PDict []) [] =
    (Ok tt, [StSubheader "📸 Visual Analysis Results"])
  /\ display_activity_pattern (R := sample_rendering) (PDict []) [] =
      (Ok tt, [StSubheader "📊 Activity Pattern Analysis"])
  /\ display_productivity_assessment (R := sample_rendering) (PDict []) [] =
      (Ok tt, [StSubheader "📈 Productivity Assessment"]).
Proof.
  destruct (absent_section_is_silent (R := sample_rendering) (PDict []) [])
    as (Hv & Ha & Hp).
  split; [apply Hv; by repeat constructor|].
  split; [apply Ha; by repeat constructor|].
  apply Hp; by repeat constructor.
Defined.

(** On [{"output": {"message": {"content": [{"text": "All good"}]}}}]. *)
Lemma display_visual_analysis_text_witness :
  display_visual_analysis (R := sample_rendering) (PDict visual_section) [] =
    (Ok tt, [StSubheader "📸 Visual Analysis Results";
             StMarkdown (PStr "All good")]).
Proof.
  exact (display_visual_analysis_text (R := sample_rendering)
           visual_section _ _ _ _ [] eq_refl eq_refl eq_refl).
Defined.

(** On a score of 150 with one factor: the factor is not shown. *)
Lemma bad_score_hides_the_rest_witness :
  display_productivity_assessment (R := sample_rendering)
    (PDict assessment_section) [] =
    (Ok tt,
     [StSubheader "📈 Productivity Assessment";
      StMarkdown (PStr "### Overall Score");
      StError "Error processing productivity assessment: Progress Value has invalid value [0.0, 1.0]"]).
Proof.
  exact (bad_score_hides_the_rest (R := sample_rendering)
           assessment_section (PInt 150) _ [] eq_refl eq_refl).
Defined.
End SampleRuns.
End DisplayFacts.

(** ** The page: facts *)

Module AppFacts.
Import Py Validator Normalizer Orchestrator Display Encoding App
  OrchestratorSpec OrchestratorMoreSpec AppSpec.

Section Runs.
Context {P : Pillow} {Sv : Services} {R : Rendering} {Pg : Page}.

Lemma get_image_format_returns f (w : Normalizer.World P) :
  exists format w', get_image_format f w = (Ok format, w').
Proof.
  destruct w as [h t]. unfold get_image_format.
  cbv [Image_open img_format mbind mret M_bind M_ret bind ret lift
       try_except Normalizer.emit alloc read Normalizer.heap Normalizer.trace].
  destruct (pil_open f) as [v|e]; [|by eexists _, _].
  rewrite NormalizerFacts.lookup_fresh. by eexists _, _.
Qed.

Lemma get_image_format_opened f v (w : Normalizer.World P) :
  pil_open f = Ok v ->
  get_image_format f w =
    (Ok (pil_format v),
     Normalizer.mkWorld (Normalizer.heap w ++ [v])
       (Normalizer.trace w ++ [PilOpen f])).
Proof.
  intros Ho. destruct w as [h t]. unfold get_image_format.
  cbv [Image_open img_format mbind mret M_bind M_ret bind ret lift
       try_except Normalizer.emit alloc read Normalizer.heap Normalizer.trace].
  rewrite Ho. by rewrite NormalizerFacts.lookup_fresh.
Qed.

Lemma get_image_base64_run file shown :
  get_image_base64 file shown = (Ok (Some (b64encode file)), shown).
Proof. reflexivity. Qed.

Lemma b64_size_fits buffer :
  ((0 < utf8_len (b64encode buffer) <= 262000) <-> (0 < blen buffer <= 196500))
  /\ (262000 <? utf8_len (b64encode buffer)) = (196500 <? blen buffer).
Proof.
  rewrite EncodingFacts.b64encode_length.
  pose proof (Z.div_mod (blen buffer + 2) 3 ltac:(lia)) as Hdm.
  pose proof (Z.mod_pos_bound (blen buffer + 2) 3 ltac:(lia)) as Hmod.
  assert (0 <= blen buffer) as Hnn by (unfold blen; lia).
  split; [lia|].
  destruct (196500 <? blen buffer) eqn:Hb.
  - apply Z.ltb_lt in Hb. apply Z.ltb_lt. lia.
  - apply Z.ltb_ge in Hb. apply Z.ltb_ge. lia.
Qed.

Lemma imaging_not_remote (t : list Normalizer.Event) :
  Forall not_remote (map Imaging t).
Proof. induction t; by constructor. Qed.

Lemma shown_not_remote (t : list Ui) : Forall not_remote (map Shown t).
Proof. induction t; by constructor. Qed.

Lemma in_remote (e : Orchestrator.Event) t : In (Remote e) (map Remote t) -> In e t.
Proof.
  intros H. apply in_map_iff in H as (x & [= ->] & H). exact H.
Qed.

Lemma not_remote_in e events :
  Forall not_remote events -> ~ In (Remote e) events.
Proof.
  intros H Hin. rewrite List.Forall_forall in H. by apply H in Hin.
Qed.

Lemma say_if (c : bool) (a b : App.Event) :
  (if c then say a else say b) = say (if c then a else b).
Proof. by destruct c. Qed.

Lemma say_run (e : App.Event) h p l :
  say e (App.mkWorld h p l) = (Ok tt, App.mkWorld h p (l ++ [e])).
Proof. reflexivity. Qed.

Ltac enter_page :=
  cbv [imaging remote showing encoding st_image raise
       mbind mret M_bind M_ret bind ret
       App.heap App.polls App.log].

Ltac step :=
  repeat first
    [ rewrite say_if
    | rewrite say_run
    | progress cbv beta iota
    | progress cbn [App.heap App.polls App.log Normalizer.heap
                    Normalizer.trace Orchestrator.polls Orchestrator.trace] ].

Ltac unfold_page :=
  cbv [say imaging remote showing encoding st_image raise
       mbind mret M_bind M_ret bind ret
       App.heap App.polls App.log].

(* membership in a log that is written out *)
Ltac in_log H :=
  repeat first
    [ apply in_app_or in H; destruct H as [H|H]
    | apply in_map_iff in H; destruct H as (? & ? & H); try discriminate
    | destruct H as [H|H];
      [ try discriminate;
        try match goal with
            | Hs : size_notice ?e |- _ => subst e; destruct Hs
            end |]
    | match type of H with In _ [] => destruct H end ].

Ltac log_not_remote :=
  repeat first
    [ apply Forall_nil_2
    | apply Forall_cons_2;
      [ first [ exact I
              | match goal with
                | Hs : size_notice ?e |- not_remote ?e => by destruct e
                end ] |]
    | apply Forall_app_2
    | apply imaging_not_remote
    | apply shown_not_remote ].

Lemma size_notice_if (c : bool) a b :
  size_notice (if c then StInfo a else StSuccess b).
Proof. by destruct c. Qed.

Lemma last_skip {A} (x : A) l y : last l = Some y -> last (x :: l) = Some y.
Proof. by destruct l. Qed.

Lemma last_after {A} (l1 l2 : list A) y :
  last l2 = Some y -> last (l1 ++ l2) = Some y.
Proof. intros H. apply last_app_Some. by left. Qed.

Ltac log_last :=
  repeat first [ reflexivity | apply last_skip | apply last_after ].

Ltac log_in :=
  repeat first [ by left | right | apply in_or_app; right ].

Ltac log_eq :=
  repeat first [ rewrite <- app_assoc | progress cbn [app] ]; reflexivity.

(* a log that contains a segment, or ends with one *)
Lemma segment_skip {A} (x : A) l seg :
  (exists before tail, l = before ++ seg ++ tail) ->
  exists before tail, x :: l = before ++ seg ++ tail.
Proof. intros (b & t & ->). by exists (x :: b), t. Qed.

Lemma segment_after {A} (l1 l seg : list A) :
  (exists before tail, l = before ++ seg ++ tail) ->
  exists before tail, l1 ++ l = before ++ seg ++ tail.
Proof. intros (b & t & ->). exists (l1 ++ b), t. by rewrite app_assoc. Qed.

Lemma ending_skip {A} (x : A) l suffix :
  (exists before, l = before ++ suffix) ->
  exists before, x :: l = before ++ suffix.
Proof. intros (b & ->). by exists (x :: b). Qed.

Lemma ending_after {A} (l1 l suffix : list A) :
  (exists before, l = before ++ suffix) ->
  exists before, l1 ++ l = before ++ suffix.
Proof. intros (b & ->). exists (l1 ++ b). by rewrite app_assoc. Qed.

Lemma failed_tail url payload text (tail : list Orchestrator.Event) message :
  last (Orchestrator.StSpinner text :: HttpPost url payload :: tail)
  = Some (Orchestrator.StError message) ->
  exists l', tail = l' ++ [Orchestrator.StError message].
Proof. destruct tail; [done|]. intros H. by apply last_Some. Qed.

Lemma remote_post_in url payload tail :
  Forall not_post tail -> ~ In (Remote (HttpPost url payload)) (map Remote tail).
Proof.
  intros Htail Hin. apply in_remote in Hin.
  rewrite List.Forall_forall in Htail. by apply Htail in Hin.
Qed.

Lemma post_in_tail url payload tail :
  Forall not_post tail -> In (HttpPost url payload) tail -> False.
Proof.
  intros Htail Hin. rewrite List.Forall_forall in Htail.
  by apply Htail in Hin.
Qed.

Ltac log_segment :=
  unfold submission;
  repeat first [ solve [eexists [], _; reflexivity] | apply segment_skip
               | apply segment_after ].

Ltac log_ending :=
  repeat first [ solve [exists []; reflexivity] | apply ending_skip
               | apply ending_after ].

(* the conjuncts of [page_shape], and those that hold because the log has
   no event of the kind asked for *)
Ltac shape_conjuncts :=
  unfold page_shape;
  refine (conj _ (conj _ (conj _ (conj _ (conj _ (conj _ _))))));
  try (intros; first
         [ done
         | by log_not_remote
         | match goal with H : In _ _ |- _ => by in_log H end ]).

Ltac open_shape :=
  eexists _, _, _; (split; [reflexivity|]); cbn [App.log App.polls];
  (split; [rewrite <- !app_assoc; cbn [app]; reflexivity|]).

(* [page_progress] in a leaf of [main]: the two calls of the normaliser
   are those of the hypotheses *)
Ltac meet_runs Hfmt Hcomp Hc :=
  unfold after_format in Hc; cbn [App.heap] in Hc;
  rewrite Hfmt in Hc; cbn [snd Normalizer.heap] in Hc;
  rewrite Hcomp in Hc; simplify_eq.

Ltac no_raise :=
  split; [done|];
  intros file' buffer' iw' [= <-] Hc.

Lemma main_shape u pressed w :
  exists r w' events,
    main u pressed w = (r, w')
    /\ log w' = log w ++ events
    /\ (App.polls w <= App.polls w' <= App.polls w + 30)%nat
    /\ page_progress u pressed w r events
    /\ page_shape pressed r events.
Proof.
  destruct w as [h p l]. destruct u as [file|]; cycle 1.
  { unfold main. enter_page. step. open_shape. split; [lia|].
    split; [by split|]. shape_conjuncts. }
  unfold main. enter_page. step.
  destruct (get_image_format_returns file (Normalizer.mkWorld h []))
    as (format & [h1 t1] & Hfmt).
  rewrite Hfmt. step.
  destruct (NormalizerMore.compress_image_returns file (Normalizer.mkWorld h1 []))
    as (compressed & [h2 t2] & Hcomp & _).
  rewrite Hcomp. step.
  destruct compressed as [buffer|]; cycle 1.
  { open_shape. split; [lia|]. split; [|shape_conjuncts].
    no_raise. meet_runs Hfmt Hcomp Hc. }
  step.
  match goal with
  | |- context [_ ++ [if ?c then StInfo ?a else StSuccess ?b]] =>
      pose proof (size_notice_if c a b) as Hsize;
      revert Hsize;
      generalize (if c then StInfo a else StSuccess b);
      intros size_event Hsize
  end.
  destruct (st_image_error buffer) as [e|] eqn:Himage.
  { open_shape. split; [lia|]. split; [|shape_conjuncts]. split.
    - intros e0 [= <-]. exists file, buffer, (Normalizer.mkWorld h2 t2).
      split; [done|]. split; [|done].
      unfold after_format. cbn [App.heap]. by rewrite Hfmt.
    - intros file' buffer' iw' [= <-] Hc. meet_runs Hfmt Hcomp Hc.
      rewrite Himage. split; [done | by log_not_remote]. }
  step.
  destruct pressed; cycle 1.
  { open_shape. split; [lia|]. split; [|shape_conjuncts].
    no_raise. meet_runs Hfmt Hcomp Hc. rewrite Himage.
    split; [done|]. split; [log_in | done]. }
  rewrite get_image_base64_run. step. cbn [map]. rewrite app_nil_r.
  destruct (b64encode buffer) as [|c0 s0] eqn:He.
  { apply EncodingFacts.b64encode_empty in He as ->. step.
    open_shape. split; [lia|]. split; [|shape_conjuncts].
    - no_raise. meet_runs Hfmt Hcomp Hc. rewrite Himage.
      split; [done|]. split; [log_in|]. intros _ [Hb _].
      by vm_compute in Hb.
    - intros buffer caption H _ Hb. in_log H. simplify_eq.
      by vm_compute in Hb.
    - intros _. split; [log_in | by log_not_remote]. }
  rewrite <- He.
  destruct (b64_size_fits buffer) as [Hfits ->].
  destruct (196500 <? blen buffer) eqn:Hbig.
  { step. apply Z.ltb_lt in Hbig.
    open_shape. split; [lia|]. split; [|shape_conjuncts].
    - no_raise. meet_runs Hfmt Hcomp Hc. rewrite Himage.
      split; [done|]. split; [log_in|]. intros _ Hb. lia.
    - intros buffer' caption H _ _. in_log H. simplify_eq.
      split; [done|]. split; [by log_not_remote|].
      unfold exceeds_message.
      rewrite <- EncodingFacts.b64encode_length. log_last. }
  step. apply Z.ltb_ge in Hbig.
  assert (0 < blen buffer <= 196500) as Hlen.
  { split; [|done]. destruct buffer; [done|]. unfold blen. cbn. lia. }
  destruct (OrchestratorMore.trigger_analysis_shape
              (Some (b64encode buffer)) (Orchestrator.mkWorld p []))
    as (result & [p3 t3] & ev & -> & Hev & Hp & Hkeys & Hnone & _ & _ & Hsent).
  cbn [Orchestrator.polls Orchestrator.trace app] in Hev, Hp. subst t3.
  destruct (Hsent _ eq_refl (proj2 Hfits Hlen)) as (tail & -> & Htail).
  clear Hsent. step. cbn [map].
  destruct result as [[|kv d]|].
  - by specialize (Hkeys [] eq_refl).
  - destruct (DisplayFacts.display_visual_analysis_shape
                (section (kv :: d) "visual_analysis") [])
      as (ev1 & -> & _).
    step.
    destruct (DisplayFacts.display_errors_last_shape
                (section (kv :: d) "activity_pattern") [])
      as [(ev2 & -> & _) _].
    step.
    destruct (DisplayFacts.display_errors_last_shape
                (section (kv :: d) "productivity_assessment") [])
      as [_ (ev3 & -> & _)].
    step. cbn [map app].
    open_shape. split; [lia|]. split; [|shape_conjuncts].
    + no_raise. meet_runs Hfmt Hcomp Hc. rewrite Himage.
      split; [done|]. split; [log_in|]. intros _ _. log_segment.
    + intros url payload H. in_log H; simplify_eq.
      * split; [done|]. exists buffer. split; [log_in | done].
      * exfalso. eapply post_in_tail; eassumption.
    + intros buffer' caption H _ Hb. in_log H. simplify_eq. lia.
    + intros _. exists buffer. split; [done | log_segment].
    + intros label data file_name mime H. in_log H. simplify_eq.
      split; [log_last|]. split.
      * exists (kv :: d). split; [by apply Hkeys | reflexivity].
      * intros h0 [<-|[<-|[<-|[]]]]; log_in.
  - destruct (Hnone eq_refl) as [message Hlast].
    apply failed_tail in Hlast as [l' Hl'].
    step. open_shape. split; [lia|]. split; [|shape_conjuncts].
    + no_raise. meet_runs Hfmt Hcomp Hc. rewrite Himage.
      split; [done|]. split; [log_in|]. intros _ _. log_segment.
    + intros url payload H. in_log H; simplify_eq.
      * split; [done|]. exists buffer. split; [log_in | done].
      * exfalso. eapply post_in_tail; eassumption.
    + intros buffer' caption H _ Hb. in_log H. simplify_eq. lia.
    + intros _. exists buffer. split; [done | log_segment].
    + intros _. exists message. rewrite Hl', map_app. cbn [map].
      rewrite <- app_assoc. cbn [app]. log_ending.
Qed.
(** [main] raises exactly what [st.image] raises on the buffer
    [compress_image] returned: every exception of [main] is such a one, and
    when [st.image] raises on that buffer, [main] raises the same and has
    called no remote service. *)
Theorem main_raises_what_st_image_raises u pressed w :
  exists r w' events,
    main u pressed w = (r, w')
    /\ log w' = log w ++ events
    /\ (forall e,
          r = Raise e ->
          exists file buffer iw',
            u = Some file
            /\ compress_image file (after_format file w)
               = (Ok (Some buffer), iw')
            /\ st_image_error buffer = Some e)
    /\ (forall file buffer iw' e,
          u = Some file ->
          compress_image file (after_format file w) = (Ok (Some buffer), iw') ->
          st_image_error buffer = Some e ->
          r = Raise e /\ Forall not_remote events).
Proof.
  destruct (main_shape u pressed w)
    as (r & w' & events & Hrun & Hlog & _ & [Hraise Hgo] & _).
  exists r, w', events. split; [done|]. split; [done|]. split; [done|].
  intros file buffer iw' e Hu Hc He.
  specialize (Hgo file buffer iw' Hu Hc). by rewrite He in Hgo.
Qed.

(** One run of [main] calls the remote services only after the button was
    pressed, makes at most 30 status queries, and sends only the base64
    text of the buffer it displayed, a buffer of 1 to 196,500 bytes, to
    [API_ENDPOINT].  Once its spinner is shown, the request follows: the
    validation inside [trigger_analysis] never rejects what [main] passes
    on. *)
Theorem main_network_discipline u pressed w :
  exists r w' events,
    main u pressed w = (r, w')
    /\ log w' = log w ++ events
    /\ (App.polls w <= App.polls w' <= App.polls w + 30)%nat
    /\ (pressed = false -> Forall not_remote events)
    /\ (forall url payload,
          In (Remote (HttpPost url payload)) events ->
          url = API_ENDPOINT
          /\ exists buffer,
               In (StImage buffer "Uploaded Screenshot") events
               /\ payload = submission_payload (b64encode buffer)
               /\ 0 < blen buffer <= 196500)
    /\ (In (StSpinner "Analyzing...") events ->
        exists buffer,
          0 < blen buffer <= 196500
          /\ exists before tail,
               events = before ++ submission buffer ++ tail).
Proof.
  destruct (main_shape u pressed w)
    as (r & w' & events & Hrun & Hlog & Hp & _
        & Hidle & Hpost & _ & _ & Hspin & _).
  by exists r, w', events.
Qed.

(** A buffer of more than 196,500 bytes is never submitted, although
    [compress_image] returns buffers of up to 250,000 bytes (and larger
    ones from its grayscale step): with the button pressed, [main] shows
    the buffer, then the message that the base64 size exceeds the limit,
    and returns without calling a remote service. *)
Theorem oversized_buffer_is_refused file w buffer iw' :
  compress_image file (after_format file w) = (Ok (Some buffer), iw') ->
  st_image_error buffer = None ->
  196500 < blen buffer ->
  exists w' events,
    main (Some file) true w = (Ok tt, w')
    /\ log w' = log w ++ events
    /\ In (StImage buffer "Uploaded Screenshot") events
    /\ Forall not_remote events
    /\ last events = Some (StError (exceeds_message buffer)).
Proof.
  intros Hc Himage Hbig.
  destruct (main_shape (Some file) true w)
    as (r & w' & events & Hrun & Hlog & _ & [_ Hgo]
        & _ & _ & Hover & _).
  specialize (Hgo file buffer iw' eq_refl Hc). rewrite Himage in Hgo.
  destruct Hgo as (-> & Hshown & _).
  destruct (Hover _ _ Hshown eq_refl Hbig) as (_ & Hquiet & Hlast).
  by exists w', events.
Qed.

(** A buffer of 1 to 196,500 bytes that [st.image] accepts is submitted
    when the button is pressed: [main] returns normally, and its log has
    the display of the buffer, the button, the spinner and then the HTTP
    request with the base64 text of that buffer. *)
Theorem accepted_buffer_is_submitted file w buffer iw' :
  compress_image file (after_format file w) = (Ok (Some buffer), iw') ->
  st_image_error buffer = None ->
  0 < blen buffer <= 196500 ->
  exists w' before tail,
    main (Some file) true w = (Ok tt, w')
    /\ log w' = log w ++ before ++ submission buffer ++ tail.
Proof.
  intros Hc Himage Hlen.
  destruct (main_shape (Some file) true w)
    as (r & w' & events & Hrun & Hlog & _ & [_ Hgo] & _).
  specialize (Hgo file buffer iw' eq_refl Hc). rewrite Himage in Hgo.
  destruct Hgo as (-> & _ & Hsub).
  destruct (Hsub eq_refl Hlen) as (before & tail & ->).
  by exists w', before, tail.
Qed.

(** The two failure messages of [main] and what they mean.  "Failed to
    process the image" is shown only for an empty buffer, and nothing is
    sent then.  "Failed to process the analysis" is shown only directly
    after an error message of [trigger_analysis]: an analysis that returns
    a result is never reported as failed. *)
Theorem main_failure_messages u pressed w :
  exists r w' events,
    main u pressed w = (r, w')
    /\ log w' = log w ++ events
    /\ (In (StError "Failed to process the image") events ->
        In (StImage [] "Uploaded Screenshot") events
        /\ Forall not_remote events)
    /\ (In (StError "Failed to process the analysis") events ->
        exists message before,
          events = before ++ [Remote (Orchestrator.StError message);
                              StError "Failed to process the analysis"]).
Proof.
  destruct (main_shape u pressed w)
    as (r & w' & events & Hrun & Hlog & _ & _
        & _ & _ & _ & Himage & _ & Hfailed & _).
  by exists r, w', events.
Qed.

End Runs.


(** *** Runs on the sample libraries *)

Section SampleRuns.
Import NormalizerSpec Samples MoreSamples PageSamples.

Lemma tiny_png_compressed :
  compress_image tiny_png (after_format tiny_png page_start)
  = (Ok (Some tiny_png),
     Normalizer.mkWorld
       [mkSample (Some "PNG") "RGB" 800 600 0;
        mkSample (Some "PNG") "RGB" 800 600 0]
       [PilOpen tiny_png]).
Proof. reflexivity. Qed.

Lemma heavy_open :
  pil_open (Pillow := sample_pillow) heavy_jpeg = Ok (jpeg 80 80 200000).
Proof.
  unfold heavy_jpeg. cbn [pil_open sample_pillow].
  rewrite NormalizerFacts.open_jpeg by lia. reflexivity.
Qed.
Lemma heavy_reaches :
  reaches_budget_check (P := sample_pillow) heavy_jpeg
    (Normalizer.mkWorld [jpeg 80 80 200000] []) 2%nat (zeros 219344)
    (Normalizer.mkWorld
       [jpeg 80 80 200000; jpeg 80 80 200000; rgb 80 80 200000]
       [PilOpen heavy_jpeg; PilGetbbox 1%nat; PilCrop 1%nat (0, 0, 80, 80);
        PilThumbnail 2%nat (500, 500) LANCZOS;
        PilSave 2%nat "PNG" true (Some 85)]).
Proof.
  apply (NormalizerFacts.reaches_via_crop (P := sample_pillow)
           heavy_jpeg [jpeg 80 80 200000] [] (jpeg 80 80 200000)
           (0, 0, 80, 80) (rgb 80 80 200000) (rgb 80 80 200000)
           (zeros 219344)).
  - exact heavy_open.
  - by apply NormalizerFacts.jpeg_not_small_png.
  - reflexivity.
  - reflexivity.
  - reflexivity.
  - reflexivity.
  - change (Ok (zeros (sample_png_size (rgb 80 80 200000)))
            = Ok (zeros 219344) :> Res bytes).
    assert (sample_png_size (rgb 80 80 200000) = 219344) as -> by reflexivity.
    reflexivity.
Qed.
Lemma heavy_format :
  get_image_format (P := sample_pillow) heavy_jpeg (Normalizer.mkWorld [] [])
  = (Ok (Some "JPEG"%string),
     Normalizer.mkWorld [jpeg 80 80 200000] [PilOpen heavy_jpeg]).
Proof.
  exact (get_image_format_opened (P := sample_pillow)
           heavy_jpeg (jpeg 80 80 200000) (Normalizer.mkWorld [] [])
           heavy_open).
Qed.
Lemma heavy_after_format :
  after_format heavy_jpeg page_start
  = Normalizer.mkWorld [jpeg 80 80 200000] [].
Proof.
  unfold after_format, page_start. cbn [App.heap].
  rewrite heavy_format. reflexivity.
Qed.
Lemma heavy_jpeg_compressed :
  compress_image heavy_jpeg (after_format heavy_jpeg page_start)
  = (Ok (Some (zeros 219344)),
     Normalizer.mkWorld
       [jpeg 80 80 200000; jpeg 80 80 200000; rgb 80 80 200000]
       [PilOpen heavy_jpeg; PilGetbbox 1%nat; PilCrop 1%nat (0, 0, 80, 80);
        PilThumbnail 2%nat (500, 500) LANCZOS;
        PilSave 2%nat "PNG" true (Some 85)]).
Proof.
  rewrite heavy_after_format.
  apply (NormalizerFacts.compress_image_via_budget (P := sample_pillow)
           heavy_jpeg _ 2%nat (zeros 219344) _ _ _ heavy_reaches).
  unfold enforce_budget.
  rewrite NormalizerFacts.blen_zeros by lia. reflexivity.
Qed.
(** On a page whose [st.image] refuses every buffer. *)
Lemma main_raises_what_st_image_raises_witness :
  exists w',
    main (Sv := sample_services body_with_arn always_running)
      (R := sample_rendering) (Pg := refusing_page)
      (Some tiny_png) false page_start
    = (Raise "cannot identify image file", w').
Proof.
  destruct (main_raises_what_st_image_raises
              (Sv := sample_services body_with_arn always_running)
              (R := sample_rendering) (Pg := refusing_page)
              (Some tiny_png) false page_start)
    as (r & w' & events & Hrun & _ & _ & Hraises).
  destruct (Hraises tiny_png tiny_png _ _ eq_refl tiny_png_compressed eq_refl)
    as [Hr _].
  exists w'. rewrite <- Hr. exact Hrun.
Defined.

(** On the 80x80 JPEG with the 200,000-byte profile: the PNG of 219,344
    bytes is within the budget of [compress_image], and its base64 text of
    292,460 characters is refused. *)
Lemma oversized_buffer_is_refused_witness :
  exists w' events,
    main (Sv := sample_services body_with_arn always_running)
      (R := sample_rendering) (Pg := sample_page)
      (Some heavy_jpeg) true page_start
    = (Ok tt, w')
    /\ log w' = events
    /\ In (StImage (zeros 219344) "Uploaded Screenshot") events
    /\ Forall not_remote events
    /\ last events = Some (StError (exceeds_message (zeros 219344))).
Proof.
  apply (oversized_buffer_is_refused
           (Sv := sample_services body_with_arn always_running)
           (R := sample_rendering) (Pg := sample_page)
           heavy_jpeg page_start (zeros 219344) _ heavy_jpeg_compressed).
  - reflexivity.
  - rewrite NormalizerFacts.blen_zeros; lia.
Defined.

(** On the 3-byte PNG. *)
Lemma accepted_buffer_is_submitted_witness :
  exists w' before tail,
    main (Sv := sample_services body_with_arn always_running)
      (R := sample_rendering) (Pg := sample_page)
      (Some tiny_png) true page_start
    = (Ok tt, w')
    /\ log w'
       = before
         ++ submission (Sv := sample_services body_with_arn always_running)
              tiny_png
         ++ tail.
Proof.
  apply (accepted_buffer_is_submitted
           (Sv := sample_services body_with_arn always_running)
           (R := sample_rendering) (Pg := sample_page)
           tiny_png page_start tiny_png _ tiny_png_compressed).
  - reflexivity.
  - unfold blen. cbn. lia.
Defined.
End SampleRuns.
End AppFacts.
